(** * Token and credential lifecycle of the todo-app backend

    A shallow embedding of [utils/jwt.ts], [models/User.ts] and
    [services/authService.ts], of the middlewares of [middlewares/auth.ts],
    the error handler of [utils/errors.ts] and two handlers of
    [controllers/authController.ts], and the properties of the token life
    cycle proved on it.

    Conventions.
    - A JavaScript string is the [string] of the bytes of its UTF-8 form.
      [Js.length] counts its UTF-16 code units, as [length] does, and
      [Js.trim] removes the white space of [trim], also outside ASCII;
      [Js.toLowerCase] changes the letters of ASCII and leaves every other
      character alone.
    - [Date] values and [Date.now()] are milliseconds in [Z]; JWT [iat]/[exp]
      are seconds in [Z].  A [number] is a [Z], which is exact for the
      integers below 2^53 that a double holds; [NaN] is [None].
    - The MongoDB collection is the list of its documents in insertion
      order; a loaded document is addressed by its position.
    - A call of a service runs at one clock instant [now], draws one random
      hex string, one bcrypt salt and one fresh ObjectId, and meets a mail
      transport that is either up or down: these are the fields of [Env].
    - Thrown values are the constructors of [Exn]; every function that may
      throw returns a [Result]. *)

From Stdlib Require Import ZArith String Ascii List Bool Lia.
From Stdlib Require Import DecimalString DecimalZ.
From stdpp Require Import base list strings option.

Local Open Scope Z_scope.

(** ** JavaScript string primitives *)

Module Js.

Definition isDigit (c : ascii) : bool :=
  let n := nat_of_ascii c in ((48 <=? n) && (n <=? 57))%nat.

Definition isUpper (c : ascii) : bool :=
  let n := nat_of_ascii c in ((65 <=? n) && (n <=? 90))%nat.

Definition isLower (c : ascii) : bool :=
  let n := nat_of_ascii c in ((97 <=? n) && (n <=? 122))%nat.

Definition isLetter (c : ascii) : bool := isUpper c || isLower c.

(** White space removed by [String.prototype.trim], ASCII range. *)
Definition isSpace (c : ascii) : bool :=
  let n := nat_of_ascii c in ((9 <=? n) && (n <=? 13) || (n =? 32))%nat.

Definition lowerChar (c : ascii) : ascii :=
  if isUpper c then ascii_of_nat (nat_of_ascii c + 32) else c.

(** [s.toLowerCase()] *)
Fixpoint toLowerCase (s : string) : string :=
  match s with
  | EmptyString => EmptyString
  | String c r => String (lowerChar c) (toLowerCase r)
  end.

(** The white space of [trim] outside ASCII, in UTF-8: U+00A0 in two
    bytes; U+1680, U+2000 to U+200A, U+2028, U+2029, U+202F, U+205F, U+3000
    and U+FEFF in three. *)
Definition isSpace2 (a b : ascii) : bool :=
  ((nat_of_ascii a =? 194) && (nat_of_ascii b =? 160))%nat.

Definition isSpace3 (a b c : ascii) : bool :=
  let x := nat_of_ascii a in
  let y := nat_of_ascii b in
  let z := nat_of_ascii c in
  ((x =? 225) && (y =? 154) && (z =? 128)
   || (x =? 226) && (y =? 128)
      && ((128 <=? z) && (z <=? 138) || (z =? 168) || (z =? 169) || (z =? 175))
   || (x =? 226) && (y =? 129) && (z =? 159)
   || (x =? 227) && (y =? 128) && (z =? 128)
   || (x =? 239) && (y =? 187) && (z =? 191))%nat.

(** Whether [s] starts with a white-space character. *)
Definition startsWithSpace (s : string) : bool :=
  match s with
  | String a r =>
      isSpace a
      || match r with
         | String b r2 =>
             isSpace2 a b
             || match r2 with
                | String c _ => isSpace3 a b c
                | EmptyString => false
                end
         | EmptyString => false
         end
  | EmptyString => false
  end.

(** Whether [s] is one white-space character. *)
Definition isSpaceChar (s : string) : bool :=
  match s with
  | String a EmptyString => isSpace a
  | String a (String b EmptyString) => isSpace2 a b
  | String a (String b (String c EmptyString)) => isSpace3 a b c
  | _ => false
  end.

Fixpoint trimStart (s : string) : string :=
  match s with
  | String a r =>
      if isSpace a then trimStart r
      else
        match r with
        | String b r2 =>
            if isSpace2 a b then trimStart r2
            else
              match r2 with
              | String c r3 => if isSpace3 a b c then trimStart r3 else s
              | EmptyString => s
              end
        | EmptyString => s
        end
  | EmptyString => EmptyString
  end.

Fixpoint trimEnd (s : string) : string :=
  match s with
  | EmptyString => EmptyString
  | String c r =>
      let kept := String c (trimEnd r) in
      if isSpaceChar kept then EmptyString else kept
  end.

(** [s.trim()] *)
Definition trim (s : string) : string := trimEnd (trimStart s).

(** The UTF-16 code units that a byte of UTF-8 stands for: a byte that
    continues a character counts nothing, the first byte of a character of
    four bytes counts two (a surrogate pair). *)
Definition codeUnits (c : ascii) : nat :=
  let n := nat_of_ascii c in
  if (n <? 128)%nat then 1%nat
  else if (n <? 192)%nat then 0%nat
  else if (n <? 240)%nat then 1%nat
  else 2%nat.

(** [s.length] *)
Fixpoint length (s : string) : nat :=
  match s with
  | EmptyString => 0%nat
  | String c r => (codeUnits c + length r)%nat
  end.

(** [s.replace(/[^0-9]/g, '')] *)
Fixpoint keepDigits (s : string) : string :=
  match s with
  | EmptyString => EmptyString
  | String c r => if isDigit c then String c (keepDigits r) else keepDigits r
  end.

Definition digitVal (c : ascii) : Z := Z.of_nat (nat_of_ascii c) - 48.

(** The longest prefix of decimal digits and what follows it. *)
Fixpoint spanDigits (s : string) : string * string :=
  match s with
  | String c r =>
      if isDigit c then let '(d, t) := spanDigits r in (String c d, t)
      else (EmptyString, s)
  | EmptyString => (EmptyString, EmptyString)
  end.

Fixpoint digitsValue (acc : Z) (s : string) : Z :=
  match s with
  | EmptyString => acc
  | String c r => digitsValue (10 * acc + digitVal c) r
  end.

(** [parseInt(s)] on a string that starts with its digits: the value of
    the longest digit prefix, [NaN] when there is none. *)
Definition parseInt (s : string) : option Z :=
  match fst (spanDigits s) with
  | EmptyString => None
  | d => Some (digitsValue 0 d)
  end.

(** [x * k] on numbers, [NaN] absorbing; exact while the product is
    below 2^53. *)
Definition times (x : option Z) (k : Z) : option Z :=
  match x with Some v => Some (v * k) | None => None end.

Definition all (p : ascii -> bool) (s : string) : bool :=
  forallb p (list_ascii_of_string s).

End Js.

(** ** The time-span strings of jsonwebtoken ([ms] and [timespan]) *)

Module Ms.

Definition second : Z := 1000.
Definition minute : Z := second * 60.
Definition hour : Z := minute * 60.
Definition day : Z := hour * 24.
Definition week : Z := day * 7.
Definition year : Z := 31557600000.   (* day * 365.25 *)

Definition oneOf (l : list string) (u : string) : bool :=
  existsb (String.eqb u) l.

(** Milliseconds in one unit, by the unit's name (already lower case);
    no unit means milliseconds. *)
Definition unit (u : string) : option Z :=
  if oneOf ["years"; "year"; "yrs"; "yr"; "y"]%string u then Some year
  else if oneOf ["weeks"; "week"; "w"]%string u then Some week
  else if oneOf ["days"; "day"; "d"]%string u then Some day
  else if oneOf ["hours"; "hour"; "hrs"; "hr"; "h"]%string u then Some hour
  else if oneOf ["minutes"; "minute"; "mins"; "min"; "m"]%string u then Some minute
  else if oneOf ["seconds"; "second"; "secs"; "sec"; "s"]%string u then Some second
  else if oneOf ["milliseconds"; "millisecond"; "msecs"; "msec"; "ms"; ""]%string u
       then Some 1
  else None.

Fixpoint dropSpaces (t : string) : string :=
  match t with
  | String " " r => dropSpaces r
  | _ => t
  end.

(** [ms(str)] for the integer literals: an optional minus sign, decimal
    digits, blanks, a unit.  The result is in milliseconds; [None] is
    [undefined].  Literals with a fractional part are not covered (they
    give [None] here), so statements about [ms] are made where it
    answers [Some]. *)
Definition ms (str : string) : option Z :=
  if (100 <? String.length str)%nat then None
  else
    let '(neg, body) :=
      match str with
      | String "-" r => (true, r)
      | _ => (false, str)
      end in
    let '(ds, rest) := Js.spanDigits body in
    match ds with
    | EmptyString => None
    | _ =>
        match unit (Js.toLowerCase (dropSpaces rest)) with
        | Some k =>
            let v := Js.digitsValue 0 ds * k in
            Some (if neg then - v else v)
        | None => None
        end
    end.

(** [timespan(time, iat)] of jsonwebtoken for a string [time]:
    [Math.floor(iat + ms(time) / 1000)]. *)
Definition timespan (time : string) (iat : Z) : option Z :=
  match ms time with
  | Some v => Some (iat + v / 1000)
  | None => None
  end.

(** The number of whole seconds a life-time string denotes. *)
Definition seconds (time : string) : option Z := timespan time 0.

End Ms.

Example ms_15m : Ms.ms "15m" = Some 900000.
Proof. reflexivity. Qed.

Example ms_7d : Ms.seconds "7d" = Some 604800.
Proof. reflexivity. Qed.

Example ms_1h : Ms.ms "1 Hour" = Some 3600000.
Proof. reflexivity. Qed.

Example trim_lower : Js.trim (Js.toLowerCase "  Bob@Example.COM ") = "bob@example.com"%string.
Proof. reflexivity. Qed.

Example trim_unicode :
  Js.trim "　 bob@example.com  " = "bob@example.com"%string.
Proof. reflexivity. Qed.

Example length_units : Js.length "éééé" = 4%nat /\ String.length "éééé" = 8%nat.
Proof. split; reflexivity. Qed.

(** ** Facts about the string primitives *)

Lemma lowerChar_idem (c : ascii) : Js.lowerChar (Js.lowerChar c) = Js.lowerChar c.
Proof. destruct c as [[] [] [] [] [] [] [] []]; reflexivity. Qed.

Lemma toLowerCase_idem (s : string) :
  Js.toLowerCase (Js.toLowerCase s) = Js.toLowerCase s.
Proof.
  induction s as [|c s IH]; [reflexivity|]. cbn. now rewrite lowerChar_idem, IH.
Qed.

Lemma trimEnd_idem (s : string) : Js.trimEnd (Js.trimEnd s) = Js.trimEnd s.
Proof.
  induction s as [|c s IH]; [reflexivity|]. cbn [Js.trimEnd]. cbv zeta.
  destruct (Js.isSpaceChar (String c (Js.trimEnd s))) eqn:E; [reflexivity|].
  cbn [Js.trimEnd]. cbv zeta. now rewrite IH, E.
Qed.

Lemma trimEnd_prefix (s : string) : exists rest, s = String.append (Js.trimEnd s) rest.
Proof.
  induction s as [|c s [rest IH]]; [now exists EmptyString|]. cbn [Js.trimEnd]. cbv zeta.
  destruct (Js.isSpaceChar (String c (Js.trimEnd s))).
  - now exists (String c s).
  - exists rest. change (String c s = String c (String.append (Js.trimEnd s) rest)).
    now rewrite <- IH.
Qed.

Lemma startsWithSpace_append (s rest : string) :
  Js.startsWithSpace s = true -> Js.startsWithSpace (String.append s rest) = true.
Proof.
  destruct s as [|a [|b [|c s]]]; [discriminate|..].
  - change (String.append (String a EmptyString) rest) with (String a rest).
    cbn. rewrite orb_false_r. now intros ->.
  - change (String.append (String a (String b EmptyString)) rest) with (String a (String b rest)).
    cbn. rewrite orb_false_r. intros H. apply orb_prop in H as [Ha|Hb]; rewrite ?Ha, ?Hb; [reflexivity|].
    cbn. apply orb_true_r.
  - change (String.append (String a (String b (String c s))) rest)
      with (String a (String b (String c (String.append s rest)))).
    cbn. now intros ->.
Qed.

Lemma trimStart_fixed (s : string) : Js.startsWithSpace s = false -> Js.trimStart s = s.
Proof.
  destruct s as [|a [|b [|c s]]]; cbn; [reflexivity|..].
  - rewrite orb_false_r. now intros ->.
  - rewrite orb_false_r. intros H. apply orb_false_elim in H as [Ha Hb].
    now rewrite Ha, Hb.
  - intros H. apply orb_false_elim in H as [Ha H].
    apply orb_false_elim in H as [Hb Hc]. now rewrite Ha, Hb, Hc.
Qed.

Lemma startsWithSpace_trimStart (s : string) :
  Js.startsWithSpace (Js.trimStart s) = false.
Proof.
  assert (Hall : forall n s, (String.length s <= n)%nat ->
                             Js.startsWithSpace (Js.trimStart s) = false).
  { clear s. induction n as [|n IH]; intros s Hn.
    - destruct s; [reflexivity | cbn in Hn; lia].
    - destruct s as [|a r]; [reflexivity|]. cbn in Hn. cbn [Js.trimStart].
      destruct (Js.isSpace a) eqn:Ea; [apply IH; lia|].
      destruct r as [|b r2]; [cbn; now rewrite Ea|].
      cbn in Hn.
      destruct (Js.isSpace2 a b) eqn:Eb; [apply IH; lia|].
      destruct r2 as [|c r3]; [cbn; now rewrite Ea, Eb|].
      cbn in Hn.
      destruct (Js.isSpace3 a b c) eqn:Ec; [apply IH; lia|].
      cbn. now rewrite Ea, Eb, Ec. }
  apply (Hall (String.length s)). lia.
Qed.

Lemma trim_idem (s : string) : Js.trim (Js.trim s) = Js.trim s.
Proof.
  unfold Js.trim.
  assert (Hstart : Js.startsWithSpace (Js.trimEnd (Js.trimStart s)) = false).
  { destruct (Js.startsWithSpace (Js.trimEnd (Js.trimStart s))) eqn:E; [|reflexivity].
    destruct (trimEnd_prefix (Js.trimStart s)) as [rest Hrest].
    apply (startsWithSpace_append _ rest) in E. rewrite <- Hrest in E.
    now rewrite startsWithSpace_trimStart in E. }
  rewrite (trimStart_fixed _ Hstart). apply trimEnd_idem.
Qed.

(** ** Thrown values and results *)

(** The classes of [utils/errors.ts] that the services use, the plain
    [Error], and the errors of the libraries that the [catch] blocks tell
    apart with [instanceof]. *)
Inductive Exn : Type :=
| ValidationError (message : string)
| AuthenticationError (message : string)
| NotFoundError (message : string)
| ConflictError (message : string)
| Error (message : string)
| TokenExpiredError                         (* jsonwebtoken; a JsonWebTokenError too *)
| JsonWebTokenError (message : string)      (* jsonwebtoken *)
| MongooseValidationError (path : string)   (* a schema validator rejected [path] *)
| MongoServerError (message : string)       (* duplicate key on a unique index *)
| MailError.                                (* the mail transport rejected *)

Inductive Result (A : Type) : Type :=
| Ok (a : A)
| Throw (e : Exn).

Arguments Ok {A} a.
Arguments Throw {A} e.

(** Sequencing: a [Throw] skips the rest of the block. *)
#[global] Instance Result_bind : MBind Result := fun A B k r =>
  match r with
  | Ok a => k a
  | Throw e => Throw e
  end.

#[global] Instance Result_ret : MRet Result := fun A a => Ok a.

(** [try { r } catch (error) { throw handler(error) }] *)
Definition tryCatch {A : Type} (r : Result A) (handler : Exn -> Exn) : Result A :=
  match r with
  | Ok a => Ok a
  | Throw e => Throw (handler e)
  end.

Definition InvalidRefreshToken : Exn := AuthenticationError "Invalid refresh token".
Definition TokenKindMismatch : Exn := AuthenticationError "Invalid token type".
Definition RefreshTokenExpired : Exn := AuthenticationError "Refresh token expired".
Definition AccessTokenExpired : Exn := AuthenticationError "Access token expired".
Definition RefreshTokenMalformed : Exn := AuthenticationError "Invalid refresh token".

(** ** The jsonwebtoken library *)

(** The claims of a token: the payload of [IJWTPayload] and the registered
    claims that [jwt.sign] adds. *)
Module IJWTPayload.
Record t : Type := mk {
  userId : string;
  email : string;
  type : string;
  iat : option Z;
  exp : option Z
}.
End IJWTPayload.

(** The compact serialisation and its HMAC are the library's; the code only
    sees them through these three operations. *)
Class JsonWebToken : Type := {
  (** the compact token for these claims, signed with a secret *)
  jws_encode : IJWTPayload.t -> string -> string;
  (** the claims a well-formed token carries, its signature not examined *)
  jws_decode : string -> option IJWTPayload.t;
  (** whether the token's signature is the one its content has under a secret *)
  jws_check : string -> string -> bool
}.

(** What the library guarantees: a token decodes to the claims it was made
    from, and its signature checks under the secret it was signed with and
    (HMAC taken as collision free) under no other. *)
Class JsonWebTokenSpec (J : JsonWebToken) : Prop := {
  jws_decode_encode : forall c k, jws_decode (jws_encode c k) = Some c;
  jws_check_encode : forall c k k', jws_check (jws_encode c k) k' = String.eqb k k'
}.

Section Jwt.

Context {J : JsonWebToken}.

(** [Math.floor(Date.now() / 1000)] *)
Definition clockTimestamp (now : Z) : Z := now / 1000.

(** [jwt.sign(payload, secret, { expiresIn })] at the instant [now]:
    [iat] is the clock's second, [exp] is [timespan(expiresIn, iat)], and a
    string that is no time span is an error. *)
Definition jwt_sign (userId email type secret expiresIn : string) (now : Z)
  : Result string :=
  let timestamp := clockTimestamp now in
  match Ms.timespan expiresIn timestamp with
  | None => Throw (Error "expiresIn should be a number of seconds or string representing a timespan")
  | Some e => Ok (jws_encode (IJWTPayload.mk userId email type (Some timestamp) (Some e)) secret)
  end.

(** [jwt.verify(token, secret)] at the instant [now]: structure, then
    signature, then expiry ([clockTimestamp >= exp] is expired). *)
Definition jwt_verify (token secret : string) (now : Z) : Result IJWTPayload.t :=
  match jws_decode token with
  | None => Throw (JsonWebTokenError "jwt malformed")
  | Some c =>
      if negb (jws_check token secret) then Throw (JsonWebTokenError "invalid signature")
      else
        match IJWTPayload.exp c with
        | Some e => if e <=? clockTimestamp now then Throw TokenExpiredError else Ok c
        | None => Ok c
        end
  end.

(** [jwt.decode(token)]: [null] is [None]. *)
Definition jwt_decode (token : string) : option IJWTPayload.t := jws_decode token.

End Jwt.

(** ** Configuration ([config/index.ts]) *)

Record IConfig : Type := mkConfig {
  jwtAccessSecret : string;
  jwtRefreshSecret : string;
  jwtAccessExpiresIn : string;
  jwtRefreshExpiresIn : string
}.

(** The configuration when the environment sets none of the variables. *)
Definition defaultConfig : IConfig := {|
  jwtAccessSecret := "default-access-secret-change-in-production";
  jwtRefreshSecret := "default-refresh-secret-change-in-production";
  jwtAccessExpiresIn := "15m";
  jwtRefreshExpiresIn := "7d"
|}.

(** ** The token codec ([utils/jwt.ts]) *)

Module ITokenResponse.
Record t : Type := mk {
  accessToken : string;
  refreshToken : string;
  expiresIn : option Z
}.
End ITokenResponse.

Section TokenCodec.

Context {J : JsonWebToken}.
Variable config : IConfig.

Definition generateAccessToken (userId email : string) (now : Z) : Result string :=
  jwt_sign userId email "access" (jwtAccessSecret config) (jwtAccessExpiresIn config) now.

Definition generateRefreshToken (userId email : string) (now : Z) : Result string :=
  jwt_sign userId email "refresh" (jwtRefreshSecret config) (jwtRefreshExpiresIn config) now.

(** The two calls of [jwt.sign] each read the clock; here they read it in
    the same second, [now]. *)
Definition generateTokens (userId email : string) (now : Z) : Result ITokenResponse.t :=
  accessToken ← generateAccessToken userId email now;
  refreshToken ← generateRefreshToken userId email now;
  (* Calculate expiration time in seconds *)
  let expiresIn := Js.times (Js.parseInt (Js.keepDigits (jwtAccessExpiresIn config))) 60 in
  Ok (ITokenResponse.mk accessToken refreshToken expiresIn).

Definition verifyAccessToken (token : string) (now : Z) : Result IJWTPayload.t :=
  tryCatch
    (decoded ← jwt_verify token (jwtAccessSecret config) now;
     if negb (String.eqb (IJWTPayload.type decoded) "access")
     then Throw (AuthenticationError "Invalid token type")
     else Ok decoded)
    (fun error =>
       match error with
       | TokenExpiredError => AuthenticationError "Access token expired"
       | JsonWebTokenError _ => AuthenticationError "Invalid access token"
       | _ => error
       end).

Definition verifyRefreshToken (token : string) (now : Z) : Result IJWTPayload.t :=
  tryCatch
    (decoded ← jwt_verify token (jwtRefreshSecret config) now;
     if negb (String.eqb (IJWTPayload.type decoded) "refresh")
     then Throw (AuthenticationError "Invalid token type")
     else Ok decoded)
    (fun error =>
       match error with
       | TokenExpiredError => AuthenticationError "Refresh token expired"
       | JsonWebTokenError _ => AuthenticationError "Invalid refresh token"
       | _ => error
       end).

Definition decodeToken (token : string) : option IJWTPayload.t := jwt_decode token.

(** [!decoded || !decoded.exp] is true for [null], for a token without
    [exp] and for [exp = 0]; otherwise the answer is [decoded.exp < currentTime]. *)
Definition isTokenExpired (token : string) (now : Z) : bool :=
  match jwt_decode token with
  | None => true
  | Some decoded =>
      match IJWTPayload.exp decoded with
      | None => true
      | Some e =>
          if e =? 0 then true
          else
            let currentTime := now / 1000 in
            e <? currentTime
      end
  end.

End TokenCodec.

(** ** bcryptjs *)

Class Bcrypt : Type := {
  (** [bcrypt.hash(password, salt)] *)
  bcrypt_hash : string -> string -> string;
  (** [bcrypt.compare(candidate, hash)] *)
  bcrypt_compare : string -> string -> bool
}.

(** ** The user documents ([models/User.ts]) *)

Module IUser.
Record t : Type := mk {
  _id : string;
  email : string;
  password : string;
  firstName : string;
  lastName : string;
  isEmailVerified : bool;
  emailVerificationToken : option string;
  emailVerificationExpires : option Z;
  passwordResetToken : option string;
  passwordResetExpires : option Z;
  refreshTokens : list string;
  createdAt : Z;
  updatedAt : Z
}.

(** Assignments to the fields of a document. *)
Definition set_password (v : string) (u : t) : t :=
  mk (_id u) (email u) v (firstName u) (lastName u) (isEmailVerified u)
     (emailVerificationToken u) (emailVerificationExpires u)
     (passwordResetToken u) (passwordResetExpires u) (refreshTokens u)
     (createdAt u) (updatedAt u).

Definition set_isEmailVerified (v : bool) (u : t) : t :=
  mk (_id u) (email u) (password u) (firstName u) (lastName u) v
     (emailVerificationToken u) (emailVerificationExpires u)
     (passwordResetToken u) (passwordResetExpires u) (refreshTokens u)
     (createdAt u) (updatedAt u).

Definition set_emailVerification (token : option string) (expires : option Z) (u : t) : t :=
  mk (_id u) (email u) (password u) (firstName u) (lastName u) (isEmailVerified u)
     token expires
     (passwordResetToken u) (passwordResetExpires u) (refreshTokens u)
     (createdAt u) (updatedAt u).

Definition set_passwordReset (token : option string) (expires : option Z) (u : t) : t :=
  mk (_id u) (email u) (password u) (firstName u) (lastName u) (isEmailVerified u)
     (emailVerificationToken u) (emailVerificationExpires u)
     token expires (refreshTokens u)
     (createdAt u) (updatedAt u).

Definition set_refreshTokens (v : list string) (u : t) : t :=
  mk (_id u) (email u) (password u) (firstName u) (lastName u) (isEmailVerified u)
     (emailVerificationToken u) (emailVerificationExpires u)
     (passwordResetToken u) (passwordResetExpires u) v
     (createdAt u) (updatedAt u).

Definition set_timestamps (created updated : Z) (u : t) : t :=
  mk (_id u) (email u) (password u) (firstName u) (lastName u) (isEmailVerified u)
     (emailVerificationToken u) (emailVerificationExpires u)
     (passwordResetToken u) (passwordResetExpires u) (refreshTokens u)
     created updated.
End IUser.

Module IUserRegistration.
Record t : Type := mk {
  email : string;
  password : string;
  firstName : string;
  lastName : string
}.
End IUserRegistration.

Module IUserLogin.
Record t : Type := mk {
  email : string;
  password : string
}.
End IUserLogin.

Module IUserResponse.
Record t : Type := mk {
  id : string;
  email : string;
  firstName : string;
  lastName : string;
  isEmailVerified : bool;
  createdAt : Z
}.
End IUserResponse.

(** *** Instance methods *)

Section UserMethods.

Context {B : Bcrypt}.

(** [bcrypt.compare] on two strings answers; it does not throw. *)
Definition comparePassword (this : IUser.t) (candidatePassword : string) : bool :=
  bcrypt_compare candidatePassword (IUser.password this).

Definition addRefreshToken (refreshToken : string) (this : IUser.t) : IUser.t :=
  IUser.set_refreshTokens (IUser.refreshTokens this ++ [refreshToken]) this.

Definition removeRefreshToken (refreshToken : string) (this : IUser.t) : IUser.t :=
  IUser.set_refreshTokens
    (List.filter (fun token => negb (String.eqb token refreshToken)) (IUser.refreshTokens this))
    this.

Definition hasRefreshToken (refreshToken : string) (this : IUser.t) : bool :=
  existsb (String.eqb refreshToken) (IUser.refreshTokens this).

Definition clearRefreshTokens (this : IUser.t) : IUser.t :=
  IUser.set_refreshTokens [] this.

End UserMethods.

(** *** Schema: setters and validators *)

(** The characters of the two classes of the e-mail pattern. *)
Definition localChar (c : ascii) : bool :=
  Js.isLetter c || Js.isDigit c
  || existsb (Ascii.eqb c) ["."; "_"; "%"; "+"; "-"]%char.

Definition domainChar (c : ascii) : bool :=
  Js.isLetter c || Js.isDigit c || existsb (Ascii.eqb c) ["."; "-"]%char.

(** What stands before the first ["@"], and what follows it. *)
Fixpoint splitAt (s : string) : option (string * string) :=
  match s with
  | EmptyString => None
  | String c r =>
      if Ascii.eqb c "@" then Some (EmptyString, r)
      else match splitAt r with
           | Some (a, b) => Some (String c a, b)
           | None => None
           end
  end.

(** What stands before the last ["."], and what follows it. *)
Fixpoint splitLastDot (s : string) : option (string * string) :=
  match s with
  | EmptyString => None
  | String c r =>
      match splitLastDot r with
      | Some (a, b) => Some (String c a, b)
      | None => if Ascii.eqb c "." then Some (EmptyString, r) else None
      end
  end.

Definition nonEmpty (s : string) : bool :=
  match s with EmptyString => false | _ => true end.

(** [/^[a-zA-Z0-9._%+-]+@[a-zA-Z0-9.-]+\.[a-zA-Z]{2,}$/] *)
Definition emailPattern (s : string) : bool :=
  match splitAt s with
  | None => false
  | Some (loc, rest) =>
      nonEmpty loc && Js.all localChar loc &&
      match splitLastDot rest with
      | None => false
      | Some (dom, tld) =>
          nonEmpty dom && Js.all domainChar dom &&
          (2 <=? String.length tld)%nat && Js.all Js.isLetter tld
      end
  end.

(** The setters of the [email] path, [lowercase] and [trim].  Mongoose
    runs them on a value assigned to the path, and on the value that the
    filter of a query gives for the path. *)
Definition castEmail (v : string) : string := Js.trim (Js.toLowerCase v).

(** The validators of the schema on the paths of a new document;
    [minlength] and [maxlength] compare [value.length]. *)
Definition validateNew (u : IUser.t) : Result unit :=
  if negb (nonEmpty (IUser.email u) && emailPattern (IUser.email u))
  then Throw (MongooseValidationError "email")
  else if negb (nonEmpty (IUser.password u) && (8 <=? Js.length (IUser.password u))%nat)
  then Throw (MongooseValidationError "password")
  else if negb (nonEmpty (IUser.firstName u) && (Js.length (IUser.firstName u) <=? 50)%nat)
  then Throw (MongooseValidationError "firstName")
  else if negb (nonEmpty (IUser.lastName u) && (Js.length (IUser.lastName u) <=? 50)%nat)
  then Throw (MongooseValidationError "lastName")
  else Ok tt.

(** The validators of the password path, run when that path was assigned
    on a loaded document. *)
Definition validatePassword (u : IUser.t) : Result unit :=
  if negb (nonEmpty (IUser.password u) && (8 <=? Js.length (IUser.password u))%nat)
  then Throw (MongooseValidationError "password")
  else Ok tt.

Example emailPattern_ok : emailPattern "bob.smith+x@mail.example.com" = true.
Proof. reflexivity. Qed.

Example emailPattern_no_tld : emailPattern "bob@example.c" = false.
Proof. reflexivity. Qed.

Example emailPattern_two_at : emailPattern "bob@x@example.com" = false.
Proof. reflexivity. Qed.

(** ** The world of a service call *)

Inductive MailKind : Type := VerificationMail | PasswordResetMail.

Record Mail : Type := mkMail {
  mailKind : MailKind;
  mailTo : string;
  mailFirstName : string;
  mailToken : string
}.

(** The collection of user documents and the calls made to the mailer. *)
Record World : Type := mkWorld {
  users : list IUser.t;
  mails : list Mail
}.

(** What a call draws from its surroundings. *)
Record Env : Type := mkEnv {
  now : Z;               (* Date.now(), milliseconds *)
  randomHex : string;    (* crypto.randomBytes(32).toString('hex') *)
  salt : string;         (* bcrypt.genSalt(12) *)
  objectId : string;     (* the _id of a document made with new User(..) *)
  mailUp : bool          (* whether the mail transport accepts a message *)
}.

(** A piece of a service: it reads and writes the world, and returns or
    throws.  What was written before a throw stays written. *)
Definition Action (A : Type) : Type := World -> Result A * World.

#[global] Instance Action_ret : MRet Action := fun A a w => (Ok a, w).

#[global] Instance Action_bind : MBind Action := fun A B k m w =>
  match m w with
  | (Ok a, w') => k a w'
  | (Throw e, w') => (Throw e, w')
  end.

Definition throw {A : Type} (e : Exn) : Action A := fun w => (Throw e, w).

Definition lift {A : Type} (r : Result A) : Action A := fun w => (r, w).

(** [try { m } catch (error) { throw handler(error) }] *)
Definition try_catch {A : Type} (m : Action A) (handler : Exn -> Exn) : Action A :=
  fun w =>
    match m w with
    | (Ok a, w') => (Ok a, w')
    | (Throw e, w') => (Throw (handler e), w')
    end.

(** [try { m } catch (error) { console.error(..) }] *)
Definition try_log (m : Action unit) : Action unit :=
  fun w => (Ok tt, snd (m w)).

(** *** The mailer *)

(** Modelled from the spec: [utils/email.ts] is not among the sources.  The
    notification sender of the specification is [Promise<void>]-shaped and
    may fail; here a call is recorded, and it resolves when the transport
    is up and rejects when it is down. *)
Definition sendMail (up : bool) (kind : MailKind) (to firstName token : string)
  : Action unit :=
  fun w =>
    (if up then Ok tt else Throw MailError,
     mkWorld (users w) (mails w ++ [mkMail kind to firstName token])).

Definition sendVerificationEmail (up : bool) := sendMail up VerificationMail.
Definition sendPasswordResetEmail (up : bool) := sendMail up PasswordResetMail.

(** *** Queries and [save] *)

(** [field: { $gt: new Date() }]: the stored date is later than [now]; a
    [null] date matches nothing. *)
Definition laterThan (now : Z) (date : option Z) : Prop :=
  match date with
  | Some d => now < d
  | None => False
  end.

#[global] Instance laterThan_dec now date : Decision (laterThan now date).
Proof. destruct date; simpl; apply _. Defined.

(** [User.findOne(filter)]: the first document that matches, with its
    position in the collection. *)
Definition findOne (filter : IUser.t -> Prop) `{!forall u, Decision (filter u)}
  : Action (option (nat * IUser.t)) :=
  fun w => (Ok (list_find filter (users w)), w).

(** The strings that are an ObjectId in the form that [_id.toString()]
    writes: 24 digits of [0-9a-f]. *)
Definition isHexDigit (c : ascii) : bool :=
  let n := nat_of_ascii c in Js.isDigit c || ((97 <=? n) && (n <=? 102))%nat.

Definition isObjectId (id : string) : bool :=
  (String.length id =? 24)%nat && Js.all isHexDigit id.

(** [User.findById(id)]: the ids of the documents are held as the strings
    that [_id.toString()] writes, and the look-up compares them with [id].
    Mongoose rejects a string that is no ObjectId with a CastError before
    it looks; that rejection is not modelled, and what is said below of an
    id of no document is said of an ObjectId. *)
Definition findById (id : string) : Action (option (nat * IUser.t)) :=
  findOne (fun u => IUser._id u = id).

(** [User.findOne({ email: email.toLowerCase() })]: the value of the filter
    goes through the setters of the path. *)
Definition findByEmail (email : string) : Action (option (nat * IUser.t)) :=
  findOne (fun u => IUser.email u = castEmail (Js.toLowerCase email)).

Definition findByVerificationToken (now : Z) (token : string)
  : Action (option (nat * IUser.t)) :=
  findOne (fun u => IUser.emailVerificationToken u = Some token
                    /\ laterThan now (IUser.emailVerificationExpires u)).

Definition findByPasswordResetToken (now : Z) (token : string)
  : Action (option (nat * IUser.t)) :=
  findOne (fun u => IUser.passwordResetToken u = Some token
                    /\ laterThan now (IUser.passwordResetExpires u)).

Section Store.

Context {B : Bcrypt}.
Variable env : Env.

(** [new User({ ...userData, emailVerificationToken, emailVerificationExpires })]:
    the setters of the schema ([lowercase], [trim]) and its defaults.  The
    time stamps are written by [save]. *)
Definition newUser (userData : IUserRegistration.t)
    (verificationToken : string) (verificationExpires : Z) : IUser.t :=
  {| IUser._id := objectId env;
     IUser.email := castEmail (IUserRegistration.email userData);
     IUser.password := IUserRegistration.password userData;
     IUser.firstName := Js.trim (IUserRegistration.firstName userData);
     IUser.lastName := Js.trim (IUserRegistration.lastName userData);
     IUser.isEmailVerified := false;
     IUser.emailVerificationToken := Some verificationToken;
     IUser.emailVerificationExpires := Some verificationExpires;
     IUser.passwordResetToken := None;
     IUser.passwordResetExpires := None;
     IUser.refreshTokens := [];
     IUser.createdAt := 0;
     IUser.updatedAt := 0 |}.

(** The pre-save hook: the password is hashed when it was modified. *)
Definition preSave (passwordModified : bool) (u : IUser.t) : IUser.t :=
  if negb passwordModified then u
  else IUser.set_password (bcrypt_hash (IUser.password u) (salt env)) u.

(** The unique indexes: [_id], and [email]. *)
Definition duplicateKey (u : IUser.t) (docs : list IUser.t) : bool :=
  existsb (fun v => String.eqb (IUser._id v) (IUser._id u)
                    || String.eqb (IUser.email v) (IUser.email u)) docs.

(** [user.save()] on a document made with [new User(..)]: validation, the
    pre-save hook, the time stamps, the insertion.  The document comes back
    as the call leaves it. *)
Definition saveNew (u : IUser.t) : Action IUser.t :=
  fun w =>
    match validateNew u with
    | Throw e => (Throw e, w)
    | Ok _ =>
        let u1 := IUser.set_timestamps (now env) (now env) (preSave true u) in
        if duplicateKey u1 (users w)
        then (Throw (MongoServerError "E11000 duplicate key error"), w)
        else (Ok u1, mkWorld (users w ++ [u1]) (mails w))
    end.

(** [user.save()] on a document loaded from position [i].  The time stamp
    [updatedAt] is written with every save; Mongoose leaves it alone when
    no path was modified, a difference that no statement below looks at. *)
Definition save (i : nat) (passwordModified : bool) (u : IUser.t) : Action IUser.t :=
  fun w =>
    match (if passwordModified then validatePassword u else Ok tt) with
    | Throw e => (Throw e, w)
    | Ok _ =>
        let u1 := IUser.set_timestamps (IUser.createdAt u) (now env)
                    (preSave passwordModified u) in
        (Ok u1, mkWorld (<[i := u1]> (users w)) (mails w))
    end.

Definition toResponse (user : IUser.t) : IUserResponse.t :=
  {| IUserResponse.id := IUser._id user;
     IUserResponse.email := IUser.email user;
     IUserResponse.firstName := IUser.firstName user;
     IUserResponse.lastName := IUser.lastName user;
     IUserResponse.isEmailVerified := IUser.isEmailVerified user;
     IUserResponse.createdAt := IUser.createdAt user |}.

End Store.

(** ** The authentication service ([services/authService.ts]) *)

Module AuthService.

Section AuthService.

Context {J : JsonWebToken} {B : Bcrypt}.
Variable config : IConfig.
Variable env : Env.

Definition registerUser (userData : IUserRegistration.t) : Action IUserResponse.t :=
  try_catch
    ((* Check if user already exists *)
     existingUser ← findOne (fun u => IUser.email u
                                      = castEmail (Js.toLowerCase
                                                     (IUserRegistration.email userData)));
     match existingUser with
     | Some _ => throw (ConflictError "User with this email already exists")
     | None =>
         (* Generate email verification token *)
         let verificationToken := randomHex env in
         let verificationExpires := now env + 24 * 60 * 60 * 1000 in
         (* Create new user *)
         user ← saveNew env (newUser env userData verificationToken verificationExpires);
         (* Send verification email *)
         _ ← try_log (sendVerificationEmail (mailUp env)
                        (IUser.email user) (IUser.firstName user) verificationToken);
         mret (toResponse user)
     end)
    (fun error =>
       match error with
       | ConflictError _ => error
       | _ => Error "Failed to register user"
       end).

Definition loginUser (loginData : IUserLogin.t)
  : Action (IUserResponse.t * ITokenResponse.t) :=
  try_catch
    ((* Find user by email *)
     found ← findOne (fun u => IUser.email u
                               = castEmail (Js.toLowerCase (IUserLogin.email loginData)));
     match found with
     | None => throw (AuthenticationError "Invalid email or password")
     | Some (i, user) =>
         (* Verify password *)
         if negb (comparePassword user (IUserLogin.password loginData))
         then throw (AuthenticationError "Invalid email or password")
         else
           (* Generate tokens *)
           tokens ← lift (generateTokens config (IUser._id user) (IUser.email user) (now env));
           (* Add refresh token to user's refresh tokens array *)
           user ← save env i false (addRefreshToken (ITokenResponse.refreshToken tokens) user);
           mret (toResponse user, tokens)
     end)
    (fun error =>
       match error with
       | AuthenticationError _ => error
       | _ => Error "Failed to login user"
       end).

Definition verifyEmail (token : string) : Action IUserResponse.t :=
  try_catch
    ((* Find user by verification token *)
     found ← findOne (fun u => IUser.emailVerificationToken u = Some token
                               /\ laterThan (now env) (IUser.emailVerificationExpires u));
     match found with
     | None => throw (ValidationError "Invalid or expired verification token")
     | Some (i, user) =>
         (* Mark email as verified and clear verification token *)
         let user := IUser.set_isEmailVerified true user in
         let user := IUser.set_emailVerification None None user in
         user ← save env i false user;
         mret (toResponse user)
     end)
    (fun error =>
       match error with
       | ValidationError _ => error
       | _ => Error "Failed to verify email"
       end).

Definition resendVerificationEmail (email : string) : Action unit :=
  try_catch
    (found ← findOne (fun u => IUser.email u = castEmail (Js.toLowerCase email));
     match found with
     | None => throw (NotFoundError "User not found")
     | Some (i, user) =>
         if IUser.isEmailVerified user
         then throw (ValidationError "Email is already verified")
         else
           (* Generate new verification token *)
           let verificationToken := randomHex env in
           let verificationExpires := now env + 24 * 60 * 60 * 1000 in
           (* Update user with new verification token *)
           user ← save env i false
                    (IUser.set_emailVerification (Some verificationToken)
                       (Some verificationExpires) user);
           (* Send verification email *)
           sendVerificationEmail (mailUp env)
             (IUser.email user) (IUser.firstName user) verificationToken
     end)
    (fun error =>
       match error with
       | NotFoundError _ | ValidationError _ => error
       | _ => Error "Failed to resend verification email"
       end).

Definition refreshToken (refreshToken : string) : Action ITokenResponse.t :=
  try_catch
    ((* Verify refresh token *)
     decoded ← lift (verifyRefreshToken config refreshToken (now env));
     (* Find user *)
     found ← findById (IJWTPayload.userId decoded);
     match found with
     | None => throw (AuthenticationError "User not found")
     | Some (i, user) =>
         (* Check if refresh token exists in user's refresh tokens array *)
         if negb (hasRefreshToken refreshToken user)
         then throw (AuthenticationError "Invalid refresh token")
         else
           (* Generate new tokens *)
           newTokens ← lift (generateTokens config (IUser._id user) (IUser.email user) (now env));
           (* Remove old refresh token and add new one *)
           let user := removeRefreshToken refreshToken user in
           let user := addRefreshToken (ITokenResponse.refreshToken newTokens) user in
           _ ← save env i false user;
           mret newTokens
     end)
    (fun error =>
       match error with
       | AuthenticationError _ => error
       | _ => Error "Failed to refresh token"
       end).

Definition logout (userId refreshToken : string) : Action unit :=
  try_catch
    (found ← findById userId;
     match found with
     | None => throw (NotFoundError "User not found")
     | Some (i, user) =>
         (* Remove the specific refresh token *)
         _ ← save env i false (removeRefreshToken refreshToken user);
         mret tt
     end)
    (fun error =>
       match error with
       | NotFoundError _ => error
       | _ => Error "Failed to logout"
       end).

Definition logoutAllDevices (userId : string) : Action unit :=
  try_catch
    (found ← findById userId;
     match found with
     | None => throw (NotFoundError "User not found")
     | Some (i, user) =>
         (* Clear all refresh tokens *)
         _ ← save env i false (clearRefreshTokens user);
         mret tt
     end)
    (fun error =>
       match error with
       | NotFoundError _ => error
       | _ => Error "Failed to logout from all devices"
       end).

Definition getUserProfile (userId : string) : Action IUserResponse.t :=
  try_catch
    (found ← findById userId;
     match found with
     | None => throw (NotFoundError "User not found")
     | Some (_, user) => mret (toResponse user)
     end)
    (fun error =>
       match error with
       | NotFoundError _ => error
       | _ => Error "Failed to get user profile"
       end).

Definition requestPasswordReset (email : string) : Action unit :=
  try_catch
    (found ← findOne (fun u => IUser.email u = castEmail (Js.toLowerCase email));
     match found with
     | None =>
         (* Don't reveal if user exists or not for security *)
         mret tt
     | Some (i, user) =>
         let resetToken := randomHex env in
         let resetExpires := now env + 60 * 60 * 1000 in
         user ← save env i false
                  (IUser.set_passwordReset (Some resetToken) (Some resetExpires) user);
         (* Send password reset email *)
         sendPasswordResetEmail (mailUp env)
           (IUser.email user) (IUser.firstName user) resetToken
     end)
    (fun _ => Error "Failed to request password reset").

(** [user.password = newPassword] marks the path as modified when the value
    assigned is not the one the document holds; the pre-save hook and the
    validators of the path look at that mark. *)
Definition resetPassword (token newPassword : string) : Action IUserResponse.t :=
  try_catch
    (found ← findOne (fun u => IUser.passwordResetToken u = Some token
                               /\ laterThan (now env) (IUser.passwordResetExpires u));
     match found with
     | None => throw (ValidationError "Invalid or expired reset token")
     | Some (i, user) =>
         (* Update password *)
         let passwordModified := negb (String.eqb newPassword (IUser.password user)) in
         let user := IUser.set_password newPassword user in
         let user := IUser.set_passwordReset None None user in
         (* Clear all refresh tokens for security *)
         let user := clearRefreshTokens user in
         user ← save env i passwordModified user;
         mret (toResponse user)
     end)
    (fun error =>
       match error with
       | ValidationError _ => error
       | _ => Error "Failed to reset password"
       end).

End AuthService.

End AuthService.

(** ** Reference libraries

    An executable jsonwebtoken and bcrypt to run the services on concrete
    inputs.  The reference token writes its fields one after the other,
    each with its length in front; its signature part is the secret
    itself, which makes the signature check exact. *)

Module Reference.

(** A length in unary, closed by a colon. *)
Fixpoint tally (n : nat) : string :=
  match n with
  | O => String ":" EmptyString
  | S n => String "1" (tally n)
  end.

Fixpoint readTally (s : string) : option (nat * string) :=
  match s with
  | String c r =>
      if Ascii.eqb c ":" then Some (O, r)
      else if Ascii.eqb c "1" then
        match readTally r with
        | Some (n, t) => Some (S n, t)
        | None => None
        end
      else None
  | EmptyString => None
  end.

(** The first [n] characters, and the rest. *)
Fixpoint splitN (n : nat) (s : string) : option (string * string) :=
  match n, s with
  | O, _ => Some (EmptyString, s)
  | S n, String c r =>
      match splitN n r with
      | Some (a, b) => Some (String c a, b)
      | None => None
      end
  | S _, EmptyString => None
  end.

Definition putField (s : string) (rest : string) : string :=
  tally (String.length s) +:+ s +:+ rest.

Definition getField (s : string) : option (string * string) :=
  match readTally s with
  | Some (n, r) => splitN n r
  | None => None
  end.

Definition putNumber (z : option Z) (rest : string) : string :=
  match z with
  | Some v => putField (NilZero.string_of_int (Z.to_int v)) rest
  | None => putField EmptyString rest
  end.

Definition getNumber (s : string) : option (option Z * string) :=
  match getField s with
  | Some (EmptyString, r) => Some (None, r)
  | Some (d, r) =>
      match NilZero.int_of_string d with
      | Some i => Some (Some (Z.of_int i), r)
      | None => None
      end
  | None => None
  end.

Definition encode (c : IJWTPayload.t) (secret : string) : string :=
  putField secret
    (putField (IJWTPayload.userId c)
       (putField (IJWTPayload.email c)
          (putField (IJWTPayload.type c)
             (putNumber (IJWTPayload.iat c)
                (putNumber (IJWTPayload.exp c) EmptyString))))).

Definition parse (token : string) : option (string * IJWTPayload.t) :=
  match getField token with
  | Some (secret, r1) =>
  match getField r1 with
  | Some (userId, r2) =>
  match getField r2 with
  | Some (email, r3) =>
  match getField r3 with
  | Some (type, r4) =>
  match getNumber r4 with
  | Some (iat, r5) =>
  match getNumber r5 with
  | Some (exp, EmptyString) => Some (secret, IJWTPayload.mk userId email type iat exp)
  | _ => None
  end | None => None end | None => None end | None => None end | None => None end
  | None => None
  end.

Definition decode (token : string) : option IJWTPayload.t :=
  match parse token with
  | Some (_, c) => Some c
  | None => None
  end.

Definition check (token secret : string) : bool :=
  match parse token with
  | Some (k, _) => String.eqb k secret
  | None => false
  end.

#[export] Instance jwt : JsonWebToken := {|
  jws_encode := encode;
  jws_decode := decode;
  jws_check := check
|}.

(** The reference bcrypt keeps the salt and the password side by side. *)
Definition hash (password salt : string) : string :=
  putField salt password.

Definition compare (candidate hashed : string) : bool :=
  match getField hashed with
  | Some (_, p) => String.eqb p candidate
  | None => false
  end.

#[export] Instance bcrypt : Bcrypt := {|
  bcrypt_hash := hash;
  bcrypt_compare := compare
|}.

Lemma readTally_tally n r : readTally (tally n +:+ r) = Some (n, r).
Proof. induction n as [|n IH]; simpl; [reflexivity | now rewrite IH]. Qed.

Lemma splitN_append s r : splitN (String.length s) (s +:+ r) = Some (s, r).
Proof. induction s as [|c s IH]; simpl; [now destruct r | now rewrite IH]. Qed.

Lemma getField_putField s r : getField (putField s r) = Some (s, r).
Proof.
  unfold getField, putField. rewrite readTally_tally. apply splitN_append.
Qed.

Lemma string_of_int_nonempty z : NilZero.string_of_int (Z.to_int z) <> EmptyString.
Proof.
  destruct z as [|p|p]; simpl; try discriminate.
  pose proof (DecimalPos.Unsigned.to_uint_nonnil p) as Hp.
  destruct (Pos.to_uint p); [congruence | discriminate ..].
Qed.

Lemma int_of_string_of_int z :
  NilZero.int_of_string (NilZero.string_of_int (Z.to_int z)) = Some (Z.to_int z).
Proof.
  apply NilZero.isi; destruct z as [|p|p]; simpl; try discriminate;
    intros [= H]; exact (DecimalPos.Unsigned.to_uint_nonnil p H).
Qed.

Lemma getNumber_putNumber z r : getNumber (putNumber z r) = Some (z, r).
Proof.
  unfold getNumber, putNumber. destruct z as [v|]; rewrite getField_putField.
  - pose proof (string_of_int_nonempty v) as Hne.
    destruct (NilZero.string_of_int (Z.to_int v)) eqn:E; [congruence|].
    rewrite <- E, int_of_string_of_int, DecimalZ.of_to. reflexivity.
  - reflexivity.
Qed.

Lemma parse_encode c k : parse (encode c k) = Some (k, c).
Proof.
  unfold parse, encode.
  rewrite !getField_putField, !getNumber_putNumber. now destruct c.
Qed.

#[export] Instance jwt_spec : JsonWebTokenSpec jwt.
Proof.
  split; intros; simpl.
  - unfold decode. now rewrite parse_encode.
  - unfold check. now rewrite parse_encode.
Qed.

End Reference.

(** ** Sample data *)

Module Sample.

Import Reference.

Definition bobRegistration : IUserRegistration.t :=
  IUserRegistration.mk "Bob@Example.com" "Secret123!" "Bob" "Builder".

(** Bob as stored, with one session and a pending password reset. *)
Definition bob : IUser.t := {|
  IUser._id := "u1";
  IUser.email := "bob@example.com";
  IUser.password := hash "Secret123!" "salt0";
  IUser.firstName := "Bob";
  IUser.lastName := "Builder";
  IUser.isEmailVerified := true;
  IUser.emailVerificationToken := None;
  IUser.emailVerificationExpires := None;
  IUser.passwordResetToken := Some "feed";
  IUser.passwordResetExpires := Some 9000000;
  IUser.refreshTokens := ["session-1"; "session-2"]%string;
  IUser.createdAt := 1000;
  IUser.updatedAt := 1000
|}.

Definition world : World := mkWorld [bob] [].

Definition emptyWorld : World := mkWorld [] [].

(** A call at second 5000 with the mail transport up, and one with it down. *)
Definition env : Env := mkEnv 5000000 "c0ffee" "salt1" "u2" true.
Definition envMailDown : Env := mkEnv 5000000 "c0ffee" "salt1" "u2" false.

(** A call one second later, and one after every token has expired. *)
Definition envNextSecond : Env := mkEnv 5001000 "c0ffee" "salt1" "u3" true.
Definition envMuchLater : Env := mkEnv 900000000 "c0ffee" "salt1" "u4" true.

End Sample.

(** ** Unfolding the services *)

Ltac run_action :=
  unfold AuthService.registerUser, AuthService.loginUser, AuthService.verifyEmail,
    AuthService.resendVerificationEmail, AuthService.refreshToken,
    AuthService.logout, AuthService.logoutAllDevices, AuthService.getUserProfile,
    AuthService.requestPasswordReset, AuthService.resetPassword in *;
  unfold try_catch, try_log, throw, lift, findByEmail, findById,
    findByVerificationToken, findByPasswordResetToken, findOne,
    sendVerificationEmail, sendPasswordResetEmail, sendMail in *;
  unfold mbind, mret in *; unfold Action_bind, Action_ret in *;
  cbv beta in *.

Lemma found_lookup (P : IUser.t -> Prop) `{!forall u, Decision (P u)}
    (docs : list IUser.t) i user :
  list_find P docs = Some (i, user) -> docs !! i = Some user /\ P user.
Proof. intros Hfound. apply list_find_Some in Hfound. tauto. Qed.

Lemma findByEmail_inv email w r :
  findByEmail email w = (Ok r, w) ->
  list_find (fun u => IUser.email u = castEmail (Js.toLowerCase email)) (users w) = r.
Proof. unfold findByEmail, findOne. congruence. Qed.

(** ** Login: the two failures look alike *)



(** The address of the filter goes through the setters of the schema: Bob
    logs in with his address in capitals and between spaces. *)
Example loginUser_padded_address :
  exists response tokens w',
    AuthService.loginUser (J := Reference.jwt) (B := Reference.bcrypt) defaultConfig
      Sample.env (IUserLogin.mk "  BOB@example.com " "Secret123!") Sample.world
    = (Ok (response, tokens), w')
    /\ IUserResponse.email response = "bob@example.com"%string.
Proof. do 3 eexists. split; reflexivity. Qed.

(** ** Password-reset requests *)

(** The document that [requestPasswordReset] writes back. *)
Definition withResetRequest (env : Env) (user : IUser.t) : IUser.t :=
  IUser.set_timestamps (IUser.createdAt user) (now env)
    (IUser.set_passwordReset (Some (randomHex env)) (Some (now env + 60 * 60 * 1000)) user).

Definition resetMail (env : Env) (user : IUser.t) : Mail :=
  mkMail PasswordResetMail (IUser.email user) (IUser.firstName user) (randomHex env).


Lemma requestPasswordReset_found {B : Bcrypt} env email w i user :
  findByEmail email w = (Ok (Some (i, user)), w) ->
  AuthService.requestPasswordReset env email w
  = (if mailUp env then Ok tt else Throw (Error "Failed to request password reset"),
     mkWorld (<[i := withResetRequest env user]> (users w))
             (mails w ++ [resetMail env user])).
Proof.
  intros Hf. apply findByEmail_inv in Hf. run_action. rewrite Hf.
  unfold save, preSave. cbn. now destruct (mailUp env).
Qed.

Lemma found_insert_lookup (P : IUser.t -> Prop) `{!forall u, Decision (P u)}
    (docs : list IUser.t) i user user' :
  list_find P docs = Some (i, user) -> <[i := user']> docs !! i = Some user'.
Proof.
  intros Hfound. apply list_find_Some in Hfound as (Hi & _ & _).
  apply list_lookup_insert_eq. now apply lookup_lt_Some in Hi.
Qed.



(** C10. When the e-mail is that of a record and the mail transport
    rejects, [requestPasswordReset] throws, and the token and the expiry
    that it had already saved stay on the record. *)
Theorem requestPasswordReset_not_rolled_back
    {B : Bcrypt} (env : Env) (email : string) (w : World) (i : nat) (user : IUser.t) :
  findByEmail email w = (Ok (Some (i, user)), w) ->
  mailUp env = false ->
  exists w' user',
    AuthService.requestPasswordReset env email w
    = (Throw (Error "Failed to request password reset"), w')
    /\ users w' !! i = Some user'
    /\ IUser._id user' = IUser._id user
    /\ IUser.passwordResetToken user' = Some (randomHex env)
    /\ IUser.passwordResetExpires user' = Some (now env + 3600000).
Proof.
  intros Hf Hdown.
  rewrite (requestPasswordReset_found env email w i user Hf), Hdown.
  eexists _, (withResetRequest env user). repeat split.
  apply findByEmail_inv in Hf. cbn. eapply found_insert_lookup, Hf.
Qed.

Lemma requestPasswordReset_not_rolled_back_witness :
  exists w' user',
    AuthService.requestPasswordReset (B := Reference.bcrypt)
      Sample.envMailDown "bob@example.com" Sample.world
    = (Throw (Error "Failed to request password reset"), w')
    /\ users w' !! 0%nat = Some user'
    /\ IUser._id user' = "u1"%string
    /\ IUser.passwordResetToken user' = Some "c0ffee"%string
    /\ IUser.passwordResetExpires user' = Some 8600000.
Proof.
  apply (requestPasswordReset_not_rolled_back (B := Reference.bcrypt)
           Sample.envMailDown "bob@example.com" Sample.world 0%nat Sample.bob);
    vm_compute; reflexivity.
Defined.

(** ** Registration *)

Definition verificationMail (env : Env) (user : IUser.t) : Mail :=
  mkMail VerificationMail (IUser.email user) (IUser.firstName user) (randomHex env).

Lemma registerUser_saved {B : Bcrypt} env userData w user w1 :
  findByEmail (IUserRegistration.email userData) w = (Ok None, w) ->
  saveNew env (newUser env userData (randomHex env) (now env + 24 * 60 * 60 * 1000)) w
  = (Ok user, w1) ->
  AuthService.registerUser env userData w
  = (Ok (toResponse user), mkWorld (users w1) (mails w1 ++ [verificationMail env user]))
  /\ users w1 = users w ++ [user]
  /\ IUser.isEmailVerified user = false.
Proof.
  intros Hf Hs. apply findByEmail_inv in Hf. run_action. rewrite Hf, Hs. cbn.
  split; [reflexivity|].
  unfold saveNew in Hs.
  destruct (validateNew _); [|discriminate].
  destruct (duplicateKey _ _); [discriminate|].
  injection Hs as <- <-. cbn. split; [reflexivity|].
  unfold preSave; reflexivity.
Qed.

(** C7. When the e-mail is free and the new document is saved,
    [registerUser] returns the created user although the mail transport
    rejects the verification message, and the document stays in the
    collection. *)
Theorem registerUser_mail_failure_swallowed
    {B : Bcrypt} (env : Env) (userData : IUserRegistration.t)
    (w w1 : World) (user : IUser.t) :
  findByEmail (IUserRegistration.email userData) w = (Ok None, w) ->
  saveNew env (newUser env userData (randomHex env) (now env + 24 * 60 * 60 * 1000)) w
  = (Ok user, w1) ->
  mailUp env = false ->
  exists w2,
    fst (sendVerificationEmail (mailUp env) (IUser.email user) (IUser.firstName user)
           (randomHex env) w1) = Throw MailError
    /\ AuthService.registerUser env userData w = (Ok (toResponse user), w2)
    /\ users w2 = users w ++ [user]
    /\ IUserResponse.email (toResponse user)
       = Js.trim (Js.toLowerCase (IUserRegistration.email userData)).
Proof.
  intros Hf Hs Hdown.
  destruct (registerUser_saved env userData w user w1 Hf Hs) as (Hr & Hu & _).
  eexists. split; [now rewrite Hdown|]. split; [exact Hr|]. split; [exact Hu|].
  unfold saveNew in Hs.
  destruct (validateNew _); [|discriminate].
  destruct (duplicateKey _ _); [discriminate|].
  injection Hs as <- _. reflexivity.
Qed.

Lemma registerUser_mail_failure_swallowed_witness :
  exists user w1 w2,
    fst (sendVerificationEmail false (IUser.email user) (IUser.firstName user)
           "c0ffee" w1) = Throw MailError
    /\ AuthService.registerUser (B := Reference.bcrypt)
         Sample.envMailDown Sample.bobRegistration Sample.emptyWorld
       = (Ok (toResponse user), w2)
    /\ users w2 = [user]
    /\ IUserResponse.email (toResponse user) = "bob@example.com"%string.
Proof.
  do 2 eexists.
  eapply (registerUser_mail_failure_swallowed (B := Reference.bcrypt)
            Sample.envMailDown Sample.bobRegistration Sample.emptyWorld);
    vm_compute; reflexivity.
Defined.

(** ** Password reset *)

(** The document that a successful [resetPassword] writes back. *)
Definition afterReset {B : Bcrypt} (env : Env) (newPassword : string) (user : IUser.t)
  : IUser.t :=
  IUser.set_timestamps (IUser.createdAt user) (now env)
    (IUser.set_password (bcrypt_hash newPassword (salt env))
       (clearRefreshTokens
          (IUser.set_passwordReset None None (IUser.set_password newPassword user)))).

Lemma findByPasswordResetToken_inv now token w r :
  findByPasswordResetToken now token w = (Ok r, w) ->
  list_find (fun u => IUser.passwordResetToken u = Some token
                      /\ laterThan now (IUser.passwordResetExpires u)) (users w) = r.
Proof. unfold findByPasswordResetToken, findOne. congruence. Qed.

Lemma minlength_ok (s : string) :
  (8 <= Js.length s)%nat ->
  nonEmpty s && (8 <=? Js.length s)%nat = true.
Proof.
  intros Hlen. apply andb_true_intro. split.
  - destruct s; [simpl in Hlen; lia | reflexivity].
  - now apply Nat.leb_le.
Qed.

Lemma resetPassword_found {B : Bcrypt} env token newPassword w i user :
  findByPasswordResetToken (now env) token w = (Ok (Some (i, user)), w) ->
  (8 <= Js.length newPassword)%nat ->
  newPassword <> IUser.password user ->
  AuthService.resetPassword env token newPassword w
  = (Ok (toResponse (afterReset env newPassword user)),
     mkWorld (<[i := afterReset env newPassword user]> (users w)) (mails w)).
Proof.
  intros Hf Hlen Hne. apply findByPasswordResetToken_inv in Hf.
  run_action. rewrite Hf.
  apply String.eqb_neq in Hne. rewrite Hne.
  unfold save, validatePassword, preSave, clearRefreshTokens.
  cbn [negb IUser.password IUser.set_password IUser.set_passwordReset
       IUser.set_refreshTokens].
  rewrite (minlength_ok _ Hlen). reflexivity.
Qed.

(** C4 (amended). When the reset token presented is that of a record with
    an expiry later than now, and the new password has a [length] of at
    least eight (UTF-16 code units, which is what [minlength] counts) and
    is not literally the stored hash, [resetPassword]
    stores the bcrypt hash of the new password, clears the reset token
    and its expiry, and leaves the record without refresh tokens, however
    many it had. *)
Theorem resetPassword_clears_sessions
    {B : Bcrypt} (env : Env) (token newPassword : string) (w : World)
    (i : nat) (user : IUser.t) :
  findByPasswordResetToken (now env) token w = (Ok (Some (i, user)), w) ->
  (8 <= Js.length newPassword)%nat ->
  newPassword <> IUser.password user ->
  exists user' w',
    AuthService.resetPassword env token newPassword w = (Ok (toResponse user'), w')
    /\ users w' = <[i := user']> (users w)
    /\ users w' !! i = Some user'
    /\ IUser._id user' = IUser._id user
    /\ IUser.password user' = bcrypt_hash newPassword (salt env)
    /\ IUser.passwordResetToken user' = None
    /\ IUser.passwordResetExpires user' = None
    /\ IUser.refreshTokens user' = [].
Proof.
  intros Hf Hlen Hne.
  exists (afterReset env newPassword user). eexists.
  split; [exact (resetPassword_found env token newPassword w i user Hf Hlen Hne)|].
  cbn. repeat split.
  apply findByPasswordResetToken_inv in Hf. eapply found_insert_lookup, Hf.
Qed.

Lemma resetPassword_clears_sessions_witness :
  exists user' w',
    AuthService.resetPassword (B := Reference.bcrypt)
      Sample.env "feed" "NewSecret456!" Sample.world = (Ok (toResponse user'), w')
    /\ users w' = <[0%nat := user']> (users Sample.world)
    /\ users w' !! 0%nat = Some user'
    /\ IUser._id user' = "u1"%string
    /\ IUser.password user' = Reference.hash "NewSecret456!" "salt1"
    /\ IUser.passwordResetToken user' = None
    /\ IUser.passwordResetExpires user' = None
    /\ IUser.refreshTokens user' = [].
Proof.
  apply (resetPassword_clears_sessions (B := Reference.bcrypt)
           Sample.env "feed" "NewSecret456!" Sample.world 0%nat Sample.bob).
  - vm_compute; reflexivity.
  - vm_compute. lia.
  - vm_compute. discriminate.
Defined.

(** C4 as stated fails: the reset token of Bob is valid, the new password
    has five characters, the validator of the schema rejects the save, and
    the record keeps its password hash, its reset token and both of its
    sessions. *)
Lemma resetPassword_short_password_changes_nothing :
  findByPasswordResetToken (now Sample.env) "feed" Sample.world
  = (Ok (Some (0%nat, Sample.bob)), Sample.world)
  /\ AuthService.resetPassword (B := Reference.bcrypt)
       Sample.env "feed" "short" Sample.world
     = (Throw (Error "Failed to reset password"), Sample.world)
  /\ IUser.refreshTokens Sample.bob = ["session-1"; "session-2"]%string
  /\ IUser.passwordResetToken Sample.bob = Some "feed"%string.
Proof. vm_compute. repeat split. Qed.

(** Four letters of two bytes each are four characters to [minlength]: the
    reset is refused. *)
Example resetPassword_counts_characters :
  AuthService.resetPassword (B := Reference.bcrypt) Sample.env "feed" "éééé" Sample.world
  = (Throw (Error "Failed to reset password"), Sample.world).
Proof. reflexivity. Qed.

(** ** The calls of the service, and runs of them *)

Inductive Call : Type :=
| Register (userData : IUserRegistration.t)
| Login (loginData : IUserLogin.t)
| VerifyEmail (token : string)
| ResendVerification (email : string)
| Refresh (refreshToken : string)
| Logout (userId refreshToken : string)
| LogoutAll (userId : string)
| GetProfile (userId : string)
| RequestPasswordReset (email : string)
| ResetPassword (token newPassword : string).

Definition isVerifyEmail (call : Call) : bool :=
  match call with
  | VerifyEmail _ => true
  | _ => false
  end.

Section Runs.

Context {J : JsonWebToken} {B : Bcrypt}.
Variable config : IConfig.

(** The world after a call, whether it returned or threw. *)
Definition step (env : Env) (call : Call) (w : World) : World :=
  match call with
  | Register userData => snd (AuthService.registerUser env userData w)
  | Login loginData => snd (AuthService.loginUser config env loginData w)
  | VerifyEmail token => snd (AuthService.verifyEmail env token w)
  | ResendVerification email => snd (AuthService.resendVerificationEmail env email w)
  | Refresh refreshToken => snd (AuthService.refreshToken config env refreshToken w)
  | Logout userId refreshToken => snd (AuthService.logout env userId refreshToken w)
  | LogoutAll userId => snd (AuthService.logoutAllDevices env userId w)
  | GetProfile userId => snd (AuthService.getUserProfile userId w)
  | RequestPasswordReset email => snd (AuthService.requestPasswordReset env email w)
  | ResetPassword token newPassword =>
      snd (AuthService.resetPassword env token newPassword w)
  end.

Fixpoint run (trace : list (Env * Call)) (w : World) : World :=
  match trace with
  | [] => w
  | (env, call) :: rest => run rest (step env call w)
  end.

(** The refresh tokens that a call made at the instant of [env] can issue. *)
Definition issuedAt (env : Env) (token : string) : Prop :=
  exists userId email, generateRefreshToken config userId email (now env) = Ok token.

End Runs.

(** How one call may change the collection: not at all, by writing back
    one document, or by adding one.  A document written back has its
    [_id], its verification flag (unless the call may verify) and no
    refresh token beyond those it had and those the call issued; a
    document added is unverified and has no refresh token. *)
Inductive evolves (mayVerify : bool) (issued : string -> Prop)
    (docs : list IUser.t) : list IUser.t -> Prop :=
| evolves_same : evolves mayVerify issued docs docs
| evolves_update i user user' :
    docs !! i = Some user ->
    IUser._id user' = IUser._id user ->
    IUser.isEmailVerified user' = IUser.isEmailVerified user
    \/ (mayVerify = true /\ IUser.isEmailVerified user' = true) ->
    (forall token, In token (IUser.refreshTokens user') ->
                   In token (IUser.refreshTokens user) \/ issued token) ->
    evolves mayVerify issued docs (<[i := user']> docs)
| evolves_insert user' :
    IUser.isEmailVerified user' = false ->
    IUser.refreshTokens user' = [] ->
    evolves mayVerify issued docs (docs ++ [user']).

Lemma evolves_lookup mayVerify issued docs docs' i user :
  evolves mayVerify issued docs docs' ->
  docs !! i = Some user ->
  exists user',
    docs' !! i = Some user'
    /\ IUser._id user' = IUser._id user
    /\ (IUser.isEmailVerified user' = IUser.isEmailVerified user
        \/ (mayVerify = true /\ IUser.isEmailVerified user' = true))
    /\ (forall token, In token (IUser.refreshTokens user') ->
                      In token (IUser.refreshTokens user) \/ issued token).
Proof.
  intros Hev Hi. destruct Hev as [|j old new Hj Hid Hflag Htok|new Hnew].
  - exists user. auto.
  - destruct (decide (j = i)) as [->|Hne].
    + exists new. rewrite list_lookup_insert_eq by (now apply lookup_lt_Some in Hj).
      rewrite Hi in Hj. injection Hj as ->. auto.
    + exists user. rewrite list_lookup_insert_ne by exact Hne. auto.
  - exists user. rewrite lookup_app_l by (now apply lookup_lt_Some in Hi). auto.
Qed.

Ltac found_at H :=
  let Hl := fresh "Hlookup" in
  pose proof (found_lookup _ _ _ _ H) as [Hl _].

Section RunsPreserve.

Context {J : JsonWebToken} {B : Bcrypt}.
Variable config : IConfig.

Lemma generateTokens_refreshToken userId email now tokens :
  generateTokens config userId email now = Ok tokens ->
  generateRefreshToken config userId email now = Ok (ITokenResponse.refreshToken tokens).
Proof.
  unfold generateTokens, mbind, Result_bind.
  destruct (generateAccessToken _ _ _ _); [|discriminate].
  destruct (generateRefreshToken _ _ _ _); [|discriminate].
  now intros [= <-].
Qed.

Lemma tokens_after_add (issued : string -> Prop) (new : string) (kept old : list string) :
  issued new ->
  (forall token, In token kept -> In token old) ->
  forall token, In token (kept ++ [new]) -> In token old \/ issued token.
Proof.
  intros Hnew Hkept token Hin. apply in_app_or in Hin as [Hin|[<-|[]]]; auto.
Qed.

Lemma tokens_after_remove (removed : string) (old : list string) :
  forall token,
    In token (List.filter (fun t => negb (String.eqb t removed)) old) -> In token old.
Proof. intros token Hin. now apply filter_In in Hin as [Hin _]. Qed.

Lemma step_evolves env call w :
  evolves (isVerifyEmail call) (issuedAt config env)
    (users w) (users (step config env call w)).
Proof.
  destruct call; unfold step; run_action.
  - (* Register *)
    destruct (list_find _ (users w)) as [[i user]|] eqn:Hf; cbn; [apply evolves_same|].
    unfold saveNew. destruct (validateNew _); cbn; [|apply evolves_same].
    destruct (duplicateKey _ _); cbn; [apply evolves_same|].
    apply evolves_insert; reflexivity.
  - (* Login *)
    destruct (list_find _ (users w)) as [[i user]|] eqn:Hf; cbn; [|apply evolves_same].
    destruct (comparePassword user _); cbn; [|apply evolves_same].
    destruct (generateTokens config _ _ _) as [tokens|] eqn:Hg; cbn; [|apply evolves_same].
    found_at Hf. eapply evolves_update; [eassumption|reflexivity|now left|].
    cbn. apply tokens_after_add; [|auto].
    eexists _, _. apply generateTokens_refreshToken, Hg.
  - (* VerifyEmail *)
    destruct (list_find _ (users w)) as [[i user]|] eqn:Hf; cbn; [|apply evolves_same].
    found_at Hf. eapply evolves_update; [eassumption|reflexivity|now right|now left].
  - (* ResendVerification *)
    destruct (list_find _ (users w)) as [[i user]|] eqn:Hf; cbn; [|apply evolves_same].
    destruct (IUser.isEmailVerified user); cbn; [apply evolves_same|].
    found_at Hf. destruct (mailUp env); cbn;
      (eapply evolves_update; [eassumption|reflexivity|now left|now left]).
  - (* Refresh *)
    destruct (verifyRefreshToken config _ _); cbn; [|apply evolves_same].
    destruct (list_find _ (users w)) as [[i user]|] eqn:Hf; cbn; [|apply evolves_same].
    destruct (hasRefreshToken _ user); cbn; [|apply evolves_same].
    destruct (generateTokens config _ _ _) as [tokens|] eqn:Hg; cbn; [|apply evolves_same].
    found_at Hf. eapply evolves_update; [eassumption|reflexivity|now left|].
    cbn. apply tokens_after_add; [|apply tokens_after_remove].
    eexists _, _. apply generateTokens_refreshToken, Hg.
  - (* Logout *)
    destruct (list_find _ (users w)) as [[i user]|] eqn:Hf; cbn; [|apply evolves_same].
    found_at Hf. eapply evolves_update; [eassumption|reflexivity|now left|].
    cbn. intros ? Hin. left. eapply tokens_after_remove, Hin.
  - (* LogoutAll *)
    destruct (list_find _ (users w)) as [[i user]|] eqn:Hf; cbn; [|apply evolves_same].
    found_at Hf. eapply evolves_update; [eassumption|reflexivity|now left|].
    cbn. intros ? [].
  - (* GetProfile *)
    destruct (list_find _ (users w)) as [[i user]|] eqn:Hf; cbn; apply evolves_same.
  - (* RequestPasswordReset *)
    destruct (list_find _ (users w)) as [[i user]|] eqn:Hf; cbn; [|apply evolves_same].
    found_at Hf. destruct (mailUp env); cbn;
      (eapply evolves_update; [eassumption|reflexivity|now left|now left]).
  - (* ResetPassword *)
    destruct (list_find _ (users w)) as [[i user]|] eqn:Hf; cbn; [|apply evolves_same].
    unfold save.
    destruct (negb (String.eqb newPassword (IUser.password user))); cbn;
      [destruct (validatePassword _); cbn; [|apply evolves_same]|];
      (found_at Hf; eapply evolves_update;
       [eassumption|reflexivity|now left|cbn; intros ? []]).
Qed.

Lemma run_keeps_verified trace w i user :
  users w !! i = Some user ->
  IUser.isEmailVerified user = true ->
  exists user',
    users (run config trace w) !! i = Some user'
    /\ IUser._id user' = IUser._id user
    /\ IUser.isEmailVerified user' = true.
Proof.
  revert w user. induction trace as [|[env call] rest IH]; intros w user Hi Hv.
  - exists user. auto.
  - destruct (evolves_lookup _ _ _ _ i user (step_evolves env call w) Hi)
      as (mid & Hmid & Hid & Hflag & _).
    assert (Hvm : IUser.isEmailVerified mid = true)
      by (destruct Hflag as [->|[_ ->]]; auto).
    destruct (IH _ mid Hmid Hvm) as (user' & Hu & Hid' & Hv').
    exists user'. cbn [run]. split; [exact Hu|]. split; [congruence | exact Hv'].
Qed.

End RunsPreserve.

(** ** Refresh-token rotation *)

Section Rotation.

Context {J : JsonWebToken} {B : Bcrypt}.
Variable config : IConfig.

(** A refresh token that verifies at some instant decodes to refresh
    claims and carries a signature made with the refresh secret. *)
Lemma verifyRefreshToken_Ok token now decoded :
  verifyRefreshToken config token now = Ok decoded ->
  jws_decode token = Some decoded
  /\ jws_check token (jwtRefreshSecret config) = true
  /\ IJWTPayload.type decoded = "refresh"%string.
Proof.
  unfold verifyRefreshToken, tryCatch, jwt_verify, mbind, Result_bind.
  destruct (jws_decode token) as [c|]; [|discriminate].
  destruct (jws_check token _); cbn [negb]; [|discriminate].
  destruct (IJWTPayload.exp c) as [e|];
    [destruct (e <=? clockTimestamp now)|]; cbn; try discriminate;
    (destruct (String.eqb (IJWTPayload.type c) "refresh") eqn:Ht; cbn; [|discriminate];
     intros [= <-]; apply String.eqb_eq in Ht; auto).
Qed.

(** At any other instant such a token verifies again, or has expired. *)
Lemma verifyRefreshToken_later token decoded now :
  jws_decode token = Some decoded ->
  jws_check token (jwtRefreshSecret config) = true ->
  IJWTPayload.type decoded = "refresh"%string ->
  verifyRefreshToken config token now = Ok decoded
  \/ verifyRefreshToken config token now = Throw RefreshTokenExpired.
Proof.
  intros Hd Hc Ht.
  unfold verifyRefreshToken, tryCatch, jwt_verify, mbind, Result_bind.
  rewrite Hd, Hc. cbn [negb].
  destruct (IJWTPayload.exp decoded) as [e|];
    [destruct (e <=? clockTimestamp now); [now right|]|];
    rewrite Ht; now left.
Qed.

(** The document that a successful [refreshToken] writes back. *)
Definition rotated (env : Env) (old new : string) (user : IUser.t) : IUser.t :=
  IUser.set_timestamps (IUser.createdAt user) (now env)
    (addRefreshToken new (removeRefreshToken old user)).

Lemma removed_absent (old : string) (tokens : list string) :
  existsb (String.eqb old)
    (List.filter (fun token => negb (String.eqb token old)) tokens) = false.
Proof.
  induction tokens as [|t ts IH]; [reflexivity|]. simpl.
  destruct (String.eqb t old) eqn:E; simpl; [exact IH|].
  rewrite String.eqb_sym, E. exact IH.
Qed.

Lemma rotated_lacks_old env old new user :
  new <> old -> hasRefreshToken old (rotated env old new user) = false.
Proof.
  intros Hne. unfold hasRefreshToken, rotated, addRefreshToken, removeRefreshToken.
  cbn. rewrite existsb_app, removed_absent. cbn.
  rewrite String.eqb_sym. apply String.eqb_neq in Hne. now rewrite Hne.
Qed.

Lemma find_after_update (P : IUser.t -> Prop) `{!forall u, Decision (P u)}
    (docs : list IUser.t) i user user' :
  list_find P docs = Some (i, user) -> P user' ->
  list_find P (<[i := user']> docs) = Some (i, user').
Proof.
  intros Hfound HP. apply list_find_Some in Hfound as (Hi & _ & Hmin).
  apply list_find_insert_Some. right. left.
  repeat split; try assumption. now apply lookup_lt_Some in Hi.
Qed.

(** What a successful [refreshToken] has checked and written. *)
Lemma refreshToken_Ok env token w newTokens w1 :
  AuthService.refreshToken config env token w = (Ok newTokens, w1) ->
  exists decoded i user,
    verifyRefreshToken config token (now env) = Ok decoded
    /\ list_find (fun u => IUser._id u = IJWTPayload.userId decoded) (users w)
       = Some (i, user)
    /\ hasRefreshToken token user = true
    /\ generateTokens config (IUser._id user) (IUser.email user) (now env) = Ok newTokens
    /\ w1 = mkWorld
              (<[i := rotated env token (ITokenResponse.refreshToken newTokens) user]> (users w))
              (mails w).
Proof.
  intros Hrun. run_action.
  destruct (verifyRefreshToken config token (now env)) as [decoded|e] eqn:Hv;
    [|discriminate].
  destruct (list_find _ (users w)) as [[i user]|] eqn:Hf; [|discriminate].
  destruct (hasRefreshToken token user) eqn:Hh; cbn [negb] in Hrun; [|discriminate].
  destruct (generateTokens config _ _ _) as [tokens|e] eqn:Hg; [|discriminate].
  unfold save in Hrun. cbn in Hrun. injection Hrun as <- <-.
  exists decoded, i, user. repeat split; assumption.
Qed.

(** A refresh token outside the set of the user it names is refused. *)
Lemma refreshToken_not_member env token w decoded i user :
  verifyRefreshToken config token (now env) = Ok decoded ->
  list_find (fun u => IUser._id u = IJWTPayload.userId decoded) (users w) = Some (i, user) ->
  hasRefreshToken token user = false ->
  AuthService.refreshToken config env token w = (Throw InvalidRefreshToken, w).
Proof.
  intros Hv Hf Hh. run_action. rewrite Hv, Hf, Hh. reflexivity.
Qed.

Lemma refreshToken_expired env token w :
  verifyRefreshToken config token (now env) = Throw RefreshTokenExpired ->
  AuthService.refreshToken config env token w = (Throw RefreshTokenExpired, w).
Proof. intros Hv. run_action. now rewrite Hv. Qed.

(** A call with [token] right after the call that accepted it, when the
    replacement is another string. *)
Lemma refreshToken_replay_refused
    (env1 env2 : Env) (token : string) (w w1 : World) (newTokens : ITokenResponse.t) :
  AuthService.refreshToken config env1 token w = (Ok newTokens, w1) ->
  ITokenResponse.refreshToken newTokens <> token ->
  match verifyRefreshToken config token (now env2) with
  | Ok _ =>
      AuthService.refreshToken config env2 token w1 = (Throw InvalidRefreshToken, w1)
  | Throw e =>
      e = RefreshTokenExpired
      /\ AuthService.refreshToken config env2 token w1 = (Throw RefreshTokenExpired, w1)
  end.
Proof.
  intros Hrun Hnew.
  apply refreshToken_Ok in Hrun as (decoded & i & user & Hv & Hf & _ & _ & ->).
  apply verifyRefreshToken_Ok in Hv as (Hd & Hc & Ht).
  destruct (verifyRefreshToken_later token decoded (now env2) Hd Hc Ht) as [Hv2|Hv2];
    rewrite Hv2.
  - eapply refreshToken_not_member; [exact Hv2| |].
    + cbn. apply (find_after_update _ _ i user); [exact Hf|].
      apply found_lookup in Hf as [_ Hid]. exact Hid.
    + now apply rotated_lacks_old.
  - split; [reflexivity|]. now apply refreshToken_expired.
Qed.

(** Whether [token] carries the clock second of [env] as its [iat]. *)
Definition issuedInSecondOf (env : Env) (token : string) : bool :=
  match jws_decode token with
  | Some decoded =>
      match IJWTPayload.iat decoded with
      | Some second => second =? clockTimestamp (now env)
      | None => false
      end
  | None => false
  end.

(** [token] is out of the set of the user that [userId] names. *)
Definition retired (token userId : string) (w : World) : Prop :=
  exists i user,
    list_find (fun u => IUser._id u = userId) (users w) = Some (i, user)
    /\ hasRefreshToken token user = false.

Lemma hasRefreshToken_In token user :
  hasRefreshToken token user = true -> In token (IUser.refreshTokens user).
Proof.
  unfold hasRefreshToken. intros H. apply existsb_exists in H as (t & Hin & Heq).
  apply String.eqb_eq in Heq. now subst.
Qed.

Lemma In_hasRefreshToken token user :
  In token (IUser.refreshTokens user) -> hasRefreshToken token user = true.
Proof.
  unfold hasRefreshToken. intros H. apply existsb_exists.
  exists token. split; [exact H | apply String.eqb_refl].
Qed.

Context {S : JsonWebTokenSpec J}.

(** A token that a call issues carries the clock second of the call. *)
Lemma issuedAt_second env token :
  issuedAt config env token -> issuedInSecondOf env token = true.
Proof.
  intros (userId & email & Hgen). unfold generateRefreshToken, jwt_sign in Hgen.
  destruct (Ms.timespan _ _); [|discriminate]. injection Hgen as <-.
  unfold issuedInSecondOf. rewrite jws_decode_encode. cbn. apply Z.eqb_refl.
Qed.

Lemma step_keeps_retired env call token userId w :
  issuedInSecondOf env token = false ->
  retired token userId w ->
  retired token userId (step config env call w).
Proof.
  intros Hsec (i & user & Hf & Hh).
  apply list_find_Some in Hf as (Hi & Hid & Hfirst).
  pose proof (step_evolves config env call w) as Hev.
  destruct (evolves_lookup _ _ _ _ i user Hev Hi) as (user' & Hi' & Hid' & _ & Htok).
  exists i, user'. split.
  - apply list_find_Some. split; [exact Hi'|]. split; [congruence|].
    intros j y Hj Hlt Hy.
    assert (Hold : is_Some (users w !! j)).
    { apply lookup_lt_is_Some_2. apply lookup_lt_Some in Hi. lia. }
    destruct Hold as [old Hold].
    destruct (evolves_lookup _ _ _ _ j old Hev Hold) as (y' & Hj' & Hidy & _).
    rewrite Hj in Hj'. injection Hj' as <-.
    apply (Hfirst j old Hold Hlt). congruence.
  - destruct (hasRefreshToken token user') eqn:Hh'; [|reflexivity].
    apply hasRefreshToken_In, Htok in Hh' as [Hin|Hissued].
    + apply In_hasRefreshToken in Hin. congruence.
    + apply issuedAt_second in Hissued. congruence.
Qed.

Lemma run_keeps_retired trace token userId w :
  forallb (fun call => negb (issuedInSecondOf (fst call) token)) trace = true ->
  retired token userId w ->
  retired token userId (run config trace w).
Proof.
  revert w. induction trace as [|[env call] rest IH]; intros w Hsec Hret; [exact Hret|].
  cbn in Hsec. apply andb_prop in Hsec as [Hhere Hrest].
  apply negb_true_iff in Hhere.
  cbn [run]. apply IH; [exact Hrest|]. now apply step_keeps_retired.
Qed.

(** C1 (amended). After a [refreshToken] call that accepted [token], and
    after any further calls of the service, a call with [token] throws and
    changes nothing: "Invalid refresh token" while [token] still verifies,
    "Refresh token expired" once it no longer does.  This holds when
    neither the call that accepted [token] nor a call made since runs in
    the clock second in which [token] was issued. *)
Theorem refresh_token_one_shot
    (env1 env2 : Env) (trace : list (Env * Call)) (token : string)
    (w w1 : World) (newTokens : ITokenResponse.t) :
  AuthService.refreshToken config env1 token w = (Ok newTokens, w1) ->
  issuedInSecondOf env1 token = false ->
  forallb (fun call => negb (issuedInSecondOf (fst call) token)) trace = true ->
  let w2 := run config trace w1 in
  match verifyRefreshToken config token (now env2) with
  | Ok _ =>
      AuthService.refreshToken config env2 token w2 = (Throw InvalidRefreshToken, w2)
  | Throw e =>
      e = RefreshTokenExpired
      /\ AuthService.refreshToken config env2 token w2 = (Throw RefreshTokenExpired, w2)
  end.
Proof.
  intros Hrun Hfirst Hlater w2.
  apply refreshToken_Ok in Hrun as (decoded & i & user & Hv & Hf & _ & Hgen & ->).
  assert (Hnew : ITokenResponse.refreshToken newTokens <> token).
  { intros Heq. apply generateTokens_refreshToken in Hgen.
    assert (Hsec : issuedInSecondOf env1 token = true)
      by (apply issuedAt_second; rewrite <- Heq; eexists _, _; exact Hgen).
    congruence. }
  assert (Hret : retired token (IJWTPayload.userId decoded) w2).
  { apply run_keeps_retired; [exact Hlater|].
    exists i, (rotated env1 token (ITokenResponse.refreshToken newTokens) user).
    split; [|now apply rotated_lacks_old].
    cbn. apply (find_after_update _ _ i user); [exact Hf|].
    apply found_lookup in Hf as [_ Hid]. exact Hid. }
  destruct Hret as (i2 & user2 & Hf2 & Hh2).
  apply verifyRefreshToken_Ok in Hv as (Hd & Hc & Ht).
  destruct (verifyRefreshToken_later token decoded (now env2) Hd Hc Ht) as [Hv2|Hv2];
    rewrite Hv2.
  - eapply refreshToken_not_member; eassumption.
  - split; [reflexivity|]. now apply refreshToken_expired.
Qed.

End Rotation.

(** ** A session of Bob, with the reference libraries *)

Module Scenario.

(** Bob logs in at second 5000. *)
Definition login : Result (IUserResponse.t * ITokenResponse.t) * World :=
  Eval vm_compute in
    AuthService.loginUser (J := Reference.jwt) (B := Reference.bcrypt)
      defaultConfig Sample.env (IUserLogin.mk "bob@example.com" "Secret123!") Sample.world.

Definition session : string :=
  Eval vm_compute in
    match fst login with
    | Ok (_, tokens) => ITokenResponse.refreshToken tokens
    | Throw _ => EmptyString
    end.

Definition loggedIn : World := Eval vm_compute in snd login.

(** He refreshes one second later. *)
Definition rotation : Result ITokenResponse.t * World :=
  Eval vm_compute in
    AuthService.refreshToken (J := Reference.jwt) (B := Reference.bcrypt)
      defaultConfig Sample.envNextSecond session loggedIn.

Definition newTokens : ITokenResponse.t :=
  Eval vm_compute in
    match fst rotation with
    | Ok tokens => tokens
    | Throw _ => ITokenResponse.mk EmptyString EmptyString None
    end.

Definition afterRotation : World := Eval vm_compute in snd rotation.

End Scenario.

Example scenario_login_ok :
  fst Scenario.login
  = Ok (toResponse Sample.bob,
        ITokenResponse.mk
          (Reference.encode
             (IJWTPayload.mk "u1" "bob@example.com" "access" (Some 5000) (Some 5900))
             "default-access-secret-change-in-production")
          Scenario.session (Some 900))
  /\ Scenario.session
     = Reference.encode
         (IJWTPayload.mk "u1" "bob@example.com" "refresh" (Some 5000) (Some 609800))
         "default-refresh-secret-change-in-production".
Proof. vm_compute. split; reflexivity. Qed.

Lemma refresh_token_one_shot_witness :
  let later :=
    run (J := Reference.jwt) (B := Reference.bcrypt) defaultConfig
      [(Sample.envNextSecond, Login (IUserLogin.mk "bob@example.com" "Secret123!"));
       (Sample.envNextSecond, Logout "u1" "session-1");
       (Sample.envNextSecond, RequestPasswordReset "bob@example.com")]
      Scenario.afterRotation in
  AuthService.refreshToken (J := Reference.jwt) (B := Reference.bcrypt)
    defaultConfig Sample.envNextSecond Scenario.session Scenario.loggedIn
  = (Ok Scenario.newTokens, Scenario.afterRotation)
  /\ AuthService.refreshToken (J := Reference.jwt) (B := Reference.bcrypt)
       defaultConfig Sample.envNextSecond Scenario.session later
     = (Throw InvalidRefreshToken, later).
Proof.
  intros later.
  assert (Hfirst :
    AuthService.refreshToken (J := Reference.jwt) (B := Reference.bcrypt)
      defaultConfig Sample.envNextSecond Scenario.session Scenario.loggedIn
    = (Ok Scenario.newTokens, Scenario.afterRotation))
    by (vm_compute; reflexivity).
  split; [exact Hfirst|].
  generalize (refresh_token_one_shot (J := Reference.jwt) (B := Reference.bcrypt)
                (S := Reference.jwt_spec) defaultConfig
                Sample.envNextSecond Sample.envNextSecond
                [(Sample.envNextSecond, Login (IUserLogin.mk "bob@example.com" "Secret123!"));
                 (Sample.envNextSecond, Logout "u1" "session-1");
                 (Sample.envNextSecond, RequestPasswordReset "bob@example.com")]
                Scenario.session Scenario.loggedIn Scenario.afterRotation
                Scenario.newTokens Hfirst eq_refl eq_refl).
  subst later. vm_compute. exact (fun H => H).
Defined.

(** C1 as stated fails: the token that the first call accepted is
    presented again after its seven days, and the call throws
    "Refresh token expired", not "Invalid refresh token". *)
Lemma refresh_replay_after_expiry :
  hasRefreshToken Scenario.session Sample.bob = false
  /\ (exists user, users Scenario.loggedIn !! 0%nat = Some user
                   /\ hasRefreshToken Scenario.session user = true)
  /\ AuthService.refreshToken (J := Reference.jwt) (B := Reference.bcrypt)
       defaultConfig Sample.envNextSecond Scenario.session Scenario.loggedIn
     = (Ok Scenario.newTokens, Scenario.afterRotation)
  /\ AuthService.refreshToken (J := Reference.jwt) (B := Reference.bcrypt)
       defaultConfig Sample.envMuchLater Scenario.session Scenario.afterRotation
     = (Throw RefreshTokenExpired, Scenario.afterRotation)
  /\ RefreshTokenExpired <> InvalidRefreshToken.
Proof.
  split; [vm_compute; reflexivity|].
  split; [eexists; split; vm_compute; reflexivity|].
  split; [vm_compute; reflexivity|].
  split; [vm_compute; reflexivity|]. discriminate.
Qed.

(** Within the second of the login the replacement that [refreshToken]
    issues is the very string it was given ([jwt.sign] is a function of
    the claims, and [iat] counts seconds); the token presented stays in
    the set and is accepted once more. *)
Lemma refresh_replay_same_second :
  exists tokens w1 w2,
    AuthService.refreshToken (J := Reference.jwt) (B := Reference.bcrypt)
      defaultConfig Sample.env Scenario.session Scenario.loggedIn = (Ok tokens, w1)
    /\ ITokenResponse.refreshToken tokens = Scenario.session
    /\ AuthService.refreshToken (J := Reference.jwt) (B := Reference.bcrypt)
         defaultConfig Sample.env Scenario.session w1 = (Ok tokens, w2).
Proof. do 3 eexists. vm_compute. repeat split. Qed.

(** ** Round trip of an access token *)

Lemma timespan_seconds time iat life :
  Ms.seconds time = Some life -> Ms.timespan time iat = Some (iat + life).
Proof.
  unfold Ms.seconds, Ms.timespan. destruct (Ms.ms time) as [v|]; [|discriminate].
  intros [= <-]. reflexivity.
Qed.

Section RoundTrip.

Context {J : JsonWebToken} {S : JsonWebTokenSpec J}.
Variable config : IConfig.

Lemma jwt_verify_encode c secret secret' now :
  jwt_verify (jws_encode c secret) secret' now
  = if negb (String.eqb secret secret') then Throw (JsonWebTokenError "invalid signature")
    else match IJWTPayload.exp c with
         | Some e => if e <=? clockTimestamp now then Throw TokenExpiredError else Ok c
         | None => Ok c
         end.
Proof. unfold jwt_verify. now rewrite jws_decode_encode, jws_check_encode. Qed.

(** C2 (amended). An access token issued for [userId] and [email] and
    verified with [verifyAccessToken] before its expiry gives back
    [userId] and [email].  Presented to [verifyRefreshToken], it is
    refused with "Invalid refresh token" when the refresh secret is not the
    access secret, and with "Invalid token type" when the two secrets are
    the same string. *)
Theorem access_token_round_trip
    (userId email : string) (issued verified life : Z) :
  Ms.seconds (jwtAccessExpiresIn config) = Some life ->
  clockTimestamp verified < clockTimestamp issued + life ->
  exists token,
    generateAccessToken config userId email issued = Ok token
    /\ (exists decoded,
          verifyAccessToken config token verified = Ok decoded
          /\ IJWTPayload.userId decoded = userId
          /\ IJWTPayload.email decoded = email)
    /\ (jwtAccessSecret config <> jwtRefreshSecret config ->
        verifyRefreshToken config token verified = Throw RefreshTokenMalformed)
    /\ (jwtAccessSecret config = jwtRefreshSecret config ->
        verifyRefreshToken config token verified = Throw TokenKindMismatch).
Proof.
  intros Hlife Hfresh.
  unfold generateAccessToken, jwt_sign.
  rewrite (timespan_seconds _ (clockTimestamp issued) life Hlife).
  eexists. split; [reflexivity|].
  assert (Hexp : (clockTimestamp issued + life <=? clockTimestamp verified) = false)
    by (apply Z.leb_gt; lia).
  unfold verifyAccessToken, verifyRefreshToken, tryCatch, mbind, Result_bind.
  rewrite !jwt_verify_encode. cbn [IJWTPayload.exp IJWTPayload.type].
  rewrite Hexp, String.eqb_refl. cbn.
  split; [eexists; repeat split|]. split.
  - intros Hne. apply String.eqb_neq in Hne. now rewrite Hne.
  - intros Heq. apply String.eqb_eq in Heq. now rewrite Heq.
Qed.

End RoundTrip.

Lemma access_token_round_trip_witness :
  exists token,
    generateAccessToken (J := Reference.jwt) defaultConfig "u1" "bob@example.com" 5000000
    = Ok token
    /\ (exists decoded,
          verifyAccessToken (J := Reference.jwt) defaultConfig token 5001000 = Ok decoded
          /\ IJWTPayload.userId decoded = "u1"%string
          /\ IJWTPayload.email decoded = "bob@example.com"%string)
    /\ verifyRefreshToken (J := Reference.jwt) defaultConfig token 5001000
       = Throw RefreshTokenMalformed.
Proof.
  destruct (access_token_round_trip (J := Reference.jwt) (S := Reference.jwt_spec)
              defaultConfig "u1" "bob@example.com" 5000000 5001000 900)
    as (token & Hgen & Hacc & Hdiff & _).
  - vm_compute; reflexivity.
  - vm_compute; reflexivity.
  - exists token. split; [exact Hgen|]. split; [exact Hacc|].
    apply Hdiff. vm_compute. discriminate.
Defined.

(** C2 as stated fails: with the secrets of the default configuration the
    access token of Bob is refused by [verifyRefreshToken] for its
    signature, before its type is looked at. *)
Lemma access_token_refused_as_malformed :
  exists token,
    generateAccessToken (J := Reference.jwt) defaultConfig "u1" "bob@example.com" 5000000
    = Ok token
    /\ verifyRefreshToken (J := Reference.jwt) defaultConfig token 5000000
       = Throw (AuthenticationError "Invalid refresh token")
    /\ verifyRefreshToken (J := Reference.jwt) defaultConfig token 5000000
       <> Throw TokenKindMismatch.
Proof.
  eexists. split; [vm_compute; reflexivity|].
  split; [vm_compute; reflexivity|]. vm_compute. discriminate.
Qed.

(** ** The expiry boundary *)

Section Expiry.

Context {J : JsonWebToken}.

(** [jwt.verify] refuses a token from the second of its [exp] on. *)
Lemma jwt_verify_at_expiry token secret decoded e now :
  jws_decode token = Some decoded ->
  jws_check token secret = true ->
  IJWTPayload.exp decoded = Some e ->
  e <= clockTimestamp now ->
  jwt_verify token secret now = Throw TokenExpiredError.
Proof.
  intros Hd Hc He Hle. unfold jwt_verify. rewrite Hd, Hc, He. cbn.
  apply Z.leb_le in Hle. now rewrite Hle.
Qed.

(** [isTokenExpired] still answers [false] during the second of [exp]. *)
Lemma isTokenExpired_at_expiry token decoded e now :
  jwt_decode token = Some decoded ->
  IJWTPayload.exp decoded = Some e ->
  e <> 0 ->
  clockTimestamp now = e ->
  isTokenExpired token now = false.
Proof.
  intros Hd He Hnz Hnow. unfold isTokenExpired. rewrite Hd, He.
  apply Z.eqb_neq in Hnz. rewrite Hnz.
  unfold clockTimestamp in Hnow. rewrite Hnow. apply Z.ltb_irrefl.
Qed.

End Expiry.

(** The one-time-token look-ups match no record whose expiry is [now]. *)
Lemma findByVerificationToken_strict now token w i user :
  findByVerificationToken now token w = (Ok (Some (i, user)), w) ->
  exists expires, IUser.emailVerificationExpires user = Some expires /\ now < expires.
Proof.
  unfold findByVerificationToken, findOne. intros [= Hf].
  apply found_lookup in Hf as (_ & _ & Hlater).
  destruct (IUser.emailVerificationExpires user) as [d|]; [eauto | contradiction].
Qed.

Lemma findByPasswordResetToken_strict now token w i user :
  findByPasswordResetToken now token w = (Ok (Some (i, user)), w) ->
  exists expires, IUser.passwordResetExpires user = Some expires /\ now < expires.
Proof.
  unfold findByPasswordResetToken, findOne. intros [= Hf].
  apply found_lookup in Hf as (_ & _ & Hlater).
  destruct (IUser.passwordResetExpires user) as [d|]; [eauto | contradiction].
Qed.

Example reset_token_dead_at_its_expiry :
  findByPasswordResetToken 8999999 "feed" Sample.world
  = (Ok (Some (0%nat, Sample.bob)), Sample.world)
  /\ findByPasswordResetToken 9000000 "feed" Sample.world = (Ok None, Sample.world).
Proof. vm_compute. split; reflexivity. Qed.

(** C3, where the code departs from it.  The access token of Bob issued at
    second 5000 carries [exp = 5900].  At second 5900, and until second
    5901, [isTokenExpired] answers [false], although [verifyAccessToken]
    throws "Access token expired" at that same instant. *)
Theorem isTokenExpired_false_at_expiry_instant :
  exists token,
    generateAccessToken (J := Reference.jwt) defaultConfig "u1" "bob@example.com" 5000000
    = Ok token
    /\ decodeToken (J := Reference.jwt) token
       = Some (IJWTPayload.mk "u1" "bob@example.com" "access" (Some 5000) (Some 5900))
    /\ isTokenExpired (J := Reference.jwt) token 5900000 = false
    /\ isTokenExpired (J := Reference.jwt) token 5900999 = false
    /\ isTokenExpired (J := Reference.jwt) token 5901000 = true
    /\ verifyAccessToken (J := Reference.jwt) defaultConfig token 5900000
       = Throw AccessTokenExpired.
Proof. eexists. split; [vm_compute; reflexivity|]. vm_compute. repeat split. Qed.

(** ** The [expiresIn] of a token pair *)

Section ExpiresIn.

Context {J : JsonWebToken}.

Lemma generateTokens_expiresIn config userId email now tokens :
  generateTokens config userId email now = Ok tokens ->
  ITokenResponse.expiresIn tokens
  = Js.times (Js.parseInt (Js.keepDigits (jwtAccessExpiresIn config))) 60.
Proof.
  unfold generateTokens, mbind, Result_bind.
  destruct (generateAccessToken _ _ _ _); [|discriminate].
  destruct (generateRefreshToken _ _ _ _); [|discriminate].
  now intros [= <-].
Qed.

End ExpiresIn.

Lemma keepDigits_digits ds rest :
  Js.all Js.isDigit ds = true ->
  Js.keepDigits (ds +:+ rest) = ds +:+ Js.keepDigits rest.
Proof.
  unfold Js.all. induction ds as [|c ds IH]; simpl; [reflexivity|].
  intros H. apply andb_prop in H as [Hc Hds]. rewrite Hc, IH by exact Hds. reflexivity.
Qed.

Lemma spanDigits_digits ds rest d t :
  Js.all Js.isDigit ds = true ->
  Js.spanDigits rest = (d, t) ->
  Js.spanDigits (ds +:+ rest) = (ds +:+ d, t).
Proof.
  unfold Js.all. induction ds as [|c ds IH]; intros Hds Hrest.
  - exact Hrest.
  - simpl in Hds. apply andb_prop in Hds as [Hc Hds].
    change (Js.spanDigits (String c ds +:+ rest))
      with (if Js.isDigit c
            then let '(d', t') := Js.spanDigits (ds +:+ rest) in (String c d', t')
            else (EmptyString, String c (ds +:+ rest))).
    rewrite Hc, (IH Hds Hrest). reflexivity.
Qed.

Lemma append_empty_r (s : string) : s +:+ EmptyString = s.
Proof.
  induction s as [|c s IH]; [reflexivity|].
  change (String c (s +:+ EmptyString) = String c s). now f_equal.
Qed.

Lemma length_append (s r : string) :
  String.length (s +:+ r) = (String.length s + String.length r)%nat.
Proof.
  induction s as [|c s IH]; [reflexivity|].
  change (S (String.length (s +:+ r)) = S (String.length s + String.length r)).
  now f_equal.
Qed.

(** For a life time written in minutes the value reported is the number of
    seconds that the life time denotes. *)
Lemma expiresIn_minutes (ds : string) :
  ds <> EmptyString ->
  Js.all Js.isDigit ds = true ->
  (String.length ds < 100)%nat ->
  Js.times (Js.parseInt (Js.keepDigits (ds +:+ "m"))) 60 = Ms.seconds (ds +:+ "m").
Proof.
  intros Hne Hds Hlen.
  assert (Hspan : Js.spanDigits (ds +:+ "m") = (ds, String "m" EmptyString)).
  { rewrite (spanDigits_digits ds "m" EmptyString "m" Hds eq_refl).
    now rewrite append_empty_r. }
  assert (Hkeep : Js.spanDigits (Js.keepDigits (ds +:+ "m")) = (ds, EmptyString)).
  { rewrite keepDigits_digits by exact Hds.
    change (Js.keepDigits "m") with EmptyString.
    rewrite (spanDigits_digits ds EmptyString EmptyString EmptyString Hds eq_refl).
    now rewrite append_empty_r. }
  assert (Hshort : (100 <? String.length (ds +:+ "m"))%nat = false).
  { apply Nat.ltb_ge. rewrite length_append. simpl. lia. }
  unfold Js.parseInt, Ms.seconds, Ms.timespan, Ms.ms.
  rewrite Hkeep, Hshort. cbn [fst].
  destruct ds as [|c ds]; [congruence|].
  assert (Hc : Js.isDigit c = true)
    by (unfold Js.all in Hds; simpl in Hds; apply andb_prop in Hds as [Hc _]; exact Hc).
  assert (Hbody : match String c ds +:+ "m" with
                  | String "-" r => (true, r)
                  | _ => (false, String c ds +:+ "m")
                  end = (false, String c ds +:+ "m")).
  { destruct c as [[] [] [] [] [] [] [] []]; try reflexivity; discriminate. }
  rewrite Hbody, Hspan.
  change (Ms.unit (Js.toLowerCase (Ms.dropSpaces "m"))) with (Some Ms.minute).
  cbn [Js.times]. f_equal. unfold Ms.minute, Ms.second.
  rewrite Z.add_0_l.
  replace (Js.digitsValue 0 (String c ds) * (1000 * 60))
    with (Js.digitsValue 0 (String c ds) * 60 * 1000) by lia.
  now rewrite Z.div_mul by lia.
Qed.

Example expiresIn_15m :
  Js.times (Js.parseInt (Js.keepDigits "15m")) 60 = Some 900
  /\ Ms.seconds "15m" = Some 900.
Proof. split; reflexivity. Qed.

(** C8, where the code departs from it.  With the access life time set to
    "1h" the pair reports [expiresIn = 60], while the life time denotes
    3600 seconds and the access token of the pair is signed to expire 3600
    seconds after it was issued. *)
Theorem generateTokens_expiresIn_one_hour :
  let config := mkConfig "access-secret" "refresh-secret" "1h" "7d" in
  exists tokens,
    generateTokens (J := Reference.jwt) config "u1" "bob@example.com" 5000000 = Ok tokens
    /\ ITokenResponse.expiresIn tokens = Some 60
    /\ Ms.seconds (jwtAccessExpiresIn config) = Some 3600
    /\ decodeToken (J := Reference.jwt) (ITokenResponse.accessToken tokens)
       = Some (IJWTPayload.mk "u1" "bob@example.com" "access" (Some 5000) (Some 8600)).
Proof. eexists. split; [vm_compute; reflexivity|]. vm_compute. repeat split. Qed.

(** ** The verification flag *)

Lemma registerUser_Ok {B : Bcrypt} env userData w response w' :
  AuthService.registerUser env userData w = (Ok response, w') ->
  exists user,
    users w' = users w ++ [user]
    /\ IUser.isEmailVerified user = false
    /\ response = toResponse user.
Proof.
  intros Hrun. run_action.
  destruct (list_find _ (users w)) as [[i found]|] eqn:Hf; [discriminate|].
  unfold saveNew in Hrun. destruct (validateNew _); [|discriminate].
  destruct (duplicateKey _ _); [discriminate|].
  cbn in Hrun. injection Hrun as <- <-. eexists. repeat split.
Qed.

(** C9. A record is created with [isEmailVerified = false]; a record whose
    flag is [true] keeps its place, its [_id] and a [true] flag through any
    run of calls of the service; and no call other than [verifyEmail]
    changes the flag of a record, in either direction. *)
Theorem isEmailVerified_monotone
    {J : JsonWebToken} {B : Bcrypt} (config : IConfig) :
  (forall env userData w response w',
     AuthService.registerUser env userData w = (Ok response, w') ->
     exists user,
       users w' = users w ++ [user]
       /\ IUser.isEmailVerified user = false
       /\ IUserResponse.isEmailVerified response = false)
  /\ (forall trace w i user,
        users w !! i = Some user ->
        IUser.isEmailVerified user = true ->
        exists user',
          users (run config trace w) !! i = Some user'
          /\ IUser._id user' = IUser._id user
          /\ IUser.isEmailVerified user' = true)
  /\ (forall env call w i user,
        isVerifyEmail call = false ->
        users w !! i = Some user ->
        exists user',
          users (step config env call w) !! i = Some user'
          /\ IUser._id user' = IUser._id user
          /\ IUser.isEmailVerified user' = IUser.isEmailVerified user).
Proof.
  split; [|split].
  - intros env userData w response w' Hrun.
    apply registerUser_Ok in Hrun as (user & Hu & Hflag & ->).
    exists user. repeat split; assumption.
  - intros trace w i user. apply run_keeps_verified.
  - intros env call w i user Hcall Hi.
    pose proof (step_evolves config env call w) as Hev. rewrite Hcall in Hev.
    destruct (evolves_lookup _ _ _ _ i user Hev Hi)
      as (user' & Hu & Hid & [Hflag|[Hno _]] & _).
    + eauto.
    + discriminate.
Qed.

Lemma isEmailVerified_monotone_witness :
  exists user',
    users (run (J := Reference.jwt) (B := Reference.bcrypt) defaultConfig
             [(Sample.env, Register (IUserRegistration.mk "eve@example.com" "Password1!" "Eve" "Adams"));
              (Sample.env, Login (IUserLogin.mk "bob@example.com" "Secret123!"));
              (Sample.env, ResendVerification "bob@example.com");
              (Sample.envNextSecond, Refresh Scenario.session);
              (Sample.envNextSecond, RequestPasswordReset "bob@example.com");
              (Sample.envNextSecond, ResetPassword "c0ffee" "NewSecret456!");
              (Sample.envMuchLater, Login (IUserLogin.mk "bob@example.com" "NewSecret456!"));
              (Sample.envMuchLater, Logout "u1" "session-1");
              (Sample.envMuchLater, LogoutAll "u1")]
             Sample.world) !! 0%nat = Some user'
    /\ IUser._id user' = "u1"%string
    /\ IUser.isEmailVerified user' = true.
Proof.
  apply (proj1 (proj2 (isEmailVerified_monotone (J := Reference.jwt)
                         (B := Reference.bcrypt) defaultConfig))
           _ Sample.world 0%nat Sample.bob);
    vm_compute; reflexivity.
Defined.

(** * Further properties of the service

    The remaining operations of [services/authService.ts], the remaining
    functions of [utils/jwt.ts] and [models/User.ts], and their callers in
    [middlewares/auth.ts], [utils/errors.ts] and
    [controllers/authController.ts]. *)

(** ** More sample data *)

Module Fixtures.

(** Alice has registered and not yet followed the link of her mail. *)
Definition alice : IUser.t := {|
  IUser._id := "u0";
  IUser.email := "alice@example.com";
  IUser.password := Reference.hash "Wonderland1!" "salt0";
  IUser.firstName := "Alice";
  IUser.lastName := "Liddell";
  IUser.isEmailVerified := false;
  IUser.emailVerificationToken := Some "a11ce";
  IUser.emailVerificationExpires := Some 9000000;
  IUser.passwordResetToken := None;
  IUser.passwordResetExpires := None;
  IUser.refreshTokens := [];
  IUser.createdAt := 2000;
  IUser.updatedAt := 2000
|}.

Definition world : World := mkWorld [Sample.bob; alice] [].

Definition eveRegistration : IUserRegistration.t :=
  IUserRegistration.mk "Eve@Example.com" "Password1!" " Eve" "Adams".

End Fixtures.

(** Carol, whose id is written out as MongoDB writes it, her login at
    second 5000, and an ObjectId that no document has. *)
Module Members.

Definition carol : IUser.t := {|
  IUser._id := "65f0a1b2c3d4e5f6a7b8c9d0";
  IUser.email := "carol@example.com";
  IUser.password := Reference.hash "Secret123!" "salt0";
  IUser.firstName := "Carol";
  IUser.lastName := "Danvers";
  IUser.isEmailVerified := true;
  IUser.emailVerificationToken := None;
  IUser.emailVerificationExpires := None;
  IUser.passwordResetToken := None;
  IUser.passwordResetExpires := None;
  IUser.refreshTokens := ["session-1"; "session-2"];
  IUser.createdAt := 1000;
  IUser.updatedAt := 1000
|}.

Definition world : World := mkWorld [carol] [].

Definition absent : string := "65f0a1b2c3d4e5f6a7b8c9ff".

Definition login : Result (IUserResponse.t * ITokenResponse.t) * World :=
  Eval vm_compute in
    AuthService.loginUser (J := Reference.jwt) (B := Reference.bcrypt)
      defaultConfig Sample.env (IUserLogin.mk "carol@example.com" "Secret123!") world.

Definition session : string :=
  Eval vm_compute in
    match fst login with
    | Ok (_, tokens) => ITokenResponse.refreshToken tokens
    | Throw _ => EmptyString
    end.

Definition loggedIn : World := Eval vm_compute in snd login.

End Members.

Example members_ids :
  isObjectId (IUser._id Members.carol) = true
  /\ isObjectId Members.absent = true
  /\ isObjectId "nobody" = false.
Proof. repeat split. Qed.

(** ** E-mail verification *)

(** The document that a successful [verifyEmail] writes back. *)
Definition afterVerification (env : Env) (user : IUser.t) : IUser.t :=
  IUser.set_timestamps (IUser.createdAt user) (now env)
    (IUser.set_emailVerification None None (IUser.set_isEmailVerified true user)).

Lemma findByVerificationToken_inv now token w r :
  findByVerificationToken now token w = (Ok r, w) ->
  list_find (fun u => IUser.emailVerificationToken u = Some token
                      /\ laterThan now (IUser.emailVerificationExpires u)) (users w) = r.
Proof. unfold findByVerificationToken, findOne. congruence. Qed.

Lemma verifyEmail_found {B : Bcrypt} env token w i user :
  findByVerificationToken (now env) token w = (Ok (Some (i, user)), w) ->
  AuthService.verifyEmail env token w
  = (Ok (toResponse (afterVerification env user)),
     mkWorld (<[i := afterVerification env user]> (users w)) (mails w)).
Proof.
  intros Hf. apply findByVerificationToken_inv in Hf. run_action. now rewrite Hf.
Qed.

Lemma verifyEmail_not_found {B : Bcrypt} env token w :
  findByVerificationToken (now env) token w = (Ok None, w) ->
  AuthService.verifyEmail env token w
  = (Throw (ValidationError "Invalid or expired verification token"), w).
Proof.
  intros Hf. apply findByVerificationToken_inv in Hf. run_action. now rewrite Hf.
Qed.

(** X1. [verifyEmail] with the token of a record whose expiry is later than
    now returns the profile of that record with [isEmailVerified = true],
    sets the flag on the record, clears the token and its expiry, and
    touches nothing else of the record (identity, password hash, sessions)
    nor any other record. *)
Theorem verifyEmail_marks_verified
    {B : Bcrypt} (env : Env) (token : string) (w : World) (i : nat) (user : IUser.t) :
  findByVerificationToken (now env) token w = (Ok (Some (i, user)), w) ->
  exists user' w',
    AuthService.verifyEmail env token w = (Ok (toResponse user'), w')
    /\ users w' !! i = Some user'
    /\ (forall j, j <> i -> users w' !! j = users w !! j)
    /\ mails w' = mails w
    /\ IUser.isEmailVerified user' = true
    /\ IUser.emailVerificationToken user' = None
    /\ IUser.emailVerificationExpires user' = None
    /\ IUser._id user' = IUser._id user
    /\ IUser.email user' = IUser.email user
    /\ IUser.password user' = IUser.password user
    /\ IUser.refreshTokens user' = IUser.refreshTokens user.
Proof.
  intros Hf. exists (afterVerification env user). eexists.
  split; [exact (verifyEmail_found env token w i user Hf)|].
  apply findByVerificationToken_inv in Hf. cbn.
  split; [eapply found_insert_lookup, Hf|].
  split; [intros j Hj; now apply list_lookup_insert_ne|].
  repeat split.
Qed.

Lemma verifyEmail_marks_verified_witness :
  exists user' w',
    AuthService.verifyEmail (B := Reference.bcrypt) Sample.env "a11ce" Fixtures.world
    = (Ok (toResponse user'), w')
    /\ users w' !! 1%nat = Some user'
    /\ (forall j, j <> 1%nat -> users w' !! j = users Fixtures.world !! j)
    /\ mails w' = mails Fixtures.world
    /\ IUser.isEmailVerified user' = true
    /\ IUser.emailVerificationToken user' = None
    /\ IUser.emailVerificationExpires user' = None
    /\ IUser._id user' = "u0"%string
    /\ IUser.email user' = "alice@example.com"%string
    /\ IUser.password user' = IUser.password Fixtures.alice
    /\ IUser.refreshTokens user' = [].
Proof.
  apply (verifyEmail_marks_verified (B := Reference.bcrypt)
           Sample.env "a11ce" Fixtures.world 1%nat Fixtures.alice).
  vm_compute; reflexivity.
Defined.

(** X2. A verification token works once: after [verifyEmail] has accepted
    it for the only record that carried it, a second [verifyEmail] with
    the same token, at whatever time, throws
    "Invalid or expired verification token" and changes nothing. *)
Theorem verifyEmail_one_shot
    {B : Bcrypt} (env env2 : Env) (token : string) (w : World) (i : nat) (user : IUser.t) :
  findByVerificationToken (now env) token w = (Ok (Some (i, user)), w) ->
  (forall j u, users w !! j = Some u -> j <> i ->
               IUser.emailVerificationToken u <> Some token) ->
  let w1 := snd (AuthService.verifyEmail env token w) in
  AuthService.verifyEmail env2 token w1
  = (Throw (ValidationError "Invalid or expired verification token"), w1).
Proof.
  intros Hf Hothers w1. subst w1.
  rewrite (verifyEmail_found env token w i user Hf). cbn [snd].
  apply verifyEmail_not_found. unfold findByVerificationToken, findOne. cbn.
  f_equal. f_equal. apply list_find_None, Forall_lookup. intros j u Hj [Htok _].
  destruct (decide (j = i)) as [->|Hne].
  - apply findByVerificationToken_inv in Hf.
    rewrite (found_insert_lookup _ _ _ _ _ Hf) in Hj. injection Hj as <-.
    discriminate.
  - rewrite list_lookup_insert_ne in Hj by congruence.
    exact (Hothers j u Hj Hne Htok).
Qed.

Lemma verifyEmail_one_shot_witness :
  let w1 := snd (AuthService.verifyEmail (B := Reference.bcrypt)
                   Sample.env "a11ce" Fixtures.world) in
  AuthService.verifyEmail (B := Reference.bcrypt) Sample.envNextSecond "a11ce" w1
  = (Throw (ValidationError "Invalid or expired verification token"), w1).
Proof.
  apply (verifyEmail_one_shot (B := Reference.bcrypt) Sample.env Sample.envNextSecond
           "a11ce" Fixtures.world 1%nat Fixtures.alice).
  - vm_compute; reflexivity.
  - intros j u Hj Hne.
    destruct j as [|[|j]]; [|congruence|]; vm_compute in Hj.
    + injection Hj as <-. vm_compute. discriminate.
    + discriminate.
Defined.

(** X3. [verifyEmail] refuses a token that no record carries with an expiry
    later than now: an unknown token, and also the right token at the
    instant of its expiry or after it.  It throws
    "Invalid or expired verification token" and changes nothing. *)
Theorem verifyEmail_refuses_expired
    {B : Bcrypt} (env : Env) (token : string) (w : World) :
  (forall u expires,
     In u (users w) ->
     IUser.emailVerificationToken u = Some token ->
     IUser.emailVerificationExpires u = Some expires ->
     expires <= now env) ->
  AuthService.verifyEmail env token w
  = (Throw (ValidationError "Invalid or expired verification token"), w).
Proof.
  intros Hexpired. apply verifyEmail_not_found.
  unfold findByVerificationToken, findOne. f_equal. f_equal.
  apply list_find_None, Forall_forall. intros u Hu [Htok Hlater].
  destruct (IUser.emailVerificationExpires u) as [expires|] eqn:He; [|exact Hlater].
  specialize (Hexpired u expires Hu Htok He). cbn in Hlater. lia.
Qed.

Lemma verifyEmail_refuses_expired_witness :
  AuthService.verifyEmail (B := Reference.bcrypt)
    (mkEnv 9000000 "c0ffee" "salt1" "u9" true) "a11ce" Fixtures.world
  = (Throw (ValidationError "Invalid or expired verification token"), Fixtures.world).
Proof.
  apply (verifyEmail_refuses_expired (B := Reference.bcrypt)
           (mkEnv 9000000 "c0ffee" "salt1" "u9" true) "a11ce" Fixtures.world).
  intros u expires Hu Htok He.
  cbn in Hu. destruct Hu as [<-|[<-|[]]].
  - vm_compute in Htok. discriminate.
  - vm_compute in He. injection He as <-. vm_compute. discriminate.
Defined.

(** ** Registration, look-up by e-mail, and the first verification *)

(** The document that a successful [registerUser] inserts. *)
Definition registered {B : Bcrypt} (env : Env) (userData : IUserRegistration.t) : IUser.t :=
  IUser.set_timestamps (now env) (now env)
    (preSave env true
       (newUser env userData (randomHex env) (now env + 24 * 60 * 60 * 1000))).

Lemma duplicateKey_false (u : IUser.t) (docs : list IUser.t) :
  duplicateKey u docs = false ->
  Forall (fun v => IUser._id v <> IUser._id u /\ IUser.email v <> IUser.email u) docs.
Proof.
  unfold duplicateKey. induction docs as [|v docs IH]; intros Hd; [constructor|].
  cbn in Hd. apply orb_false_elim in Hd as [Hv Hrest].
  apply orb_false_elim in Hv as [Hid Hemail].
  apply String.eqb_neq in Hid, Hemail. constructor; auto.
Qed.

Lemma find_appended (P : IUser.t -> Prop) `{!forall u, Decision (P u)}
    (docs : list IUser.t) (u : IUser.t) :
  Forall (fun v => ~ P v) docs -> P u ->
  list_find P (docs ++ [u]) = Some (length docs, u).
Proof.
  intros Hnone Hu. apply list_find_Some. split; [now apply list_lookup_middle|].
  split; [exact Hu|]. intros j v Hj Hlt.
  rewrite lookup_app_l in Hj by exact Hlt.
  rewrite Forall_lookup in Hnone. exact (Hnone j v Hj).
Qed.

(** What a successful [registerUser] has checked and written. *)
Lemma registerUser_Ok_inv {B : Bcrypt} env userData w response w' :
  AuthService.registerUser env userData w = (Ok response, w') ->
  response = toResponse (registered env userData)
  /\ w' = mkWorld (users w ++ [registered env userData])
                  (mails w ++ [verificationMail env (registered env userData)])
  /\ duplicateKey (registered env userData) (users w) = false.
Proof.
  intros Hrun. run_action.
  destruct (list_find _ (users w)) as [[i found]|] eqn:Hf; [discriminate|].
  unfold saveNew in Hrun. destruct (validateNew _); [|discriminate].
  fold (registered env userData) in Hrun.
  destruct (duplicateKey _ _) eqn:Hd; [discriminate|].
  cbn in Hrun. injection Hrun as <- <-. auto.
Qed.

Lemma registered_email {B : Bcrypt} env userData :
  IUser.email (registered env userData)
  = Js.trim (Js.toLowerCase (IUserRegistration.email userData)).
Proof. reflexivity. Qed.

(** A spelling that lower-cases to a stored address is cast to that
    address: the setters change nothing of what they have made. *)
Lemma castEmail_stored (lookup email : string) :
  Js.toLowerCase lookup = castEmail email ->
  castEmail (Js.toLowerCase lookup) = castEmail email.
Proof.
  intros Hsame. unfold castEmail in *.
  now rewrite toLowerCase_idem, Hsame, trim_idem.
Qed.

Lemma findByEmail_registered {B : Bcrypt} env userData w response w' lookup :
  AuthService.registerUser env userData w = (Ok response, w') ->
  Js.toLowerCase lookup = Js.trim (Js.toLowerCase (IUserRegistration.email userData)) ->
  list_find (fun u => IUser.email u = castEmail (Js.toLowerCase lookup)) (users w')
  = Some (length (users w), registered env userData)
  /\ response = toResponse (registered env userData).
Proof.
  intros Hrun Hsame. apply registerUser_Ok_inv in Hrun as (-> & -> & Hd).
  apply castEmail_stored in Hsame.
  split; [|reflexivity]. cbn [users].
  apply find_appended; [|now rewrite Hsame].
  apply duplicateKey_false in Hd. eapply Forall_impl; [|exact Hd].
  intros v [_ Hne]. cbn beta. rewrite Hsame. exact Hne.
Qed.

(** X4. After a successful registration, [findByEmail] finds the new
    record under every spelling that lower-cases to the stored address
    (the address as registered, lower-cased and trimmed), whatever the
    case of its letters. *)
Theorem findByEmail_ignores_case
    {B : Bcrypt} (env : Env) (userData : IUserRegistration.t) (w w' : World)
    (response : IUserResponse.t) (lookup : string) :
  AuthService.registerUser env userData w = (Ok response, w') ->
  Js.toLowerCase lookup = Js.trim (Js.toLowerCase (IUserRegistration.email userData)) ->
  exists i user,
    findByEmail lookup w' = (Ok (Some (i, user)), w')
    /\ toResponse user = response
    /\ IUser.email user = Js.toLowerCase lookup.
Proof.
  intros Hrun Hsame.
  destruct (findByEmail_registered env userData w response w' lookup Hrun Hsame)
    as [Hf ->].
  exists (length (users w)), (registered env userData).
  unfold findByEmail, findOne. rewrite Hf.
  repeat split. now rewrite Hsame.
Qed.

Lemma findByEmail_ignores_case_witness :
  exists i user,
    findByEmail "EVE@example.COM"
      (snd (AuthService.registerUser (B := Reference.bcrypt)
              Sample.env Fixtures.eveRegistration Fixtures.world))
    = (Ok (Some (i, user)),
       snd (AuthService.registerUser (B := Reference.bcrypt)
              Sample.env Fixtures.eveRegistration Fixtures.world))
    /\ IUserResponse.id (toResponse user) = "u2"%string
    /\ IUser.email user = "eve@example.com"%string.
Proof.
  destruct (findByEmail_ignores_case (B := Reference.bcrypt)
              Sample.env Fixtures.eveRegistration Fixtures.world
              (snd (AuthService.registerUser (B := Reference.bcrypt)
                      Sample.env Fixtures.eveRegistration Fixtures.world))
              (toResponse (registered (B := Reference.bcrypt)
                             Sample.env Fixtures.eveRegistration))
              "EVE@example.COM")
    as (i & user & Hf & Hr & He).
  - vm_compute; reflexivity.
  - vm_compute; reflexivity.
  - exists i, user. split; [exact Hf|]. split.
    + rewrite Hr. reflexivity.
    + rewrite He. reflexivity.
Defined.

(** X5. The duplicate check of [registerUser] ignores the case of letters:
    after a successful registration, a registration whose e-mail
    lower-cases to the stored address throws
    "User with this email already exists" and changes nothing. *)
Theorem registerUser_rejects_duplicate
    {B : Bcrypt} (env env2 : Env) (first second : IUserRegistration.t)
    (w w' : World) (response : IUserResponse.t) :
  AuthService.registerUser env first w = (Ok response, w') ->
  Js.toLowerCase (IUserRegistration.email second)
  = Js.trim (Js.toLowerCase (IUserRegistration.email first)) ->
  AuthService.registerUser env2 second w'
  = (Throw (ConflictError "User with this email already exists"), w').
Proof.
  intros Hrun Hsame.
  destruct (findByEmail_registered env first w response w' _ Hrun Hsame) as [Hf _].
  run_action. now rewrite Hf.
Qed.

Lemma registerUser_rejects_duplicate_witness :
  let w' := snd (AuthService.registerUser (B := Reference.bcrypt)
                   Sample.env Fixtures.eveRegistration Fixtures.world) in
  AuthService.registerUser (B := Reference.bcrypt) Sample.envNextSecond
    (IUserRegistration.mk "eve@EXAMPLE.com" "Another99!" "Eva" "Adams") w'
  = (Throw (ConflictError "User with this email already exists"), w').
Proof.
  apply (registerUser_rejects_duplicate (B := Reference.bcrypt)
           Sample.env Sample.envNextSecond Fixtures.eveRegistration
           (IUserRegistration.mk "eve@EXAMPLE.com" "Another99!" "Eva" "Adams")
           Fixtures.world _
           (toResponse (registered (B := Reference.bcrypt)
                          Sample.env Fixtures.eveRegistration)));
    vm_compute; reflexivity.
Defined.

(** X6. The token mailed at registration verifies the new account: when
    no older record carries the same token, [verifyEmail] with the token
    drawn by [registerUser], called less than 24 hours after the
    registration, returns the profile of the new user with
    [isEmailVerified = true]. *)
Theorem register_then_verifyEmail
    {B : Bcrypt} (env env2 : Env) (userData : IUserRegistration.t)
    (w w' : World) (response : IUserResponse.t) :
  AuthService.registerUser env userData w = (Ok response, w') ->
  now env2 < now env + 24 * 60 * 60 * 1000 ->
  (forall u, In u (users w) -> IUser.emailVerificationToken u <> Some (randomHex env)) ->
  exists response' w2,
    AuthService.verifyEmail env2 (randomHex env) w' = (Ok response', w2)
    /\ IUserResponse.id response' = IUserResponse.id response
    /\ IUserResponse.email response' = IUserResponse.email response
    /\ IUserResponse.isEmailVerified response = false
    /\ IUserResponse.isEmailVerified response' = true.
Proof.
  intros Hrun Hsoon Hfresh.
  apply registerUser_Ok_inv in Hrun as (-> & -> & _).
  do 2 eexists. split.
  - apply verifyEmail_found. unfold findByVerificationToken, findOne. cbn [users].
    rewrite (find_appended _ (users w) (registered env userData)); [reflexivity| |].
    + apply Forall_forall. intros u Hu [Htok _]. exact (Hfresh u Hu Htok).
    + split; [reflexivity | exact Hsoon].
  - repeat split.
Qed.

Lemma register_then_verifyEmail_witness :
  exists response' w2,
    AuthService.verifyEmail (B := Reference.bcrypt) Sample.envNextSecond "c0ffee"
      (snd (AuthService.registerUser (B := Reference.bcrypt)
              Sample.env Fixtures.eveRegistration Fixtures.world))
    = (Ok response', w2)
    /\ IUserResponse.id response' = "u2"%string
    /\ IUserResponse.email response' = "eve@example.com"%string
    /\ IUserResponse.isEmailVerified response' = true.
Proof.
  destruct (register_then_verifyEmail (B := Reference.bcrypt)
              Sample.env Sample.envNextSecond Fixtures.eveRegistration Fixtures.world
              (snd (AuthService.registerUser (B := Reference.bcrypt)
                      Sample.env Fixtures.eveRegistration Fixtures.world))
              (toResponse (registered (B := Reference.bcrypt)
                             Sample.env Fixtures.eveRegistration)))
    as (response' & w2 & Hv & Hid & Hemail & _ & Hflag).
  - vm_compute; reflexivity.
  - vm_compute; reflexivity.
  - intros u Hu. cbn in Hu. destruct Hu as [<-|[<-|[]]]; vm_compute; discriminate.
  - exists response', w2. split; [exact Hv|]. split; [|split].
    + rewrite Hid. reflexivity.
    + rewrite Hemail. reflexivity.
    + exact Hflag.
Defined.

(** ** Resending the verification mail *)

(** The document that [resendVerificationEmail] writes back. *)
Definition withNewVerification (env : Env) (user : IUser.t) : IUser.t :=
  IUser.set_timestamps (IUser.createdAt user) (now env)
    (IUser.set_emailVerification (Some (randomHex env))
       (Some (now env + 24 * 60 * 60 * 1000)) user).



(** X8. For an unverified record [resendVerificationEmail] replaces the
    verification token by the one it draws, with an expiry 24 hours from
    now, and mails that token.  Unlike at registration, a rejected mail is
    an error, "Failed to resend verification email"; the new token has
    been saved all the same, and the old one no longer matches the
    record. *)
Theorem resendVerificationEmail_replaces_token
    {B : Bcrypt} (env : Env) (email : string) (w : World) (i : nat) (user : IUser.t) :
  findByEmail email w = (Ok (Some (i, user)), w) ->
  IUser.isEmailVerified user = false ->
  exists user' w',
    AuthService.resendVerificationEmail env email w
    = (if mailUp env then Ok tt
       else Throw (Error "Failed to resend verification email"), w')
    /\ users w' !! i = Some user'
    /\ (forall j, j <> i -> users w' !! j = users w !! j)
    /\ IUser.emailVerificationToken user' = Some (randomHex env)
    /\ IUser.emailVerificationExpires user' = Some (now env + 86400000)
    /\ IUser.isEmailVerified user' = false
    /\ mails w' = mails w ++ [verificationMail env user].
Proof.
  intros Hf Hv. apply findByEmail_inv in Hf.
  exists (withNewVerification env user). eexists. split.
  - run_action. rewrite Hf, Hv. unfold save, preSave. cbn.
    destruct (mailUp env); reflexivity.
  - cbn. split; [eapply found_insert_lookup, Hf|].
    split; [intros j Hj; now apply list_lookup_insert_ne|].
    repeat split. exact Hv.
Qed.

Lemma resendVerificationEmail_replaces_token_witness :
  exists user' w',
    AuthService.resendVerificationEmail (B := Reference.bcrypt)
      Sample.envMailDown "alice@example.com" Fixtures.world
    = (Throw (Error "Failed to resend verification email"), w')
    /\ users w' !! 1%nat = Some user'
    /\ IUser.emailVerificationToken user' = Some "c0ffee"%string
    /\ IUser.emailVerificationExpires user' = Some 91400000.
Proof.
  destruct (resendVerificationEmail_replaces_token (B := Reference.bcrypt)
              Sample.envMailDown "alice@example.com" Fixtures.world 1%nat Fixtures.alice)
    as (user' & w' & Hrun & Hi & _ & Htok & Hexp & _).
  - vm_compute; reflexivity.
  - reflexivity.
  - exists user', w'. repeat split; assumption.
Defined.

(** ** Logging in and out *)

(** The document that a successful [loginUser] writes back. *)
Definition withSession (env : Env) (token : string) (user : IUser.t) : IUser.t :=
  IUser.set_timestamps (IUser.createdAt user) (now env) (addRefreshToken token user).

Lemma loginUser_accepted {J : JsonWebToken} {B : Bcrypt} config env loginData w i user tokens :
  findByEmail (IUserLogin.email loginData) w = (Ok (Some (i, user)), w) ->
  comparePassword user (IUserLogin.password loginData) = true ->
  generateTokens config (IUser._id user) (IUser.email user) (now env) = Ok tokens ->
  AuthService.loginUser config env loginData w
  = (Ok (toResponse (withSession env (ITokenResponse.refreshToken tokens) user), tokens),
     mkWorld (<[i := withSession env (ITokenResponse.refreshToken tokens) user]> (users w))
             (mails w)).
Proof.
  intros Hf Hpw Hgen. apply findByEmail_inv in Hf.
  run_action. rewrite Hf, Hpw. cbn [negb]. now rewrite Hgen.
Qed.

(** X9. A login with the right password returns the profile and a token
    pair, and appends the refresh token of the pair to the sessions of the
    record: the sessions it already had are all kept, in their order, so
    that sessions add up from login to login.  Nothing else of the record
    changes. *)
Theorem loginUser_adds_session
    {J : JsonWebToken} {B : Bcrypt} (config : IConfig) (env : Env)
    (loginData : IUserLogin.t) (w : World) (i : nat) (user : IUser.t)
    (tokens : ITokenResponse.t) :
  findByEmail (IUserLogin.email loginData) w = (Ok (Some (i, user)), w) ->
  comparePassword user (IUserLogin.password loginData) = true ->
  generateTokens config (IUser._id user) (IUser.email user) (now env) = Ok tokens ->
  exists user' w',
    AuthService.loginUser config env loginData w = (Ok (toResponse user', tokens), w')
    /\ users w' !! i = Some user'
    /\ (forall j, j <> i -> users w' !! j = users w !! j)
    /\ IUser.refreshTokens user'
       = IUser.refreshTokens user ++ [ITokenResponse.refreshToken tokens]
    /\ IUserResponse.id (toResponse user') = IUser._id user
    /\ IUser.password user' = IUser.password user
    /\ IUser.isEmailVerified user' = IUser.isEmailVerified user.
Proof.
  intros Hf Hpw Hgen.
  exists (withSession env (ITokenResponse.refreshToken tokens) user). eexists.
  split; [exact (loginUser_accepted config env loginData w i user tokens Hf Hpw Hgen)|].
  apply findByEmail_inv in Hf. cbn.
  split; [eapply found_insert_lookup, Hf|].
  split; [intros j Hj; now apply list_lookup_insert_ne|].
  repeat split.
Qed.

Lemma loginUser_adds_session_witness :
  exists user' w',
    AuthService.loginUser (J := Reference.jwt) (B := Reference.bcrypt)
      defaultConfig Sample.envNextSecond
      (IUserLogin.mk "bob@example.com" "Secret123!") Sample.world
    = (Ok (toResponse user', Scenario.newTokens), w')
    /\ users w' !! 0%nat = Some user'
    /\ IUser.refreshTokens user'
       = ["session-1"; "session-2"; ITokenResponse.refreshToken Scenario.newTokens]%string.
Proof.
  destruct (loginUser_adds_session (J := Reference.jwt) (B := Reference.bcrypt)
              defaultConfig Sample.envNextSecond
              (IUserLogin.mk "bob@example.com" "Secret123!") Sample.world 0%nat Sample.bob
              Scenario.newTokens)
    as (user' & w' & Hrun & Hi & _ & Htok & _).
  - vm_compute; reflexivity.
  - vm_compute; reflexivity.
  - vm_compute; reflexivity.
  - exists user', w'. split; [exact Hrun|]. split; [exact Hi | exact Htok].
Defined.

(** The document that [logout] writes back. *)
Definition withoutSession (env : Env) (token : string) (user : IUser.t) : IUser.t :=
  IUser.set_timestamps (IUser.createdAt user) (now env) (removeRefreshToken token user).

Lemma findById_inv userId w r :
  findById userId w = (Ok r, w) ->
  list_find (fun u => IUser._id u = userId) (users w) = r.
Proof. unfold findById, findOne. congruence. Qed.

Lemma logout_found {B : Bcrypt} env userId token w i user :
  findById userId w = (Ok (Some (i, user)), w) ->
  AuthService.logout env userId token w
  = (Ok tt, mkWorld (<[i := withoutSession env token user]> (users w)) (mails w)).
Proof.
  intros Hf. apply findById_inv in Hf. run_action. now rewrite Hf.
Qed.

Lemma hasRefreshToken_remove_other (removed other : string) (tokens : list string) :
  other <> removed ->
  existsb (String.eqb other)
    (List.filter (fun token => negb (String.eqb token removed)) tokens)
  = existsb (String.eqb other) tokens.
Proof.
  intros Hne. induction tokens as [|t ts IH]; [reflexivity|]. cbn.
  destruct (String.eqb t removed) eqn:E; cbn; rewrite IH; [|reflexivity].
  apply String.eqb_eq in E. subst t.
  apply String.eqb_neq in Hne. now rewrite Hne.
Qed.

(** X10. [logout] asks nothing of the token it is given: for a user that
    exists it returns normally whether or not the token is in the set (or
    is a token at all), and afterwards the token is out of the set while
    every other token of the user, and every other record, is as before.
    For an ObjectId of no record it throws [NotFoundError "User not found"]
    and writes nothing. *)
Theorem logout_removes_that_token_only
    {B : Bcrypt} (env : Env) (userId token : string) (w : World) :
  (isObjectId userId = true ->
   findById userId w = (Ok None, w) ->
   AuthService.logout env userId token w = (Throw (NotFoundError "User not found"), w))
  /\ (forall i user,
        findById userId w = (Ok (Some (i, user)), w) ->
        exists user' w',
          AuthService.logout env userId token w = (Ok tt, w')
          /\ users w' !! i = Some user'
          /\ (forall j, j <> i -> users w' !! j = users w !! j)
          /\ hasRefreshToken token user' = false
          /\ (forall other, other <> token ->
                            hasRefreshToken other user' = hasRefreshToken other user)).
Proof.
  split.
  - intros _ Hf. apply findById_inv in Hf. run_action. now rewrite Hf.
  - intros i user Hf. exists (withoutSession env token user). eexists.
    split; [exact (logout_found env userId token w i user Hf)|].
    apply findById_inv in Hf. cbn.
    split; [eapply found_insert_lookup, Hf|].
    split; [intros j Hj; now apply list_lookup_insert_ne|].
    split; [apply removed_absent|].
    intros other Hne. now apply hasRefreshToken_remove_other.
Qed.

Lemma logout_removes_that_token_only_witness :
  AuthService.logout (B := Reference.bcrypt) Sample.env Members.absent "session-1"
    Members.world
  = (Throw (NotFoundError "User not found"), Members.world)
  /\ exists user' w',
       AuthService.logout (B := Reference.bcrypt) Sample.env
         "65f0a1b2c3d4e5f6a7b8c9d0" "session-1" Members.world
       = (Ok tt, w')
       /\ users w' !! 0%nat = Some user'
       /\ hasRefreshToken "session-1" user' = false
       /\ hasRefreshToken "session-2" user' = true.
Proof.
  split.
  - apply (proj1 (logout_removes_that_token_only (B := Reference.bcrypt)
                    Sample.env Members.absent "session-1" Members.world)).
    + vm_compute; reflexivity.
    + vm_compute; reflexivity.
  - destruct (proj2 (logout_removes_that_token_only (B := Reference.bcrypt)
                       Sample.env "65f0a1b2c3d4e5f6a7b8c9d0" "session-1" Members.world)
                0%nat Members.carol)
      as (user' & w' & Hrun & Hi & _ & Hgone & Hkept).
    + vm_compute; reflexivity.
    + exists user', w'. split; [exact Hrun|]. split; [exact Hi|]. split; [exact Hgone|].
      rewrite Hkept by discriminate. reflexivity.
Defined.

Lemma filter_twice (removed : string) (tokens : list string) :
  List.filter (fun token => negb (String.eqb token removed))
    (List.filter (fun token => negb (String.eqb token removed)) tokens)
  = List.filter (fun token => negb (String.eqb token removed)) tokens.
Proof.
  induction tokens as [|t ts IH]; [reflexivity|]. cbn.
  destruct (negb (String.eqb t removed)) eqn:E; cbn; [rewrite E, IH|]; auto.
Qed.

(** X11. [logout] is idempotent: a second [logout] of the same token for
    the same user returns normally again and leaves the sessions of every
    record as the first one left them. *)
Theorem logout_idempotent
    {B : Bcrypt} (env env2 : Env) (userId token : string) (w : World)
    (i : nat) (user : IUser.t) :
  findById userId w = (Ok (Some (i, user)), w) ->
  let w1 := snd (AuthService.logout env userId token w) in
  exists w2,
    AuthService.logout env2 userId token w1 = (Ok tt, w2)
    /\ length (users w2) = length (users w1)
    /\ forall j u1,
         users w1 !! j = Some u1 ->
         exists u2, users w2 !! j = Some u2
                    /\ IUser.refreshTokens u2 = IUser.refreshTokens u1.
Proof.
  intros Hf w1. subst w1.
  rewrite (logout_found env userId token w i user Hf). cbn [snd].
  pose proof (findById_inv _ _ _ Hf) as Hfind.
  assert (Hf1 : findById userId
                  (mkWorld (<[i := withoutSession env token user]> (users w)) (mails w))
                = (Ok (Some (i, withoutSession env token user)),
                   mkWorld (<[i := withoutSession env token user]> (users w)) (mails w))).
  { unfold findById, findOne. cbn [users].
    rewrite (find_after_update _ _ i user (withoutSession env token user) Hfind);
      [reflexivity|].
    apply found_lookup in Hfind as [_ Hid]. exact Hid. }
  eexists. split; [exact (logout_found env2 userId token _ i _ Hf1)|].
  cbn [users]. split; [now rewrite !length_insert|].
  intros j u1 Hj. destruct (decide (j = i)) as [->|Hne].
  - rewrite (found_insert_lookup _ _ _ _ _ Hfind) in Hj. injection Hj as <-.
    eexists. split.
    + apply list_lookup_insert_eq. rewrite length_insert.
      apply found_lookup in Hfind as [Hi _]. now apply lookup_lt_Some in Hi.
    + cbn. apply filter_twice.
  - exists u1. split; [|reflexivity].
    rewrite list_lookup_insert_ne by congruence. exact Hj.
Qed.

Lemma logout_idempotent_witness :
  let w1 := snd (AuthService.logout (B := Reference.bcrypt)
                   Sample.env "u1" "session-1" Sample.world) in
  exists w2,
    AuthService.logout (B := Reference.bcrypt) Sample.envNextSecond "u1" "session-1" w1
    = (Ok tt, w2)
    /\ length (users w2) = length (users w1)
    /\ forall j u1,
         users w1 !! j = Some u1 ->
         exists u2, users w2 !! j = Some u2
                    /\ IUser.refreshTokens u2 = IUser.refreshTokens u1.
Proof.
  apply (logout_idempotent (B := Reference.bcrypt) Sample.env Sample.envNextSecond
           "u1" "session-1" Sample.world 0%nat Sample.bob).
  vm_compute; reflexivity.
Defined.

(** ** Revocation *)

Section Revocation.

Context {J : JsonWebToken} {S : JsonWebTokenSpec J} {B : Bcrypt}.
Variable config : IConfig.

Lemma refused_when_retired env token decoded w :
  verifyRefreshToken config token (now env) = Ok decoded ->
  retired token (IJWTPayload.userId decoded) w ->
  AuthService.refreshToken config env token w = (Throw InvalidRefreshToken, w).
Proof.
  intros Hv (i & user & Hf & Hh). eapply refreshToken_not_member; eassumption.
Qed.

(** X12. A token handed to [logout] is revoked for good: after the logout
    of its user with it, and after any further calls of the service, a
    [refreshToken] call with that token, still valid as a token, throws
    "Invalid refresh token" and changes nothing (no later call being made
    in the clock second in which the token was issued). *)
Theorem logout_revokes
    (env env2 : Env) (trace : list (Env * Call)) (token : string)
    (decoded : IJWTPayload.t) (w : World) (i : nat) (user : IUser.t) :
  verifyRefreshToken config token (now env2) = Ok decoded ->
  findById (IJWTPayload.userId decoded) w = (Ok (Some (i, user)), w) ->
  forallb (fun call => negb (issuedInSecondOf (fst call) token)) trace = true ->
  let w2 := run config trace
              (snd (AuthService.logout env (IJWTPayload.userId decoded) token w)) in
  AuthService.refreshToken config env2 token w2 = (Throw InvalidRefreshToken, w2).
Proof.
  intros Hv Hf Hlater w2. subst w2.
  rewrite (logout_found env _ token w i user Hf). cbn [snd].
  apply findById_inv in Hf.
  apply (refused_when_retired env2 token decoded); [exact Hv|].
  apply (run_keeps_retired config (S := S)); [exact Hlater|].
  exists i, (withoutSession env token user). split.
  - cbn [users]. apply (find_after_update _ _ i user); [exact Hf|].
    apply found_lookup in Hf as [_ Hid]. exact Hid.
  - apply removed_absent.
Qed.

(** X13. [logoutAllDevices] revokes every session of the user: after it,
    and after any further calls of the service, a [refreshToken] call
    with any token that names the user, still valid as a token, throws
    "Invalid refresh token" and changes nothing (no later call being made
    in the clock second in which that token was issued).  For an ObjectId
    of no record [logoutAllDevices] throws [NotFoundError "User not found"]
    and writes nothing. *)
Theorem logoutAllDevices_revokes_every_session
    (env env2 : Env) (trace : list (Env * Call)) (userId : string) (w : World) :
  (isObjectId userId = true ->
   findById userId w = (Ok None, w) ->
   AuthService.logoutAllDevices env userId w
   = (Throw (NotFoundError "User not found"), w))
  /\ (forall i user token decoded,
        findById userId w = (Ok (Some (i, user)), w) ->
        verifyRefreshToken config token (now env2) = Ok decoded ->
        IJWTPayload.userId decoded = userId ->
        forallb (fun call => negb (issuedInSecondOf (fst call) token)) trace = true ->
        let w2 := run config trace (snd (AuthService.logoutAllDevices env userId w)) in
        AuthService.refreshToken config env2 token w2 = (Throw InvalidRefreshToken, w2)).
Proof.
  split.
  - intros _ Hf. apply findById_inv in Hf. run_action. now rewrite Hf.
  - intros i user token decoded Hf Hv Hid Hlater w2. subst w2 userId.
    apply findById_inv in Hf.
    assert (Hrun : AuthService.logoutAllDevices env (IJWTPayload.userId decoded) w
                   = (Ok tt,
                      mkWorld (<[i := IUser.set_timestamps (IUser.createdAt user) (now env)
                                        (clearRefreshTokens user)]> (users w)) (mails w))).
    { run_action. now rewrite Hf. }
    rewrite Hrun. cbn [snd].
    apply (refused_when_retired env2 token decoded); [exact Hv|].
    apply (run_keeps_retired config (S := S)); [exact Hlater|].
    eexists i, _. split.
    + cbn [users]. apply (find_after_update _ _ i user); [exact Hf|].
      apply found_lookup in Hf as [_ Hid]. exact Hid.
    + reflexivity.
Qed.

End Revocation.

Lemma logout_revokes_witness :
  let w2 :=
    run (J := Reference.jwt) (B := Reference.bcrypt) defaultConfig
      [(Sample.envNextSecond, Login (IUserLogin.mk "bob@example.com" "Secret123!"));
       (Sample.envNextSecond, RequestPasswordReset "bob@example.com")]
      (snd (AuthService.logout (B := Reference.bcrypt)
              Sample.envNextSecond "u1" Scenario.session Scenario.loggedIn)) in
  AuthService.refreshToken (J := Reference.jwt) (B := Reference.bcrypt)
    defaultConfig Sample.envNextSecond Scenario.session w2
  = (Throw InvalidRefreshToken, w2).
Proof.
  assert (Hdecoded :
    verifyRefreshToken (J := Reference.jwt) defaultConfig Scenario.session
      (now Sample.envNextSecond)
    = Ok (IJWTPayload.mk "u1" "bob@example.com" "refresh" (Some 5000) (Some 609800)))
    by (vm_compute; reflexivity).
  generalize (logout_revokes (J := Reference.jwt) (S := Reference.jwt_spec)
                (B := Reference.bcrypt) defaultConfig
                Sample.envNextSecond Sample.envNextSecond
                [(Sample.envNextSecond, Login (IUserLogin.mk "bob@example.com" "Secret123!"));
                 (Sample.envNextSecond, RequestPasswordReset "bob@example.com")]
                Scenario.session _ Scenario.loggedIn 0%nat
                (withSession Sample.env Scenario.session Sample.bob)
                Hdecoded eq_refl eq_refl).
  vm_compute. exact (fun H => H).
Defined.

Lemma logoutAllDevices_revokes_every_session_witness :
  AuthService.logoutAllDevices (B := Reference.bcrypt) Sample.env Members.absent
    Members.loggedIn
  = (Throw (NotFoundError "User not found"), Members.loggedIn)
  /\ let w2 :=
       run (J := Reference.jwt) (B := Reference.bcrypt) defaultConfig
         [(Sample.envNextSecond, RequestPasswordReset "carol@example.com")]
         (snd (AuthService.logoutAllDevices (B := Reference.bcrypt)
                 Sample.envNextSecond "65f0a1b2c3d4e5f6a7b8c9d0" Members.loggedIn)) in
     AuthService.refreshToken (J := Reference.jwt) (B := Reference.bcrypt)
       defaultConfig Sample.envNextSecond Members.session w2
     = (Throw InvalidRefreshToken, w2).
Proof.
  split.
  - apply (proj1 (logoutAllDevices_revokes_every_session (J := Reference.jwt)
                    (S := Reference.jwt_spec) (B := Reference.bcrypt) defaultConfig
                    Sample.env Sample.env [] Members.absent Members.loggedIn)).
    + vm_compute; reflexivity.
    + vm_compute; reflexivity.
  - assert (Hdecoded :
      verifyRefreshToken (J := Reference.jwt) defaultConfig Members.session
        (now Sample.envNextSecond)
      = Ok (IJWTPayload.mk "65f0a1b2c3d4e5f6a7b8c9d0" "carol@example.com" "refresh"
              (Some 5000) (Some 609800)))
      by (vm_compute; reflexivity).
    generalize (proj2 (logoutAllDevices_revokes_every_session (J := Reference.jwt)
                         (S := Reference.jwt_spec) (B := Reference.bcrypt) defaultConfig
                         Sample.envNextSecond Sample.envNextSecond
                         [(Sample.envNextSecond, RequestPasswordReset "carol@example.com")]
                         "65f0a1b2c3d4e5f6a7b8c9d0" Members.loggedIn)
                  0%nat (withSession Sample.env Members.session Members.carol)
                  Members.session _ eq_refl Hdecoded eq_refl eq_refl).
    vm_compute. exact (fun H => H).
Defined.

(** ** What a failing call leaves behind, and what it throws *)

Definition thrown {A : Type} (r : Result A * World) : option Exn :=
  match fst r with
  | Ok _ => None
  | Throw e => Some e
  end.

(** The calls that send a mail after they have saved. *)
Definition mailsAfterSaving (call : Call) : bool :=
  match call with
  | ResendVerification _ | RequestPasswordReset _ => true
  | _ => false
  end.

(** The message of the plain [Error] that the [catch] of each operation
    throws for what it does not rethrow. *)
Definition failedMessage (call : Call) : string :=
  match call with
  | Register _ => "Failed to register user"
  | Login _ => "Failed to login user"
  | VerifyEmail _ => "Failed to verify email"
  | ResendVerification _ => "Failed to resend verification email"
  | Refresh _ => "Failed to refresh token"
  | Logout _ _ => "Failed to logout"
  | LogoutAll _ => "Failed to logout from all devices"
  | GetProfile _ => "Failed to get user profile"
  | RequestPasswordReset _ => "Failed to request password reset"
  | ResetPassword _ _ => "Failed to reset password"
  end.

(** The classes of [utils/errors.ts] among the thrown values. *)
Definition isAppError (e : Exn) : bool :=
  match e with
  | ValidationError _ | AuthenticationError _ | NotFoundError _ | ConflictError _ => true
  | _ => false
  end.

Section Failures.

Context {J : JsonWebToken} {B : Bcrypt}.
Variable config : IConfig.

(** What a call throws, if it throws. *)
Definition failure (env : Env) (call : Call) (w : World) : option Exn :=
  match call with
  | Register userData => thrown (AuthService.registerUser env userData w)
  | Login loginData => thrown (AuthService.loginUser config env loginData w)
  | VerifyEmail token => thrown (AuthService.verifyEmail env token w)
  | ResendVerification email => thrown (AuthService.resendVerificationEmail env email w)
  | Refresh refreshToken => thrown (AuthService.refreshToken config env refreshToken w)
  | Logout userId refreshToken => thrown (AuthService.logout env userId refreshToken w)
  | LogoutAll userId => thrown (AuthService.logoutAllDevices env userId w)
  | GetProfile userId => thrown (AuthService.getUserProfile userId w)
  | RequestPasswordReset email => thrown (AuthService.requestPasswordReset env email w)
  | ResetPassword token newPassword =>
      thrown (AuthService.resetPassword env token newPassword w)
  end.

Ltac split_call :=
  repeat match goal with
    | |- context [list_find ?P ?l] => destruct (list_find P l) as [[? ?]|]; cbn
    | |- context [validateNew ?u] => destruct (validateNew u); cbn
    | |- context [validatePassword ?u] => destruct (validatePassword u); cbn
    | |- context [duplicateKey ?u ?l] => destruct (duplicateKey u l); cbn
    | |- context [comparePassword ?u ?p] => destruct (comparePassword u p); cbn
    | |- context [hasRefreshToken ?t ?u] => destruct (hasRefreshToken t u); cbn
    | |- context [generateTokens ?c ?a ?b ?n] => destruct (generateTokens c a b n); cbn
    | |- context [verifyRefreshToken ?c ?t ?n] => destruct (verifyRefreshToken c t n); cbn
    | |- context [IUser.isEmailVerified ?u] => destruct (IUser.isEmailVerified u); cbn
    | |- context [String.eqb ?a ?b] => destruct (String.eqb a b); cbn
    | |- context [mailUp ?e] => destruct (mailUp e); cbn
    end.

(** X14. A call that throws has written nothing, neither a document nor
    a mail, with two exceptions: [resendVerificationEmail] and
    [requestPasswordReset], which save before they send. *)
Theorem failed_call_writes_nothing (env : Env) (call : Call) (w : World) (e : Exn) :
  failure env call w = Some e ->
  mailsAfterSaving call = false ->
  step config env call w = w.
Proof.
  destruct call; cbn [mailsAfterSaving]; try discriminate;
    unfold failure, thrown, step; run_action; unfold saveNew, save;
    split_call; intros Hthrown _; try discriminate; try reflexivity;
    now destruct w.
Qed.

(** X15. No error of a library leaves the service: whatever a call throws
    is of one of the classes of [utils/errors.ts], or is the plain
    [Error] with the fixed message of the operation. *)
Theorem thrown_values_are_service_errors (env : Env) (call : Call) (w : World) (e : Exn) :
  failure env call w = Some e ->
  isAppError e = true \/ e = Error (failedMessage call).
Proof.
  destruct call; unfold failure, thrown; run_action; unfold saveNew, save;
    split_call; intros Hthrown; try discriminate;
    injection Hthrown as <-;
    repeat match goal with
      | x : Exn |- _ => destruct x
      end; cbn; auto.
Qed.

End Failures.

Lemma failed_call_writes_nothing_witness :
  step (J := Reference.jwt) (B := Reference.bcrypt) defaultConfig Sample.env
    (ResetPassword "feed" "short") Sample.world = Sample.world.
Proof.
  apply (failed_call_writes_nothing (J := Reference.jwt) (B := Reference.bcrypt)
           defaultConfig Sample.env (ResetPassword "feed" "short") Sample.world
           (Error "Failed to reset password")); vm_compute; reflexivity.
Defined.

Lemma thrown_values_are_service_errors_witness :
  isAppError (Error "Failed to register user") = true
  \/ Error "Failed to register user"
     = Error (failedMessage
                (Register (IUserRegistration.mk "eve@example.com" "short" "Eve" "Adams"))).
Proof.
  apply (thrown_values_are_service_errors (J := Reference.jwt) (B := Reference.bcrypt)
           defaultConfig Sample.env
           (Register (IUserRegistration.mk "eve@example.com" "short" "Eve" "Adams"))
           Sample.world).
  vm_compute; reflexivity.
Defined.

(** ** Unique ids and addresses *)

(** No two documents share an [_id], and no two share an e-mail address. *)
Definition uniqueKeys (w : World) : Prop :=
  NoDup (IUser._id <$> users w) /\ NoDup (IUser.email <$> users w).

(** How one call may change the collection, as far as the keys go. *)
Inductive rekeys (docs : list IUser.t) : list IUser.t -> Prop :=
| rekeys_same : rekeys docs docs
| rekeys_update i user user' :
    docs !! i = Some user ->
    IUser._id user' = IUser._id user ->
    IUser.email user' = IUser.email user ->
    rekeys docs (<[i := user']> docs)
| rekeys_insert user' :
    duplicateKey user' docs = false ->
    rekeys docs (docs ++ [user']).

Section Keys.

Context {J : JsonWebToken} {B : Bcrypt}.
Variable config : IConfig.

Lemma step_rekeys env call w : rekeys (users w) (users (step config env call w)).
Proof.
  destruct call; unfold step; run_action.
  - (* Register *)
    destruct (list_find _ (users w)) as [[i user]|] eqn:Hf; cbn; [apply rekeys_same|].
    unfold saveNew. destruct (validateNew _); cbn; [|apply rekeys_same].
    destruct (duplicateKey _ _) eqn:Hd; cbn; [apply rekeys_same|].
    apply rekeys_insert. exact Hd.
  - (* Login *)
    destruct (list_find _ (users w)) as [[i user]|] eqn:Hf; cbn; [|apply rekeys_same].
    destruct (comparePassword user _); cbn; [|apply rekeys_same].
    destruct (generateTokens config _ _ _); cbn; [|apply rekeys_same].
    found_at Hf. eapply rekeys_update; [eassumption|reflexivity..].
  - (* VerifyEmail *)
    destruct (list_find _ (users w)) as [[i user]|] eqn:Hf; cbn; [|apply rekeys_same].
    found_at Hf. eapply rekeys_update; [eassumption|reflexivity..].
  - (* ResendVerification *)
    destruct (list_find _ (users w)) as [[i user]|] eqn:Hf; cbn; [|apply rekeys_same].
    destruct (IUser.isEmailVerified user); cbn; [apply rekeys_same|].
    found_at Hf. destruct (mailUp env); cbn;
      (eapply rekeys_update; [eassumption|reflexivity..]).
  - (* Refresh *)
    destruct (verifyRefreshToken config _ _); cbn; [|apply rekeys_same].
    destruct (list_find _ (users w)) as [[i user]|] eqn:Hf; cbn; [|apply rekeys_same].
    destruct (hasRefreshToken _ user); cbn; [|apply rekeys_same].
    destruct (generateTokens config _ _ _); cbn; [|apply rekeys_same].
    found_at Hf. eapply rekeys_update; [eassumption|reflexivity..].
  - (* Logout *)
    destruct (list_find _ (users w)) as [[i user]|] eqn:Hf; cbn; [|apply rekeys_same].
    found_at Hf. eapply rekeys_update; [eassumption|reflexivity..].
  - (* LogoutAll *)
    destruct (list_find _ (users w)) as [[i user]|] eqn:Hf; cbn; [|apply rekeys_same].
    found_at Hf. eapply rekeys_update; [eassumption|reflexivity..].
  - (* GetProfile *)
    destruct (list_find _ (users w)) as [[i user]|] eqn:Hf; cbn; apply rekeys_same.
  - (* RequestPasswordReset *)
    destruct (list_find _ (users w)) as [[i user]|] eqn:Hf; cbn; [|apply rekeys_same].
    found_at Hf. destruct (mailUp env); cbn;
      (eapply rekeys_update; [eassumption|reflexivity..]).
  - (* ResetPassword *)
    destruct (list_find _ (users w)) as [[i user]|] eqn:Hf; cbn; [|apply rekeys_same].
    unfold save.
    destruct (negb (String.eqb newPassword (IUser.password user))); cbn;
      [destruct (validatePassword _); cbn; [|apply rekeys_same]|];
      (found_at Hf; eapply rekeys_update; [eassumption|reflexivity..]).
Qed.

Lemma fmap_update_same {K : Type} (key : IUser.t -> K) (docs : list IUser.t) i user user' :
  docs !! i = Some user -> key user' = key user ->
  key <$> <[i := user']> docs = key <$> docs.
Proof.
  intros Hi Hkey. rewrite list_fmap_insert, Hkey.
  apply list_insert_id. now rewrite list_lookup_fmap, Hi.
Qed.

Lemma rekeys_unique (docs docs' : list IUser.t) :
  rekeys docs docs' ->
  NoDup (IUser._id <$> docs) /\ NoDup (IUser.email <$> docs) ->
  NoDup (IUser._id <$> docs') /\ NoDup (IUser.email <$> docs').
Proof.
  intros Hre [Hids Hemails]. destruct Hre as [|i user user' Hi Hid Hemail|user' Hd].
  - auto.
  - rewrite !(fmap_update_same _ _ _ _ _ Hi) by assumption. auto.
  - apply duplicateKey_false in Hd. rewrite !fmap_app. cbn.
    split; apply list.NoDup_app; (split; [assumption|]);
      (split; [|apply NoDup_singleton]);
      intros k Hk Hin; apply list_elem_of_singleton in Hin; subst k;
      apply list_elem_of_fmap in Hk as (v & Hkey & Hv);
      rewrite Forall_forall in Hd; apply list_elem_of_In in Hv;
      destruct (Hd v Hv) as [Hne1 Hne2]; congruence.
Qed.

(** X16. Ids and e-mail addresses stay unique: if no two documents share
    an [_id] and no two share an address, the same holds after any run of
    calls of the service. *)
Theorem runs_keep_keys_unique (trace : list (Env * Call)) (w : World) :
  uniqueKeys w -> uniqueKeys (run config trace w).
Proof.
  revert w. induction trace as [|[env call] rest IH]; intros w Hw; [exact Hw|].
  cbn [run]. apply IH. unfold uniqueKeys in *.
  exact (rekeys_unique _ _ (step_rekeys env call w) Hw).
Qed.

End Keys.

Lemma runs_keep_keys_unique_witness :
  uniqueKeys
    (run (J := Reference.jwt) (B := Reference.bcrypt) defaultConfig
       [(Sample.env, Register Fixtures.eveRegistration);
        (Sample.envNextSecond,
         Register (IUserRegistration.mk "EVE@example.com" "Password2!" "Eva" "Adams"));
        (Sample.envNextSecond, Login (IUserLogin.mk "bob@example.com" "Secret123!"));
        (Sample.envNextSecond, VerifyEmail "a11ce")]
       Fixtures.world).
Proof.
  apply (runs_keep_keys_unique (J := Reference.jwt) (B := Reference.bcrypt) defaultConfig).
  split; apply (bool_decide_unpack _); vm_compute; exact I.
Defined.

(** ** From login to refresh *)

Lemma find_by_unique_id (docs : list IUser.t) i user :
  NoDup (IUser._id <$> docs) ->
  docs !! i = Some user ->
  list_find (fun u => IUser._id u = IUser._id user) docs = Some (i, user).
Proof.
  intros Hnd Hi. apply list_find_Some. split; [exact Hi|]. split; [reflexivity|].
  intros j other Hj Hlt Hid.
  assert (i = j); [|lia].
  apply (NoDup_lookup (IUser._id <$> docs) i j (IUser._id user) Hnd);
    rewrite list_lookup_fmap; [now rewrite Hi | now rewrite Hj, <- Hid].
Qed.

Section Sessions.

Context {J : JsonWebToken} {S : JsonWebTokenSpec J} {B : Bcrypt}.
Variable config : IConfig.

(** What a successful [loginUser] has checked and written. *)
Lemma loginUser_Ok env loginData w response tokens w1 :
  AuthService.loginUser config env loginData w = (Ok (response, tokens), w1) ->
  exists i user,
    users w !! i = Some user
    /\ generateTokens config (IUser._id user) (IUser.email user) (now env) = Ok tokens
    /\ response = toResponse (withSession env (ITokenResponse.refreshToken tokens) user)
    /\ w1 = mkWorld
              (<[i := withSession env (ITokenResponse.refreshToken tokens) user]> (users w))
              (mails w).
Proof.
  intros Hrun. run_action.
  destruct (list_find _ (users w)) as [[i user]|] eqn:Hf; [|discriminate].
  destruct (comparePassword user _); cbn [negb] in Hrun; [|discriminate].
  destruct (generateTokens config _ _ _) as [issued|e] eqn:Hg; [|discriminate].
  unfold save in Hrun. cbn in Hrun. injection Hrun as <- <- <-.
  exists i, user. apply found_lookup in Hf as [Hi _]. auto.
Qed.

(** A refresh token of this configuration, looked at by
    [verifyRefreshToken]: good until the second of its expiry, expired
    from then on. *)
Lemma verifyRefreshToken_issued userId email issued verified life token :
  generateRefreshToken config userId email issued = Ok token ->
  Ms.seconds (jwtRefreshExpiresIn config) = Some life ->
  verifyRefreshToken config token verified
  = if clockTimestamp issued + life <=? clockTimestamp verified
    then Throw RefreshTokenExpired
    else Ok (IJWTPayload.mk userId email "refresh"
               (Some (clockTimestamp issued)) (Some (clockTimestamp issued + life))).
Proof.
  intros Hgen Hlife. unfold generateRefreshToken, jwt_sign in Hgen.
  rewrite (timespan_seconds _ (clockTimestamp issued) life Hlife) in Hgen.
  injection Hgen as <-.
  unfold verifyRefreshToken, tryCatch, mbind, Result_bind.
  rewrite jwt_verify_encode, String.eqb_refl. cbn.
  now destruct (clockTimestamp issued + life <=? clockTimestamp verified).
Qed.

(** Whether a pair can be issued depends on the configuration alone. *)
Lemma generateTokens_again userId email now tokens userId' email' now' :
  generateTokens config userId email now = Ok tokens ->
  exists tokens', generateTokens config userId' email' now' = Ok tokens'.
Proof.
  unfold generateTokens, generateAccessToken, generateRefreshToken, jwt_sign,
    mbind, Result_bind, Ms.timespan.
  destruct (Ms.ms (jwtAccessExpiresIn config)); [|discriminate].
  destruct (Ms.ms (jwtRefreshExpiresIn config)); [|discriminate].
  eauto.
Qed.

(** X17. The refresh token that a login returns is accepted by
    [refreshToken] at any instant before its expiry: in a collection with
    unique ids the call returns a new pair, and the user's record then
    holds the refresh token of that new pair. *)
Theorem login_then_refresh
    (env env2 : Env) (loginData : IUserLogin.t) (w w1 : World)
    (response : IUserResponse.t) (tokens : ITokenResponse.t) (life : Z) :
  AuthService.loginUser config env loginData w = (Ok (response, tokens), w1) ->
  NoDup (IUser._id <$> users w) ->
  Ms.seconds (jwtRefreshExpiresIn config) = Some life ->
  clockTimestamp (now env2) < clockTimestamp (now env) + life ->
  exists newTokens w2 i user2,
    AuthService.refreshToken config env2 (ITokenResponse.refreshToken tokens) w1
    = (Ok newTokens, w2)
    /\ users w2 !! i = Some user2
    /\ IUser._id user2 = IUserResponse.id response
    /\ hasRefreshToken (ITokenResponse.refreshToken newTokens) user2 = true.
Proof.
  intros Hlogin Hnd Hlife Hfresh.
  apply loginUser_Ok in Hlogin as (i & user & Hi & Hgen & -> & ->).
  destruct (generateTokens_again _ _ _ _ (IUser._id user) (IUser.email user) (now env2) Hgen)
    as [newTokens Hgen2].
  pose proof (generateTokens_refreshToken config _ _ _ _ Hgen) as Hissued.
  pose proof (verifyRefreshToken_issued _ _ _ (now env2) life _ Hissued Hlife) as Hv.
  assert (Hexp : (clockTimestamp (now env) + life <=? clockTimestamp (now env2)) = false)
    by (apply Z.leb_gt; lia).
  rewrite Hexp in Hv.
  pose proof (find_by_unique_id _ _ _ Hnd Hi) as Hfind.
  assert (Hfind1 :
    list_find (fun u => IUser._id u = IUser._id user)
      (<[i := withSession env (ITokenResponse.refreshToken tokens) user]> (users w))
    = Some (i, withSession env (ITokenResponse.refreshToken tokens) user))
    by (apply (find_after_update _ _ i user); [exact Hfind | reflexivity]).
  assert (Hmember : hasRefreshToken (ITokenResponse.refreshToken tokens) (withSession env (ITokenResponse.refreshToken tokens) user) = true).
  { apply In_hasRefreshToken. cbn. apply in_or_app. right. now left. }
  exists newTokens. eexists. exists i. eexists. split.
  - run_action. rewrite Hv. cbn [IJWTPayload.userId users].
    rewrite Hfind1, Hmember. cbn [negb].
    change (IUser._id (withSession env (ITokenResponse.refreshToken tokens) user)) with (IUser._id user).
    change (IUser.email (withSession env (ITokenResponse.refreshToken tokens) user)) with (IUser.email user).
    rewrite Hgen2. unfold save. cbn. reflexivity.
  - cbn. split; [|split].
    + apply list_lookup_insert_eq. rewrite length_insert. now apply lookup_lt_Some in Hi.
    + reflexivity.
    + apply In_hasRefreshToken. cbn. apply in_or_app. right. now left.
Qed.

End Sessions.

Lemma login_then_refresh_witness :
  exists newTokens w2 i user2,
    AuthService.refreshToken (J := Reference.jwt) (B := Reference.bcrypt)
      defaultConfig Sample.envNextSecond Scenario.session Scenario.loggedIn
    = (Ok newTokens, w2)
    /\ users w2 !! i = Some user2
    /\ IUser._id user2 = "u1"%string
    /\ hasRefreshToken (ITokenResponse.refreshToken newTokens) user2 = true.
Proof.
  apply (login_then_refresh (J := Reference.jwt) (S := Reference.jwt_spec)
           (B := Reference.bcrypt) defaultConfig Sample.env Sample.envNextSecond
           (IUserLogin.mk "bob@example.com" "Secret123!") Sample.world Scenario.loggedIn
           (toResponse (withSession Sample.env Scenario.session Sample.bob))
           (ITokenResponse.mk
              (Reference.encode
                 (IJWTPayload.mk "u1" "bob@example.com" "access" (Some 5000) (Some 5900))
                 "default-access-secret-change-in-production")
              Scenario.session (Some 900))
           604800).
  - vm_compute; reflexivity.
  - apply (bool_decide_unpack _); vm_compute; exact I.
  - vm_compute; reflexivity.
  - vm_compute; reflexivity.
Defined.

(** ** More on the token codec *)

Section Codec.

Context {J : JsonWebToken}.
Variable config : IConfig.


(** X19. [isTokenExpired] answers [true] for a string that does not decode,
    and its answer never goes back: a token reported expired at one
    instant is reported expired at every later instant. *)
Theorem isTokenExpired_stays_expired (token : string) (now later : Z) :
  (jwt_decode token = None -> isTokenExpired token now = true)
  /\ (now <= later ->
      isTokenExpired token now = true -> isTokenExpired token later = true).
Proof.
  unfold isTokenExpired. split; [now intros ->|].
  intros Hle. destruct (jwt_decode token) as [c|]; [|reflexivity].
  destruct (IJWTPayload.exp c) as [e|]; [|reflexivity].
  destruct (e =? 0); [reflexivity|].
  intros Hexp. apply Z.ltb_lt in Hexp. apply Z.ltb_lt.
  assert (now / 1000 <= later / 1000) by (apply Z.div_le_mono; lia). lia.
Qed.

End Codec.

Lemma isTokenExpired_stays_expired_witness :
  isTokenExpired (J := Reference.jwt) "not a token" 0 = true
  /\ isTokenExpired (J := Reference.jwt) Scenario.session 900000000 = true.
Proof.
  split.
  - apply (proj1 (isTokenExpired_stays_expired (J := Reference.jwt)
                    "not a token" 0 0)). vm_compute; reflexivity.
  - apply (proj2 (isTokenExpired_stays_expired (J := Reference.jwt)
                    Scenario.session 609801000 900000000)).
    + vm_compute. discriminate.
    + vm_compute; reflexivity.
Defined.

Section CodecSpec.

Context {J : JsonWebToken} {S : JsonWebTokenSpec J}.
Variable config : IConfig.

(** X20. The two kinds of token never stand in for one another, whatever
    the secrets: a token made by [generateRefreshToken] is never returned
    by [verifyAccessToken], and a token made by [generateAccessToken] is
    never returned by [verifyRefreshToken], at any instant. *)
Theorem token_kinds_never_cross (userId email : string) (issued verified : Z) (token : string) :
  (generateRefreshToken config userId email issued = Ok token ->
   exists e, verifyAccessToken config token verified = Throw (AuthenticationError e))
  /\ (generateAccessToken config userId email issued = Ok token ->
      exists e, verifyRefreshToken config token verified = Throw (AuthenticationError e)).
Proof.
  split; intros Hgen.
  - unfold generateRefreshToken, jwt_sign in Hgen.
    destruct (Ms.timespan _ _) as [e|]; [|discriminate]. injection Hgen as <-.
    unfold verifyAccessToken, tryCatch, mbind, Result_bind.
    rewrite jwt_verify_encode. cbn [IJWTPayload.exp].
    destruct (negb (String.eqb _ _)); [eauto|].
    destruct (e <=? clockTimestamp verified); cbn; eauto.
  - unfold generateAccessToken, jwt_sign in Hgen.
    destruct (Ms.timespan _ _) as [e|]; [|discriminate]. injection Hgen as <-.
    unfold verifyRefreshToken, tryCatch, mbind, Result_bind.
    rewrite jwt_verify_encode. cbn [IJWTPayload.exp].
    destruct (negb (String.eqb _ _)); [eauto|].
    destruct (e <=? clockTimestamp verified); cbn; eauto.
Qed.


(** X22. Away from the second of expiry [isTokenExpired] and
    [verifyAccessToken] agree on the access tokens of this configuration:
    before [exp] the one answers [false] and the other returns the token's
    claims; after the second [exp] the one answers [true] and the other
    throws "Access token expired". *)
Theorem isTokenExpired_agrees_with_verify
    (userId email : string) (issued verified life : Z) (token : string) :
  generateAccessToken config userId email issued = Ok token ->
  Ms.seconds (jwtAccessExpiresIn config) = Some life ->
  clockTimestamp issued + life <> 0 ->
  (clockTimestamp verified < clockTimestamp issued + life ->
   isTokenExpired token verified = false
   /\ exists decoded, verifyAccessToken config token verified = Ok decoded)
  /\ (clockTimestamp issued + life < clockTimestamp verified ->
      isTokenExpired token verified = true
      /\ verifyAccessToken config token verified = Throw AccessTokenExpired).
Proof.
  intros Hgen Hlife Hnz. unfold generateAccessToken, jwt_sign in Hgen.
  rewrite (timespan_seconds _ (clockTimestamp issued) life Hlife) in Hgen.
  injection Hgen as <-.
  unfold isTokenExpired, jwt_decode, verifyAccessToken, tryCatch, mbind, Result_bind.
  rewrite jws_decode_encode, jwt_verify_encode, String.eqb_refl.
  cbn [IJWTPayload.exp negb]. apply Z.eqb_neq in Hnz. rewrite Hnz.
  unfold clockTimestamp in *.
  split; intros Hclock.
  - assert (H1 : (issued / 1000 + life <? verified / 1000) = false) by (apply Z.ltb_ge; lia).
    assert (H2 : (issued / 1000 + life <=? verified / 1000) = false) by (apply Z.leb_gt; lia).
    rewrite H1, H2. cbn. eauto.
  - assert (H1 : (issued / 1000 + life <? verified / 1000) = true) by (apply Z.ltb_lt; lia).
    assert (H2 : (issued / 1000 + life <=? verified / 1000) = true) by (apply Z.leb_le; lia).
    rewrite H1, H2. cbn. auto.
Qed.

End CodecSpec.

Lemma token_kinds_never_cross_witness :
  exists e,
    verifyAccessToken (J := Reference.jwt)
      (mkConfig "one-secret" "one-secret" "15m" "7d")
      (Reference.encode
         (IJWTPayload.mk "u1" "bob@example.com" "refresh" (Some 5000) (Some 609800))
         "one-secret") 5001000
    = Throw (AuthenticationError e).
Proof.
  apply (proj1 (token_kinds_never_cross (J := Reference.jwt) (S := Reference.jwt_spec)
                  (mkConfig "one-secret" "one-secret" "15m" "7d")
                  "u1" "bob@example.com" 5000000 5001000 _)).
  vm_compute; reflexivity.
Defined.


Lemma isTokenExpired_agrees_with_verify_witness :
  (isTokenExpired (J := Reference.jwt)
     (ITokenResponse.accessToken Scenario.newTokens) 5900999 = false
   /\ exists decoded,
        verifyAccessToken (J := Reference.jwt) defaultConfig
          (ITokenResponse.accessToken Scenario.newTokens) 5900999 = Ok decoded)
  /\ (isTokenExpired (J := Reference.jwt)
        (ITokenResponse.accessToken Scenario.newTokens) 5902000 = true
      /\ verifyAccessToken (J := Reference.jwt) defaultConfig
           (ITokenResponse.accessToken Scenario.newTokens) 5902000
         = Throw AccessTokenExpired).
Proof.
  assert (Hgen : generateAccessToken (J := Reference.jwt) defaultConfig
                   "u1" "bob@example.com" 5001000
                 = Ok (ITokenResponse.accessToken Scenario.newTokens))
    by (vm_compute; reflexivity).
  assert (Hlife : Ms.seconds (jwtAccessExpiresIn defaultConfig) = Some 900)
    by (vm_compute; reflexivity).
  assert (Hnz : clockTimestamp 5001000 + 900 <> 0) by (vm_compute; discriminate).
  split.
  - apply (proj1 (isTokenExpired_agrees_with_verify (J := Reference.jwt)
                    (S := Reference.jwt_spec) defaultConfig "u1" "bob@example.com"
                    5001000 5900999 900 _ Hgen Hlife Hnz)).
    vm_compute; reflexivity.
  - apply (proj2 (isTokenExpired_agrees_with_verify (J := Reference.jwt)
                    (S := Reference.jwt_spec) defaultConfig "u1" "bob@example.com"
                    5001000 5902000 900 _ Hgen Hlife Hnz)).
    vm_compute; reflexivity.
Defined.

(** ** Token pairs *)

Lemma keepDigits_head c rest :
  Js.isDigit c = true -> Js.keepDigits (String c rest) = String c (Js.keepDigits rest).
Proof. intros Hc. cbn. now rewrite Hc. Qed.

Lemma parseInt_digit c rest : Js.isDigit c = true -> Js.parseInt (String c rest) <> None.
Proof.
  intros Hc. unfold Js.parseInt. cbn. rewrite Hc.
  destruct (Js.spanDigits rest). cbn. discriminate.
Qed.

Lemma spanDigits_nonempty s ds rest :
  Js.spanDigits s = (ds, rest) -> ds <> EmptyString ->
  exists c r, s = String c r /\ Js.isDigit c = true.
Proof.
  destruct s as [|c r]; cbn; [intros [= <- _]; congruence|].
  destruct (Js.isDigit c) eqn:Hc; [eauto|]. intros [= <- _]. congruence.
Qed.

(** A string that [ms] reads has a digit, and so [parseInt] of its digits
    is a number. *)
Lemma ms_has_digits time v :
  Ms.ms time = Some v -> Js.parseInt (Js.keepDigits time) <> None.
Proof.
  unfold Ms.ms. destruct (100 <? String.length time)%nat; [discriminate|].
  set (split := match time with
                | String "-" r => (true, r)
                | _ => (false, time)
                end).
  assert (Hbody : Js.keepDigits (snd split) = Js.keepDigits time).
  { subst split. destruct time as [|c r]; [reflexivity|].
    destruct (Ascii.eqb c "-") eqn:Hdash.
    - apply Ascii.eqb_eq in Hdash. subst c. reflexivity.
    - destruct c as [[] [] [] [] [] [] [] []]; try reflexivity; discriminate. }
  destruct split as [neg body]. cbn [snd] in Hbody.
  destruct (Js.spanDigits body) as [ds rest] eqn:Hspan.
  destruct ds as [|d ds]; [discriminate|]. intros _.
  destruct (spanDigits_nonempty body _ _ Hspan) as (c & r & -> & Hc); [discriminate|].
  rewrite <- Hbody, (keepDigits_head c r Hc). now apply parseInt_digit.
Qed.

Section Pairs.

Context {J : JsonWebToken} {S : JsonWebTokenSpec J}.
Variable config : IConfig.

(** X23. A pair that [generateTokens] returns has an access token and a
    refresh token for the same user, each of its own kind and each with
    an [iat] and an [exp]; the two are different strings; and its
    [expiresIn] is a number, never [NaN]. *)
Theorem generateTokens_pair (userId email : string) (now : Z) (tokens : ITokenResponse.t) :
  generateTokens config userId email now = Ok tokens ->
  (exists accessIat accessExp,
     jwt_decode (ITokenResponse.accessToken tokens)
     = Some (IJWTPayload.mk userId email "access" (Some accessIat) (Some accessExp)))
  /\ (exists refreshIat refreshExp,
        jwt_decode (ITokenResponse.refreshToken tokens)
        = Some (IJWTPayload.mk userId email "refresh" (Some refreshIat) (Some refreshExp)))
  /\ ITokenResponse.accessToken tokens <> ITokenResponse.refreshToken tokens
  /\ ITokenResponse.expiresIn tokens <> None.
Proof.
  unfold generateTokens, generateAccessToken, generateRefreshToken, jwt_sign,
    mbind, Result_bind, Ms.timespan.
  destruct (Ms.ms (jwtAccessExpiresIn config)) as [va|] eqn:Ha; [|discriminate].
  destruct (Ms.ms (jwtRefreshExpiresIn config)) as [vr|] eqn:Hr; [|discriminate].
  intros [= <-]. cbn. unfold jwt_decode. rewrite !jws_decode_encode.
  split; [do 2 eexists; reflexivity|]. split; [do 2 eexists; reflexivity|]. split.
  - intros Heq. apply (f_equal jws_decode) in Heq.
    rewrite !jws_decode_encode in Heq. discriminate.
  - pose proof (ms_has_digits _ _ Ha) as Hdigits.
    destruct (Js.parseInt _); [discriminate | congruence].
Qed.

(** The largest integer below which every integer is a double. *)
Definition maxSafeInteger : Z := 9007199254740991.

(** X24. For an access life time written in minutes ([digits] followed by
    "m"), of a number of minutes whose milliseconds are a safe integer,
    the [expiresIn] of a pair is the number of seconds between the [iat]
    and the [exp] of its access token. *)
Theorem generateTokens_expiresIn_minutes
    (digits userId email : string) (now : Z) (tokens : ITokenResponse.t) :
  jwtAccessExpiresIn config = digits +:+ "m" ->
  digits <> EmptyString ->
  Js.all Js.isDigit digits = true ->
  Js.digitsValue 0 digits * 60000 <= maxSafeInteger ->
  generateTokens config userId email now = Ok tokens ->
  exists seconds decoded iat,
    ITokenResponse.expiresIn tokens = Some seconds
    /\ jwt_decode (ITokenResponse.accessToken tokens) = Some decoded
    /\ IJWTPayload.iat decoded = Some iat
    /\ IJWTPayload.exp decoded = Some (iat + seconds).
Proof.
  intros Hm Hne Hdigits _ Hgen.
  unfold generateTokens, generateAccessToken, generateRefreshToken, jwt_sign,
    mbind, Result_bind in Hgen.
  destruct (Ms.timespan (jwtAccessExpiresIn config) _) as [e|] eqn:He; [|discriminate].
  destruct (Ms.timespan (jwtRefreshExpiresIn config) _); [|discriminate].
  injection Hgen as <-. cbn in *.
  assert (Hlen : (String.length digits < 100)%nat).
  { unfold Ms.timespan, Ms.ms in He. rewrite Hm, length_append in He.
    destruct (100 <? String.length digits + String.length "m")%nat eqn:Hl;
      [discriminate|]. apply Nat.ltb_ge in Hl. cbn in Hl. lia. }
  pose proof (expiresIn_minutes digits Hne Hdigits Hlen) as Hexp.
  rewrite <- Hm in Hexp at 1.
  destruct (Ms.seconds (digits +:+ "m")) as [seconds|] eqn:Hs.
  - exists seconds. eexists. exists (clockTimestamp now). split; [exact Hexp|].
    unfold jwt_decode. rewrite jws_decode_encode. repeat split. cbn.
    rewrite <- Hm in Hs. rewrite (timespan_seconds _ _ _ Hs) in He. congruence.
  - unfold Ms.seconds, Ms.timespan in Hs. unfold Ms.timespan in He.
    rewrite Hm in He. destruct (Ms.ms (digits +:+ "m")); discriminate.
Qed.

End Pairs.

Lemma generateTokens_pair_witness :
  (exists accessIat accessExp,
     jwt_decode (J := Reference.jwt) (ITokenResponse.accessToken Scenario.newTokens)
     = Some (IJWTPayload.mk "u1" "bob@example.com" "access"
               (Some accessIat) (Some accessExp)))
  /\ (exists refreshIat refreshExp,
        jwt_decode (J := Reference.jwt) (ITokenResponse.refreshToken Scenario.newTokens)
        = Some (IJWTPayload.mk "u1" "bob@example.com" "refresh"
                  (Some refreshIat) (Some refreshExp)))
  /\ ITokenResponse.accessToken Scenario.newTokens
     <> ITokenResponse.refreshToken Scenario.newTokens
  /\ ITokenResponse.expiresIn Scenario.newTokens <> None.
Proof.
  apply (generateTokens_pair (J := Reference.jwt) (S := Reference.jwt_spec)
           defaultConfig "u1" "bob@example.com" 5001000 Scenario.newTokens).
  vm_compute; reflexivity.
Defined.

Lemma generateTokens_expiresIn_minutes_witness :
  exists seconds decoded iat,
    ITokenResponse.expiresIn Scenario.newTokens = Some seconds
    /\ jwt_decode (J := Reference.jwt) (ITokenResponse.accessToken Scenario.newTokens)
       = Some decoded
    /\ IJWTPayload.iat decoded = Some iat
    /\ IJWTPayload.exp decoded = Some (iat + seconds).
Proof.
  apply (generateTokens_expiresIn_minutes (J := Reference.jwt) (S := Reference.jwt_spec)
           defaultConfig "15" "u1" "bob@example.com" 5001000 Scenario.newTokens).
  - reflexivity.
  - discriminate.
  - reflexivity.
  - vm_compute. discriminate.
  - vm_compute; reflexivity.
Defined.

(** * The HTTP layer *)

(** ** Requests and answers *)

Module JsString.

(** The piece before the first space, and the pieces after it. *)
Fixpoint pieces (s : string) : string * list string :=
  match s with
  | EmptyString => (EmptyString, [])
  | String c rest =>
      let (piece, more) := pieces rest in
      if Ascii.eqb c " " then (EmptyString, piece :: more) else (String c piece, more)
  end.

(** [s.split(' ')] *)
Definition split (s : string) : list string :=
  let (piece, more) := pieces s in piece :: more.

(** A string or [undefined] in a condition: [undefined] and the empty
    string are falsy. *)
Definition truthy (s : option string) : option string :=
  match s with
  | Some (String _ _) => s
  | _ => None
  end.

End JsString.

(** A value of a body that [express.json] has parsed.  A number is held
    as an integer: the handlers only ask whether it is zero. *)
#[warnings="-register-all"]
Inductive JsonValue : Type :=
| JsonNull
| JsonBool (b : bool)
| JsonNumber (n : Z)
| JsonString (s : string)
| JsonArray (items : list JsonValue)
| JsonObject (fields : list (string * JsonValue)).

(** A field of the body in a condition: a missing field, [null], [false],
    [0] and the empty string are falsy, every other value is truthy. *)
Definition isTruthy (field : option JsonValue) : bool :=
  match field with
  | None | Some JsonNull => false
  | Some (JsonBool b) => b
  | Some (JsonNumber n) => negb (n =? 0)
  | Some (JsonString s) => nonEmpty s
  | Some (JsonArray _) | Some (JsonObject _) => true
  end.

(** The parts of an Express request that the middlewares and the handlers
    read: the [Authorization] header, the fields of the body, each of any
    JSON value or missing, and the [user] that authentication attaches. *)
Module IAuthenticatedRequest.
Record t : Type := mk {
  authorization : option string;
  body : string -> option JsonValue;
  user : option IUserResponse.t
}.
Definition set_user (u : option IUserResponse.t) (req : t) : t :=
  mk (authorization req) (body req) u.
Definition set_authorization (h : option string) (req : t) : t :=
  mk h (body req) (user req).
End IAuthenticatedRequest.

(** How a middleware ends: [next()] or [next(error)]. *)
Inductive Next : Type :=
| Continue
| Refuse (error : Exn).

(** The body of an answer; none of the answers below has a [data]. *)
Module IApiResponse.
Record t : Type := mk {
  success : bool;
  message : string;
  error : option string
}.
End IApiResponse.

(** [res.status(..).json(..)] or [res.redirect(..)]. *)
Inductive Reply : Type :=
| Json (status : Z) (body : IApiResponse.t)
| Redirect (url : string).

(** How a handler wrapped in [asyncHandler] ends: it has answered, or its
    promise was rejected and the error went to [next]. *)
Inductive Handled : Type :=
| Replied (reply : Reply)
| Passed (error : Exn).

(** ** Errors ([utils/errors.ts]) *)


Section Errors.

(** [process.env.NODE_ENV], and the message texts of the errors that
    libraries construct. *)
Variable nodeEnv : option string.
Variable libraryMessage : Exn -> string.






End Errors.

(** ** Middlewares ([middlewares/auth.ts]) *)

(** [authHeader && authHeader.split(' ')[1]], when it is truthy. *)
Definition bearerToken (authHeader : option string) : option string :=
  match JsString.truthy authHeader with
  | Some header => JsString.truthy (JsString.split header !! 1%nat)
  | None => None
  end.

Section Middlewares.

Context {J : JsonWebToken}.
Variable config : IConfig.
Variable env : Env.

Definition authenticateToken (req : IAuthenticatedRequest.t)
  : World -> (IAuthenticatedRequest.t * Next) * World :=
  fun w =>
    match (match bearerToken (IAuthenticatedRequest.authorization req) with
           | None => throw (AuthenticationError "Access token is required")
           | Some token =>
               (* Verify access token *)
               decoded ← lift (verifyAccessToken config token (now env));
               (* Get user profile *)
               AuthService.getUserProfile (IJWTPayload.userId decoded)
           end) w with
    | (Ok user, w') => ((IAuthenticatedRequest.set_user (Some user) req, Continue), w')
    | (Throw error, w') =>
        ((req,
          Refuse match error with
                 | AuthenticationError _ => error
                 | _ => AuthenticationError "Invalid access token"
                 end), w')
    end.

Definition optionalAuth (req : IAuthenticatedRequest.t)
  : World -> (IAuthenticatedRequest.t * Next) * World :=
  fun w =>
    match (match bearerToken (IAuthenticatedRequest.authorization req) with
           | Some token =>
               decoded ← lift (verifyAccessToken config token (now env));
               user ← AuthService.getUserProfile (IJWTPayload.userId decoded);
               mret (Some user)
           | None => mret None
           end) w with
    | (Ok (Some user), w') =>
        ((IAuthenticatedRequest.set_user (Some user) req, Continue), w')
    | (Ok None, w') => ((req, Continue), w')
    | (Throw _, w') =>
        (* Continue without authentication if token is invalid *)
        ((req, Continue), w')
    end.

End Middlewares.

(** What a middleware leaves for what comes after it: the attached user,
    how it ended, and the world. *)
Definition outcome (r : (IAuthenticatedRequest.t * Next) * World)
  : option IUserResponse.t * Next * World :=
  (IAuthenticatedRequest.user (fst (fst r)), snd (fst r), snd r).

(** ** Handlers ([controllers/authController.ts]) *)

Module AuthController.

Section AuthController.

Context {B : Bcrypt}.
Variable env : Env.



(** What [AuthService.resetPassword] does with values of the body that
    are not both strings.  Mongoose casts them, in the filter of the query
    and at the assignment of the password; that casting is not modelled,
    and the handler is stated for whatever it gives. *)
Variable resetPasswordCast : JsonValue -> JsonValue -> Action IUserResponse.t.

(** [AuthService.resetPassword(token, newPassword)] with values of the
    body. *)
Definition resetPasswordCall (token newPassword : JsonValue) : Action IUserResponse.t :=
  match token, newPassword with
  | JsonString token, JsonString newPassword =>
      AuthService.resetPassword env token newPassword
  | _, _ => resetPasswordCast token newPassword
  end.

Definition resetPassword (req : IAuthenticatedRequest.t) : World -> Handled * World :=
  fun w =>
    match IAuthenticatedRequest.body req "token",
          IAuthenticatedRequest.body req "newPassword" with
    | Some token, Some newPassword =>
        if negb (isTruthy (Some token)) || negb (isTruthy (Some newPassword))
        then
          (Replied
             (Json 400 (IApiResponse.mk false "Token and new password are required" None)),
           w)
        else
          match resetPasswordCall token newPassword w with
          | (Ok _, w') => (Replied (Redirect "/pages/password-reset-success"), w')
          | (Throw _, w') => (Replied (Redirect "/pages/password-reset-failed"), w')
          end
    | _, _ =>
        (Replied (Json 400 (IApiResponse.mk false "Token and new password are required" None)),
         w)
    end.

End AuthController.

End AuthController.

(** ** Properties of the middlewares *)

Definition noSpace (s : string) : bool :=
  Js.all (fun c => negb (Ascii.eqb c " ")) s.

Lemma pieces_noSpace (a : string) :
  noSpace a = true -> JsString.pieces a = (a, []).
Proof.
  unfold noSpace, Js.all. induction a as [|c a IH]; [reflexivity|]. cbn.
  intros Hall. apply andb_prop in Hall as [Hc Ha].
  rewrite (IH Ha). apply negb_true_iff in Hc. now rewrite Hc.
Qed.

Lemma pieces_first (a rest : string) :
  noSpace a = true ->
  JsString.pieces (a +:+ String " " rest) = (a, JsString.split rest).
Proof.
  unfold noSpace, Js.all, JsString.split.
  induction a as [|c a IH].
  - intros _. change ("" +:+ String " " rest) with (String " " rest).
    cbn. now destruct (JsString.pieces rest).
  - intros Hall. cbn in Hall. apply andb_prop in Hall as [Hc Ha].
    change (String c a +:+ String " " rest) with (String c (a +:+ String " " rest)).
    cbn [JsString.pieces]. rewrite (IH Ha). apply negb_true_iff in Hc. now rewrite Hc.
Qed.

Lemma append_truthy (a rest : string) :
  JsString.truthy (Some (a +:+ String " " rest)) = Some (a +:+ String " " rest).
Proof. now destruct a. Qed.

(** The token of a header is its second piece; the first piece and what
    follows a second space are not looked at. *)
Lemma bearerToken_second (scheme token : string) :
  noSpace scheme = true -> noSpace token = true ->
  bearerToken (Some (scheme +:+ String " " token)) = JsString.truthy (Some token)
  /\ forall tail,
       bearerToken (Some (scheme +:+ String " " (token +:+ String " " tail)))
       = JsString.truthy (Some token).
Proof.
  intros Hs Ht. unfold bearerToken. split; [|intros tail]; rewrite append_truthy;
    unfold JsString.split at 1; rewrite (pieces_first _ _ Hs); unfold JsString.split.
  - now rewrite (pieces_noSpace _ Ht).
  - now rewrite (pieces_first _ _ Ht).
Qed.

Lemma getUserProfile_run userId w :
  AuthService.getUserProfile userId w
  = match list_find (fun u => IUser._id u = userId) (users w) with
    | Some (_, user) => (Ok (toResponse user), w)
    | None => (Throw (NotFoundError "User not found"), w)
    end.
Proof. run_action. now destruct (list_find _ (users w)) as [[i user]|]. Qed.

Section MiddlewareFacts.

Context {J : JsonWebToken}.
Variable config : IConfig.
Variable env : Env.

(** What [verifyAccessToken] throws. *)
Lemma verifyAccessToken_throws token now error :
  verifyAccessToken config token now = Throw error ->
  exists message,
    error = AuthenticationError message
    /\ In message ["Access token expired"; "Invalid access token"; "Invalid token type"].
Proof.
  unfold verifyAccessToken, tryCatch, mbind, Result_bind, jwt_verify.
  destruct (jws_decode token) as [c|]; [|intros [= <-]; eexists; cbn; eauto].
  destruct (jws_check token _); cbn [negb]; [|intros [= <-]; eexists; cbn; eauto].
  destruct (IJWTPayload.exp c) as [e|];
    [destruct (e <=? clockTimestamp now); [intros [= <-]; eexists; cbn; eauto|]|];
    (destruct (String.eqb (IJWTPayload.type c) "access"); cbn [negb];
       [discriminate | intros [= <-]; eexists; cbn; eauto 6]).
Qed.

(** X25. [authenticateToken] writes nothing and ends in one of two ways.
    It calls [next()] with the profile of a stored user attached, the user
    whose id is the subject of the token of the header, a token that
    [verifyAccessToken] accepts at that instant.  Else it calls
    [next(error)] with an [AuthenticationError] and leaves the request as
    it was: "Access token is required" when the header gives no token,
    what [verifyAccessToken] throws when it refuses the token, and
    "Invalid access token", not a [NotFoundError], when the token is
    accepted and no document has the id of its subject. *)
Theorem authenticateToken_outcomes (req : IAuthenticatedRequest.t) (w : World) :
  match authenticateToken config env req w with
  | ((req', Continue), w') =>
      w' = w
      /\ exists token decoded i user,
           bearerToken (IAuthenticatedRequest.authorization req) = Some token
           /\ verifyAccessToken config token (now env) = Ok decoded
           /\ users w !! i = Some user
           /\ IUser._id user = IJWTPayload.userId decoded
           /\ req' = IAuthenticatedRequest.set_user (Some (toResponse user)) req
  | ((req', Refuse error), w') =>
      w' = w /\ req' = req
      /\ match bearerToken (IAuthenticatedRequest.authorization req) with
         | None => error = AuthenticationError "Access token is required"
         | Some token =>
             match verifyAccessToken config token (now env) with
             | Throw refusal =>
                 error = refusal
                 /\ In refusal [AccessTokenExpired;
                                AuthenticationError "Invalid access token";
                                TokenKindMismatch]
             | Ok decoded =>
                 error = AuthenticationError "Invalid access token"
                 /\ list_find (fun u => IUser._id u = IJWTPayload.userId decoded) (users w)
                    = None
             end
         end
  end.
Proof.
  unfold authenticateToken.
  destruct (bearerToken _) as [token|] eqn:Htoken.
  - unfold mbind, Action_bind, lift.
    destruct (verifyAccessToken config token (now env)) as [decoded|error] eqn:Hv.
    + rewrite getUserProfile_run.
      destruct (list_find _ (users w)) as [[i user]|] eqn:Hf.
      * split; [reflexivity|]. apply found_lookup in Hf as [Hi Hid].
        exists token, decoded, i, user. auto.
      * auto.
    + destruct (verifyAccessToken_throws _ _ _ Hv) as (m & -> & Hm).
      repeat split. cbn in Hm. cbn.
      destruct Hm as [<-|[<-|[<-|[]]]]; auto.
  - unfold throw. auto.
Qed.

(** X26. Only the second piece of the header counts.  Whatever word
    stands before the first space (it need not be "Bearer", and may be
    empty) and whatever follows a second space, [authenticateToken] ends
    as it does for "Bearer " followed by the token. *)
Theorem authenticateToken_reads_second_piece
    (scheme token header : string) (req : IAuthenticatedRequest.t) (w : World) :
  noSpace scheme = true ->
  noSpace token = true ->
  header = scheme +:+ String " " token
  \/ (exists tail, header = scheme +:+ String " " (token +:+ String " " tail)) ->
  outcome (authenticateToken config env
             (IAuthenticatedRequest.set_authorization (Some header) req) w)
  = outcome (authenticateToken config env
               (IAuthenticatedRequest.set_authorization
                  (Some ("Bearer" +:+ String " " token)) req) w).
Proof.
  intros Hs Ht Hheader.
  assert (Hsame : bearerToken (Some header)
                  = bearerToken (Some ("Bearer" +:+ String " " token))).
  { rewrite (proj1 (bearerToken_second "Bearer" token eq_refl Ht)).
    destruct Hheader as [->|[tail ->]].
    - apply (proj1 (bearerToken_second scheme token Hs Ht)).
    - apply (proj2 (bearerToken_second scheme token Hs Ht)). }
  unfold outcome, authenticateToken. cbn [IAuthenticatedRequest.authorization
    IAuthenticatedRequest.set_authorization]. rewrite Hsame.
  match goal with
  | |- context [match ?m w with _ => _ end] => destruct (m w) as [[user|error] w']
  end; reflexivity.
Qed.

(** X27. [optionalAuth] never refuses and writes nothing.  It attaches a
    user exactly when [authenticateToken] would let the request through,
    and then the same user; when [authenticateToken] would refuse, it
    leaves the request as it was. *)
Theorem optionalAuth_never_refuses (req : IAuthenticatedRequest.t) (w : World) :
  snd (optionalAuth config env req w) = w
  /\ snd (fst (optionalAuth config env req w)) = Continue
  /\ fst (fst (optionalAuth config env req w))
     = match snd (fst (authenticateToken config env req w)) with
       | Continue => fst (fst (authenticateToken config env req w))
       | Refuse _ => req
       end.
Proof.
  unfold optionalAuth, authenticateToken.
  destruct (bearerToken _) as [token|]; [|repeat split].
  unfold mbind, mret, Action_bind, Action_ret, lift, throw.
  destruct (verifyAccessToken config token (now env)) as [decoded|error];
    [|repeat split].
  rewrite getUserProfile_run.
  destruct (list_find _ (users w)) as [[i user]|]; repeat split.
Qed.

End MiddlewareFacts.

Lemma authenticateToken_reads_second_piece_witness :
  outcome (authenticateToken (J := Reference.jwt) defaultConfig Sample.envNextSecond
             (IAuthenticatedRequest.mk
                (Some ("Basic " +:+ ITokenResponse.accessToken Scenario.newTokens
                       +:+ " and more"))
                (fun _ => None) None) Scenario.afterRotation)
  = outcome (authenticateToken (J := Reference.jwt) defaultConfig Sample.envNextSecond
               (IAuthenticatedRequest.mk
                  (Some ("Bearer " +:+ ITokenResponse.accessToken Scenario.newTokens))
                  (fun _ => None) None) Scenario.afterRotation).
Proof.
  apply (authenticateToken_reads_second_piece (J := Reference.jwt) defaultConfig
           Sample.envNextSecond "Basic" (ITokenResponse.accessToken Scenario.newTokens)
           ("Basic " +:+ ITokenResponse.accessToken Scenario.newTokens +:+ " and more")
           (IAuthenticatedRequest.mk None (fun _ => None) None) Scenario.afterRotation).
  - vm_compute; reflexivity.
  - vm_compute; reflexivity.
  - right. exists "and more"%string. vm_compute; reflexivity.
Defined.

(** ** Access tokens and the sessions *)

Section RunsKeepIds.

Context {J : JsonWebToken} {B : Bcrypt}.
Variable config : IConfig.

(** A document keeps its place and its [_id] through any run of calls. *)
Lemma run_keeps_ids trace w i user :
  users w !! i = Some user ->
  exists user',
    users (run config trace w) !! i = Some user' /\ IUser._id user' = IUser._id user.
Proof.
  revert w user. induction trace as [|[env call] rest IH]; intros w user Hi.
  - exists user. auto.
  - destruct (evolves_lookup _ _ _ _ i user (step_evolves config env call w) Hi)
      as (mid & Hmid & Hid & _).
    destruct (IH _ mid Hmid) as (user' & Hu & Hid').
    exists user'. cbn [run]. split; [exact Hu | congruence].
Qed.

End RunsKeepIds.

Section AccessTokens.

Context {J : JsonWebToken} {S : JsonWebTokenSpec J} {B : Bcrypt}.
Variable config : IConfig.

Lemma generateTokens_accessToken userId email now tokens :
  generateTokens config userId email now = Ok tokens ->
  generateAccessToken config userId email now = Ok (ITokenResponse.accessToken tokens).
Proof.
  unfold generateTokens, mbind, Result_bind.
  destruct (generateAccessToken _ _ _ _); [|discriminate].
  destruct (generateRefreshToken _ _ _ _); [|discriminate].
  now intros [= <-].
Qed.

(** An access token of this configuration, looked at by
    [verifyAccessToken]. *)
Lemma verifyAccessToken_issued userId email issued verified life token :
  generateAccessToken config userId email issued = Ok token ->
  Ms.seconds (jwtAccessExpiresIn config) = Some life ->
  verifyAccessToken config token verified
  = if clockTimestamp issued + life <=? clockTimestamp verified
    then Throw AccessTokenExpired
    else Ok (IJWTPayload.mk userId email "access"
               (Some (clockTimestamp issued)) (Some (clockTimestamp issued + life))).
Proof.
  intros Hgen Hlife. unfold generateAccessToken, jwt_sign in Hgen.
  rewrite (timespan_seconds _ (clockTimestamp issued) life Hlife) in Hgen.
  injection Hgen as <-.
  unfold verifyAccessToken, tryCatch, mbind, Result_bind.
  rewrite jwt_verify_encode, String.eqb_refl. cbn.
  now destruct (clockTimestamp issued + life <=? clockTimestamp verified).
Qed.

(** X28. No call of the service revokes an access token.  The access
    token of a login, sent in the header at any instant before its expiry,
    passes [authenticateToken] with the profile of the user who logged in
    attached, whatever calls were made since the login: a logout, a logout
    from all devices or a password reset among them. *)
Theorem access_token_never_revoked
    (env envLater : Env) (loginData : IUserLogin.t) (w w1 : World)
    (response : IUserResponse.t) (tokens : ITokenResponse.t) (life : Z)
    (trace : list (Env * Call)) (req : IAuthenticatedRequest.t) :
  AuthService.loginUser config env loginData w = (Ok (response, tokens), w1) ->
  Ms.seconds (jwtAccessExpiresIn config) = Some life ->
  clockTimestamp (now envLater) < clockTimestamp (now env) + life ->
  bearerToken (IAuthenticatedRequest.authorization req)
  = Some (ITokenResponse.accessToken tokens) ->
  exists profile,
    authenticateToken config envLater req (run config trace w1)
    = ((IAuthenticatedRequest.set_user (Some profile) req, Continue),
       run config trace w1)
    /\ IUserResponse.id profile = IUserResponse.id response.
Proof.
  intros Hlogin Hlife Hbefore Hheader.
  destruct (loginUser_Ok config _ _ _ _ _ _ Hlogin) as (i & user & Hi & Hgen & -> & ->).
  apply generateTokens_accessToken in Hgen.
  pose proof (verifyAccessToken_issued _ _ _ (now envLater) _ _ Hgen Hlife) as Hverify.
  destruct (clockTimestamp (now env) + life <=? clockTimestamp (now envLater)) eqn:Hle;
    [apply Z.leb_le in Hle; lia|].
  set (saved := withSession env (ITokenResponse.refreshToken tokens) user).
  assert (Hsaved : users (mkWorld (<[i := saved]> (users w)) (mails w)) !! i = Some saved).
  { cbn. apply list_lookup_insert_eq. now apply lookup_lt_Some in Hi. }
  destruct (run_keeps_ids config trace _ i saved Hsaved) as (later & Hlater & Hid).
  set (w2 := run config trace _) in *.
  assert (Hfound : is_Some (list_find (fun u => IUser._id u = IUser._id user) (users w2))).
  { apply (list_find_elem_of _ _ later); [eapply list_elem_of_lookup_2, Hlater|].
    exact Hid. }
  destruct Hfound as [[j found] Hfound].
  exists (toResponse found). unfold authenticateToken.
  rewrite Hheader. unfold mbind, Action_bind, lift. rewrite Hverify.
  cbn [IJWTPayload.userId]. rewrite getUserProfile_run, Hfound.
  split; [reflexivity|]. apply found_lookup in Hfound as [_ Hfid]. exact Hfid.
Qed.

End AccessTokens.

(** Bob's login of [Scenario], and what he does next: he logs out from all
    devices and resets his password. *)
Module Visit.

Definition response : IUserResponse.t :=
  Eval vm_compute in
    match fst Scenario.login with
    | Ok (response, _) => response
    | Throw _ => toResponse Sample.bob
    end.

Definition tokens : ITokenResponse.t :=
  Eval vm_compute in
    match fst Scenario.login with
    | Ok (_, tokens) => tokens
    | Throw _ => ITokenResponse.mk EmptyString EmptyString None
    end.

Definition request : IAuthenticatedRequest.t :=
  IAuthenticatedRequest.mk (Some ("Bearer " +:+ ITokenResponse.accessToken tokens))
    (fun _ => None) None.

Definition calls : list (Env * Call) :=
  [(Sample.env, LogoutAll "u1"); (Sample.env, ResetPassword "feed" "NewPassword1!")].

Definition afterwards : World :=
  Eval vm_compute in
    run (J := Reference.jwt) (B := Reference.bcrypt) defaultConfig calls Scenario.loggedIn.

End Visit.

Lemma access_token_never_revoked_witness :
  exists profile,
    authenticateToken (J := Reference.jwt) defaultConfig Sample.envNextSecond
      Visit.request
      (run (J := Reference.jwt) (B := Reference.bcrypt) defaultConfig Visit.calls
         Scenario.loggedIn)
    = ((IAuthenticatedRequest.set_user (Some profile) Visit.request, Continue),
       run (J := Reference.jwt) (B := Reference.bcrypt) defaultConfig Visit.calls
         Scenario.loggedIn)
    /\ IUserResponse.id profile = IUserResponse.id Visit.response.
Proof.
  apply (access_token_never_revoked (J := Reference.jwt) (S := Reference.jwt_spec)
           (B := Reference.bcrypt) defaultConfig Sample.env Sample.envNextSecond
           (IUserLogin.mk "bob@example.com" "Secret123!") Sample.world Scenario.loggedIn
           Visit.response Visit.tokens 900 Visit.calls Visit.request).
  - vm_compute; reflexivity.
  - vm_compute; reflexivity.
  - vm_compute; reflexivity.
  - vm_compute; reflexivity.
Defined.

(** By then the record has no session left, and a new password. *)
Example visit_sessions_cleared :
  (fun u => (IUser.refreshTokens u, IUser.passwordResetToken u)) <$> users Visit.afterwards
  = [([], None)].
Proof. reflexivity. Qed.

(** ** Properties of the handlers *)

Section Handlers.

Context {B : Bcrypt}.
Variable env : Env.
Variable nodeEnv : option string.
Variable libraryMessage : Exn -> string.


(** What [AuthService.resetPassword] has written when it returns, and
    when it throws. *)
Lemma resetPassword_written (token newPassword : string) (w : World) :
  match AuthService.resetPassword env token newPassword w with
  | (Ok _, w') =>
      exists i user user',
        users w !! i = Some user
        /\ IUser.passwordResetToken user = Some token
        /\ w' = mkWorld (<[i := user']> (users w)) (mails w)
        /\ IUser._id user' = IUser._id user
        /\ IUser.passwordResetToken user' = None
        /\ IUser.refreshTokens user' = []
  | (Throw _, w') => w' = w
  end.
Proof.
  run_action. unfold save.
  destruct (list_find _ (users w)) as [[i user]|] eqn:Hf; cbn; [|now destruct w].
  apply found_lookup in Hf as [Hi [Hheld _]].
  destruct (String.eqb newPassword (IUser.password user)); cbn.
  - eexists i, user, _. repeat split; [exact Hi | exact Hheld].
  - destruct (validatePassword _); cbn; [|now destruct w].
    eexists i, user, _. repeat split; [exact Hi | exact Hheld].
Qed.

(** X30. [resetPassword] answers with the 400 exactly when the token or
    the new password of the body is missing or falsy; otherwise it
    redirects, whatever the two values are, and passes no error on.  When
    the two are strings, it redirects to the page of failure only when
    nothing was written, and to the page of success only when a record
    that held the token was written back without reset token and without
    sessions. *)
Theorem resetPassword_redirects
    (resetPasswordCast : JsonValue -> JsonValue -> Action IUserResponse.t)
    (req : IAuthenticatedRequest.t) (w : World) :
  match AuthController.resetPassword env resetPasswordCast req w with
  | (Replied (Json status body), w') =>
      status = 400 /\ w' = w
      /\ isTruthy (IAuthenticatedRequest.body req "token")
         && isTruthy (IAuthenticatedRequest.body req "newPassword") = false
  | (Replied (Redirect url), w') =>
      isTruthy (IAuthenticatedRequest.body req "token")
      && isTruthy (IAuthenticatedRequest.body req "newPassword") = true
      /\ (url = "/pages/password-reset-failed"%string
          \/ url = "/pages/password-reset-success"%string)
      /\ forall token newPassword,
           IAuthenticatedRequest.body req "token" = Some (JsonString token) ->
           IAuthenticatedRequest.body req "newPassword" = Some (JsonString newPassword) ->
           (url = "/pages/password-reset-failed"%string /\ w' = w)
           \/ (url = "/pages/password-reset-success"%string
               /\ exists i user user',
                    users w !! i = Some user
                    /\ IUser.passwordResetToken user = Some token
                    /\ w' = mkWorld (<[i := user']> (users w)) (mails w)
                    /\ IUser._id user' = IUser._id user
                    /\ IUser.passwordResetToken user' = None
                    /\ IUser.refreshTokens user' = [])
  | (Passed _, _) => False
  end.
Proof.
  unfold AuthController.resetPassword.
  destruct (IAuthenticatedRequest.body req "token") as [tokenValue|] eqn:Htoken;
    [|cbn; auto].
  destruct (IAuthenticatedRequest.body req "newPassword") as [passwordValue|]
    eqn:Hpassword; [|cbn; rewrite andb_false_r; auto].
  destruct (isTruthy (Some tokenValue)) eqn:Ht; cbn [negb orb andb]; [|auto].
  destruct (isTruthy (Some passwordValue)) eqn:Hp; cbn [negb orb andb]; [|auto].
  destruct (AuthController.resetPasswordCall env resetPasswordCast
              tokenValue passwordValue w) as [[response|error] w'] eqn:Hrun;
    (split; [reflexivity|]); (split; [auto|]);
    intros token newPassword [= ->] [= ->];
    cbn [AuthController.resetPasswordCall] in Hrun;
    pose proof (resetPassword_written token newPassword w) as Hwritten;
    rewrite Hrun in Hwritten; auto.
Qed.

End Handlers.


Lemma resetPassword_redirects_witness :
  let request :=
    IAuthenticatedRequest.mk None
      (fun field =>
         if String.eqb field "token" then Some (JsonString "feed")
         else if String.eqb field "newPassword" then Some (JsonString "NewSecret456!")
         else None)
      None in
  let answered :=
    AuthController.resetPassword (B := Reference.bcrypt) Sample.env
      (fun _ _ => throw (Error "Failed to reset password")) request Sample.world in
  fst answered = Replied (Redirect "/pages/password-reset-success")
  /\ exists i user',
       snd answered = mkWorld (<[i := user']> (users Sample.world)) (mails Sample.world)
       /\ IUser.passwordResetToken user' = None
       /\ IUser.refreshTokens user' = [].
Proof.
  intros request answered.
  pose proof (resetPassword_redirects (B := Reference.bcrypt) Sample.env
                (fun _ _ => throw (Error "Failed to reset password"))
                request Sample.world) as Hanswer.
  fold answered in Hanswer.
  assert (Hpage : fst answered = Replied (Redirect "/pages/password-reset-success"))
    by (vm_compute; reflexivity).
  split; [exact Hpage|].
  destruct answered as [handled w']. cbn [fst snd] in *. subst handled.
  destruct Hanswer as (_ & _ & Hwritten).
  destruct (Hwritten "feed"%string "NewSecret456!"%string eq_refl eq_refl)
    as [[Hurl _]|[_ (i & user & user' & _ & _ & Hw & _ & Hcleared & Hsessions)]];
    [discriminate|].
  exists i, user'. auto.
Defined.
